(** * Bus and timers of the PlayStation core: a shallow embedding

    The development follows [src/core/timers.cpp] and [src/core/bus.cpp].
    Machine integers are [Z] with the wrap-around written out, bit-packed
    registers are [Z] words read with [Z.testbit], [Z.land] and [Z.shiftr],
    the array of counter states and the MEMCTRL register file are lists
    read and updated by index, and the member functions of the two classes
    are computations in a small state-and-failure monad over the object
    they belong to. *)

From Stdlib Require Import ZArith Lia Bool String Ascii.
From stdpp Require Import base list gmap.

Local Open Scope Z_scope.

(** ** Machine integers *)

(** [static_cast<u32>] and every arithmetic result held in a [u32]. *)
Definition u32 (x : Z) : Z := x mod 2 ^ 32.

(** [TickCount] is a signed 32-bit integer: reduction to two's complement. *)
Definition s32 (x : Z) : Z := (x + 2 ^ 31) mod 2 ^ 32 - 2 ^ 31.

(** [~x] on a [u32]. *)
Definition not32 (x : Z) : Z := Z.lxor x 0xFFFFFFFF.

Definition TickCount_max : Z := 2 ^ 31 - 1.

(** A one-bit field of a packed register, and its assignment. *)
Definition get_flag (pos : Z) (bits : Z) : bool := Z.testbit bits pos.

Definition set_flag (pos : Z) (v : bool) (bits : Z) : Z :=
  if v then Z.setbit bits pos else Z.clearbit bits pos.

(** A [width]-bit field starting at bit [pos]. *)
Definition get_field (pos width : Z) (bits : Z) : Z :=
  Z.land (Z.shiftr bits pos) (Z.ones width).

(** ** Member functions as computations

    A member function that returns an [A] is a function from the state of
    its object to the result and the state it leaves, or to [None] where
    the source has no defined behaviour (an index outside an array). *)

Definition Comp (S A : Type) : Type := S -> option (A * S).

Definition ret {S A} (a : A) : Comp S A := fun st => Some (a, st).

Definition bind {S A B} (m : Comp S A) (k : A -> Comp S B) : Comp S B :=
  fun st => match m st with
            | Some (a, st') => k a st'
            | None => None
            end.

Definition when {S} (b : bool) (m : Comp S unit) : Comp S unit :=
  if b then m else ret tt.

Declare Scope comp_scope.
Delimit Scope comp_scope with comp.
Notation "'let*' x ':=' m 'in' k" := (bind m (fun x => k))
  (at level 10, x name, m at level 100, k at level 200) : comp_scope.
Notation "'let*' ' p ':=' m 'in' k" := (bind m (fun x => let p := x in k))
  (at level 10, p strict pattern, m at level 100, k at level 200) : comp_scope.
Notation "m >> k" := (bind m (fun _ => k))
  (at level 100, k at level 200, right associativity) : comp_scope.
Local Open Scope comp_scope.

(** ** The timer unit ([timers.cpp]) *)

Module Timers.

Definition NUM_TIMERS : nat := 3.

(** Modelled from the spec: the bit layout of [CounterMode], declared in
    timers.h, which is not part of the slice.  The spec lists the fields
    as [sync_enable], [sync_mode] (2 bits), [reset_at_target],
    [irq_at_target], [irq_on_overflow], [irq_repeat], [irq_pulse_n],
    [clock_source] (2 bits), [interrupt_request_n], [reached_target],
    [reached_overflow]; packed in that order from bit 0 they fill the
    thirteen bits that the mask [0x1FFF] of [WriteRegister] keeps. *)
Module CounterMode.
Definition sync_enable := get_flag 0.
Definition sync_mode := get_field 1 2.
Definition reset_at_target := get_flag 3.
Definition irq_at_target := get_flag 4.
Definition irq_on_overflow := get_flag 5.
Definition irq_repeat := get_flag 6.
Definition irq_pulse_n := get_flag 7.
Definition clock_source := get_field 8 2.
Definition interrupt_request_n := get_flag 10.
Definition reached_target := get_flag 11.
Definition reached_overflow := get_flag 12.

Definition set_sync_enable := set_flag 0.
Definition set_interrupt_request_n := set_flag 10.
Definition set_reached_target := set_flag 11.
Definition set_reached_overflow := set_flag 12.
End CounterMode.

(** Modelled from the spec: the values of [SyncMode] (section 4.6.1). *)
Inductive SyncMode := PauseOnGate | ResetOnGate | ResetAndRunOnGate | FreeRunOnGate.

Definition SyncMode_of (v : Z) : SyncMode :=
  if v =? 0 then PauseOnGate
  else if v =? 1 then ResetOnGate
  else if v =? 2 then ResetAndRunOnGate
  else FreeRunOnGate.

(** [Timers::CounterState].  The declaration is in timers.h; [counter]
    and [target] are held in 32-bit unsigned integers, which is how the
    source reads them ([const u32 old_counter = cs.counter]) and why it
    masks them with [0xFFFF] when the guest writes them. *)
Record CounterState := mkCounterState {
  mode : Z;
  counter : Z;
  target : Z;
  gate : bool;
  use_external_clock : bool;
  external_counting_enabled : bool;
  counting_enabled : bool;
  irq_done : bool
}.

Definition set_mode (v : Z) (cs : CounterState) : CounterState :=
  mkCounterState v (counter cs) (target cs) (gate cs) (use_external_clock cs)
    (external_counting_enabled cs) (counting_enabled cs) (irq_done cs).
Definition set_counter (v : Z) (cs : CounterState) : CounterState :=
  mkCounterState (mode cs) v (target cs) (gate cs) (use_external_clock cs)
    (external_counting_enabled cs) (counting_enabled cs) (irq_done cs).
Definition set_target (v : Z) (cs : CounterState) : CounterState :=
  mkCounterState (mode cs) (counter cs) v (gate cs) (use_external_clock cs)
    (external_counting_enabled cs) (counting_enabled cs) (irq_done cs).
Definition set_gate (v : bool) (cs : CounterState) : CounterState :=
  mkCounterState (mode cs) (counter cs) (target cs) v (use_external_clock cs)
    (external_counting_enabled cs) (counting_enabled cs) (irq_done cs).
Definition set_use_external_clock (v : bool) (cs : CounterState) : CounterState :=
  mkCounterState (mode cs) (counter cs) (target cs) (gate cs) v
    (external_counting_enabled cs) (counting_enabled cs) (irq_done cs).
Definition set_external_counting_enabled (v : bool) (cs : CounterState) : CounterState :=
  mkCounterState (mode cs) (counter cs) (target cs) (gate cs) (use_external_clock cs)
    v (counting_enabled cs) (irq_done cs).
Definition set_counting_enabled (v : bool) (cs : CounterState) : CounterState :=
  mkCounterState (mode cs) (counter cs) (target cs) (gate cs) (use_external_clock cs)
    (external_counting_enabled cs) v (irq_done cs).
Definition set_irq_done (v : bool) (cs : CounterState) : CounterState :=
  mkCounterState (mode cs) (counter cs) (target cs) (gate cs) (use_external_clock cs)
    (external_counting_enabled cs) (counting_enabled cs) v.

(** The [Timers] object together with what its two collaborators have
    received from it: the interrupt controller the requests raised through
    [InterruptRequest] (oldest first), the system the last value passed to
    [SetDowncount].  The debug and error lines that the unit sends to the
    logger are not kept. *)
Record State := mkState {
  m_states : list CounterState;
  m_sysclk_div_8_carry : Z;
  irq_requests : list Z;
  downcount : Z
}.

Definition with_states (l : list CounterState) (st : State) : State :=
  mkState l (m_sysclk_div_8_carry st) (irq_requests st) (downcount st).

(** Computations of the timer unit.  [None] is an access to [m_states]
    outside the array, which the source leaves undefined. *)
Definition M (A : Type) : Type := Comp State A.

(** [m_states[timer]] read through the reference [cs]. *)
Definition state_at (timer : nat) : M CounterState :=
  fun st => match m_states st !! timer with
            | Some cs => Some (cs, st)
            | None => None
            end.

(** An assignment [cs.field = ...] through the reference. *)
Definition modify_state (timer : nat) (f : CounterState -> CounterState) : M unit :=
  fun st => match m_states st !! timer with
            | Some cs => Some (tt, with_states (<[timer := f cs]> (m_states st)) st)
            | None => None
            end.

Definition modify_mode (timer : nat) (f : Z -> Z) : M unit :=
  modify_state timer (fun cs => set_mode (f (mode cs)) cs).

Definition get_carry : M Z := fun st => Some (m_sysclk_div_8_carry st, st).

Definition put_carry (v : Z) : M unit :=
  fun st => Some (tt, mkState (m_states st) v (irq_requests st) (downcount st)).

(** [m_system->SetDowncount(ticks)]. *)
Definition SetDowncount (ticks : Z) : M unit :=
  fun st => Some (tt, mkState (m_states st) (m_sysclk_div_8_carry st) (irq_requests st) ticks).

Section WithCollaborators.

(** [InterruptController::IRQ::TMR0], declared in interrupt_controller.h. *)
Variable TMR0 : Z.

(** [m_system->Synchronize()]: the system brings the timers up to date
    with the CPU before a register is observed.  What it does is the
    system's business; here it is any transformation of the state. *)
Variable Synchronize : State -> State.

Definition do_Synchronize : M unit := fun st => Some (tt, Synchronize st).

(** [m_interrupt_controller->InterruptRequest(irq)]. *)
Definition InterruptRequest (irq : Z) : M unit :=
  fun st => Some (tt, mkState (m_states st) (m_sysclk_div_8_carry st)
                        (irq_requests st ++ [irq]) (downcount st)).

(** [Timers::Reset] *)
Definition Reset : M unit :=
  fun st =>
    Some (tt, mkState
      ((fun cs => set_irq_done false (set_counting_enabled true
                 (set_external_counting_enabled false (set_gate false
                 (set_target 0 (set_counter 0 (set_mode 0 cs))))))) <$> m_states st)
      0 (irq_requests st) (downcount st)).

(** [Timers::UpdateCountingEnabled] *)
Definition UpdateCountingEnabled (cs : CounterState) : CounterState :=
  let cs1 :=
    if CounterMode.sync_enable (mode cs) then
      match SyncMode_of (CounterMode.sync_mode (mode cs)) with
      | PauseOnGate | FreeRunOnGate => set_counting_enabled (negb (gate cs)) cs
      | ResetOnGate => set_counting_enabled true cs
      | ResetAndRunOnGate => set_counting_enabled (gate cs) cs
      end
    else set_counting_enabled true cs in
  set_external_counting_enabled (use_external_clock cs1 && counting_enabled cs1) cs1.

(** [Timers::UpdateIRQ] *)
Definition UpdateIRQ (index : nat) : M unit :=
  let* cs := state_at index in
  if CounterMode.interrupt_request_n (mode cs)
     || (negb (CounterMode.irq_repeat (mode cs)) && irq_done cs)
  then ret tt
  else
    modify_state index (set_irq_done true) >>
    InterruptRequest (TMR0 + Z.of_nat index).

(** [Timers::SetGate] *)
Definition SetGate (timer : nat) (state : bool) : M unit :=
  let* cs := state_at timer in
  if Bool.eqb (gate cs) state then ret tt
  else
    modify_state timer (set_gate state) >>
    when (CounterMode.sync_enable (mode cs))
      (when state
         (match SyncMode_of (CounterMode.sync_mode (mode cs)) with
          | ResetOnGate | ResetAndRunOnGate => modify_state timer (set_counter 0)
          | FreeRunOnGate => modify_mode timer (CounterMode.set_sync_enable false)
          | PauseOnGate => ret tt
          end) >>
       modify_state timer UpdateCountingEnabled).

(** [Timers::AddTicks] *)
Definition AddTicks (timer : nat) (count : Z) : M unit :=
  let* cs := state_at timer in
  let old_counter := counter cs in
  modify_state timer (fun cs => set_counter (u32 (counter cs + u32 count)) cs) >>
  let* cs := state_at timer in
  let at_target := (target cs <=? counter cs) && (old_counter <? target cs) in
  when at_target (modify_mode timer (CounterMode.set_reached_target true)) >>
  let at_overflow := 0xFFFF <=? counter cs in
  when at_overflow (modify_mode timer (CounterMode.set_reached_overflow true)) >>
  let interrupt_request := at_target || at_overflow in
  when interrupt_request
    (let* cs := state_at timer in
     if negb (CounterMode.irq_pulse_n (mode cs)) then
       (* this is actually low for a few cycles *)
       modify_mode timer (CounterMode.set_interrupt_request_n false) >>
       UpdateIRQ timer >>
       modify_mode timer (CounterMode.set_interrupt_request_n true)
     else
       modify_mode timer
         (fun m => CounterMode.set_interrupt_request_n
                     (xorb (CounterMode.interrupt_request_n m) true) m) >>
       UpdateIRQ timer) >>
  let* cs := state_at timer in
  if CounterMode.reset_at_target (mode cs) then
    if 0 <? target cs
    then modify_state timer (fun cs => set_counter (counter cs mod target cs) cs)
    else modify_state timer (set_counter 0)
  else
    modify_state timer (fun cs => set_counter (counter cs mod 0xFFFF) cs).

(** One round of the loop of [Timers::UpdateDowncount]. *)
Definition downcount_round (i : nat) (cs : CounterState) (min_ticks : Z) : Z :=
  if negb (counting_enabled cs) || ((i <? 2)%nat && external_counting_enabled cs)
  then min_ticks
  else
    let m0 := min_ticks in
    let m1 := if CounterMode.irq_at_target (mode cs) && (counter cs <? target cs)
              then s32 (u32 (target cs - counter cs)) else m0 in
    let m2 := if CounterMode.irq_on_overflow (mode cs) && (counter cs <? target cs)
              then Z.min m1 (s32 (u32 (0xFFFF - counter cs))) else m1 in
    let m3 := if external_counting_enabled cs
              then Z.max 1 (Z.quot m2 8) else m2 in
    Z.min min_ticks m3.

Fixpoint downcount_loop (i n : nat) (min_ticks : Z) : M Z :=
  match n with
  | O => ret min_ticks
  | S n' =>
      let* cs := state_at i in
      downcount_loop (S i) n' (downcount_round i cs min_ticks)
  end.

(** [Timers::UpdateDowncount] *)
Definition UpdateDowncount : M unit :=
  let* min_ticks := downcount_loop 0 NUM_TIMERS TickCount_max in
  SetDowncount min_ticks.

(** [Timers::Execute] *)
Definition Execute (sysclk_ticks : Z) : M unit :=
  let* s0 := state_at 0 in
  when (negb (external_counting_enabled s0) && counting_enabled s0)
    (AddTicks 0 sysclk_ticks) >>
  let* s1 := state_at 1 in
  when (negb (external_counting_enabled s1) && counting_enabled s1)
    (AddTicks 1 sysclk_ticks) >>
  let* s2 := state_at 2 in
  (if external_counting_enabled s2 then
     let* carry := get_carry in
     let sysclk_div_8_ticks := Z.quot (s32 (sysclk_ticks + carry)) 8 in
     put_carry (Z.rem (s32 (sysclk_ticks + carry)) 8) >>
     AddTicks 2 sysclk_div_8_ticks
   else
     when (counting_enabled s2)
       (AddTicks 2 (if external_counting_enabled s2
                    then Z.quot sysclk_ticks 8 else sysclk_ticks))) >>
  UpdateDowncount.

Definition timer_index_of (offset : Z) : nat :=
  Z.to_nat (Z.land (Z.shiftr offset 4) 0x03).

Definition port_offset_of (offset : Z) : Z := Z.land offset 0x0F.

(** [Timers::ReadRegister].  The reference [cs] is bound before the
    switch and followed inside the three cases that use it. *)
Definition ReadRegister (offset : Z) : M Z :=
  let timer_index := timer_index_of offset in
  let port_offset := port_offset_of offset in
  if port_offset =? 0x00 then
    do_Synchronize >>
    let* cs := state_at timer_index in
    ret (counter cs)
  else if port_offset =? 0x04 then
    do_Synchronize >>
    let* cs := state_at timer_index in
    let bits := mode cs in
    modify_mode timer_index (CounterMode.set_reached_overflow false) >>
    modify_mode timer_index (CounterMode.set_reached_target false) >>
    ret bits
  else if port_offset =? 0x08 then
    let* cs := state_at timer_index in
    ret (target cs)
  else
    ret 0xFFFFFFFF.

(** [Timers::WriteRegister] *)
Definition WriteRegister (offset : Z) (value : Z) : M unit :=
  let timer_index := timer_index_of offset in
  let port_offset := port_offset_of offset in
  if port_offset =? 0x00 then
    do_Synchronize >>
    modify_state timer_index (set_counter (Z.land value 0xFFFF))
  else if port_offset =? 0x04 then
    do_Synchronize >>
    modify_state timer_index (set_mode (Z.land value 0x1FFF)) >>
    modify_state timer_index
      (fun cs => set_use_external_clock
         (negb (Z.land (CounterMode.clock_source (mode cs))
                       (if (timer_index =? 2)%nat then 2 else 1) =? 0)) cs) >>
    modify_state timer_index (set_counter 0) >>
    modify_state timer_index (set_irq_done false) >>
    let* cs := state_at timer_index in
    when (CounterMode.irq_pulse_n (mode cs))
      (modify_mode timer_index (CounterMode.set_interrupt_request_n true)) >>
    modify_state timer_index UpdateCountingEnabled >>
    UpdateIRQ timer_index
  else if port_offset =? 0x08 then
    do_Synchronize >>
    modify_state timer_index (set_target (Z.land value 0xFFFF))
  else
    ret tt.

End WithCollaborators.

(** *** What [AddTicks] does to the counter it is applied to

    [UpdateIRQ_on] and [AddTicks_on] follow [UpdateIRQ] and [AddTicks] on
    the one [CounterState] that the two functions reach through their
    reference, and tell whether the interrupt controller is called. *)
Definition UpdateIRQ_on (cs : CounterState) : CounterState * bool :=
  if CounterMode.interrupt_request_n (mode cs)
     || (negb (CounterMode.irq_repeat (mode cs)) && irq_done cs)
  then (cs, false)
  else (set_irq_done true cs, true).

Definition request_on (cs : CounterState) : CounterState * bool :=
  if negb (CounterMode.irq_pulse_n (mode cs)) then
    let r := UpdateIRQ_on
               (set_mode (CounterMode.set_interrupt_request_n false (mode cs)) cs) in
    (set_mode (CounterMode.set_interrupt_request_n true (mode (fst r))) (fst r), snd r)
  else
    UpdateIRQ_on
      (set_mode (CounterMode.set_interrupt_request_n
                   (xorb (CounterMode.interrupt_request_n (mode cs)) true) (mode cs)) cs).

Definition wrap_counter (cs : CounterState) : CounterState :=
  if CounterMode.reset_at_target (mode cs) then
    if 0 <? target cs then set_counter (counter cs mod target cs) cs
    else set_counter 0 cs
  else set_counter (counter cs mod 0xFFFF) cs.

Definition AddTicks_on (cs : CounterState) (count : Z) : CounterState * bool :=
  let old_counter := counter cs in
  let cs := set_counter (u32 (counter cs + u32 count)) cs in
  let at_target := (target cs <=? counter cs) && (old_counter <? target cs) in
  let at_overflow := 0xFFFF <=? counter cs in
  let cs := if at_target
            then set_mode (CounterMode.set_reached_target true (mode cs)) cs else cs in
  let cs := if at_overflow
            then set_mode (CounterMode.set_reached_overflow true (mode cs)) cs else cs in
  let r := if at_target || at_overflow then request_on cs else (cs, false) in
  (wrap_counter (fst r), snd r).

(** The requests a call hands to the interrupt controller. *)
Definition raised_irqs (raised : bool) (irq : Z) : list Z :=
  if raised then [irq] else [].

(** How often the controller has been asked for [irq]. *)
Definition irq_count (irq : Z) (requests : list Z) : nat :=
  length (filter (fun r => r = irq) requests).

(** [Execute] called once for each tick budget of a list, in order. *)
Fixpoint Execute_all (TMR0 : Z) (budgets : list Z) : M unit :=
  match budgets with
  | [] => ret tt
  | n :: rest => Execute TMR0 n >> Execute_all TMR0 rest
  end.

(** The sum of a list of tick budgets. *)
Definition total_ticks (budgets : list Z) : Z := foldr Z.add 0 budgets.

(** A timer that counts sysclk ticks and restarts at its target [T],
    raising a repeated, pulsed interrupt: what [Execute] and [AddTicks]
    look at of the configuration "sync disabled, internal clock,
    [reset_at_target], [irq_repeat]". *)
Definition periodic_timer (T : Z) (cs : CounterState) : Prop :=
  CounterMode.reset_at_target (mode cs) = true /\
  CounterMode.irq_repeat (mode cs) = true /\
  CounterMode.irq_pulse_n (mode cs) = false /\
  target cs = T /\
  counting_enabled cs = true /\
  external_counting_enabled cs = false.

(** The counters as [Reset] leaves them, nothing yet sent to the
    collaborators ([use_external_clock], which [Reset] does not assign,
    is clear). *)
Definition reset_counter : CounterState :=
  mkCounterState 0 0 0 false false false true false.

Definition reset_state : State :=
  mkState [reset_counter; reset_counter; reset_counter] 0 [] 0.

(** Timer 0 of scenario S4: [reset_at_target], [irq_at_target] and
    [irq_repeat] set, pulse mode, the request line high, target 100. *)
Definition periodic_100 : CounterState :=
  mkCounterState 0x458 0 100 false false false true false.

Definition periodic_state : State :=
  mkState [periodic_100; reset_counter; reset_counter] 0 [] 0.

(** Timer 0 after a target hit: [reached_target] and [reached_overflow]
    both set on top of the mode of [periodic_100], one request raised. *)
Definition hit_100 : CounterState :=
  mkCounterState 0x1C58 0 100 false false false true true.

Definition after_hit : State :=
  mkState [hit_100; reset_counter; reset_counter] 0 [4] 0.

(** Timer 2 of scenario S5: external clock selected and counting, target
    10, every other mode field clear. *)
Definition timer2_div8 : CounterState :=
  mkCounterState 0x200 0 10 false true true true false.

(** *** The ranges the unit keeps

    What every counter satisfies after [Reset] and keeps from then on:
    the mode word within the thirteen bits [WriteRegister] stores, the
    counter and the target within sixteen bits, and the external-clock
    flag raised only together with the two flags it is computed from. *)
Definition counter_ok (cs : CounterState) : Prop :=
  0 <= mode cs < 0x2000 /\
  0 <= counter cs < 0x10000 /\
  0 <= target cs < 0x10000 /\
  (external_counting_enabled cs = true ->
   use_external_clock cs = true /\ counting_enabled cs = true).

Definition state_ok (st : State) : Prop :=
  length (m_states st) = NUM_TIMERS /\
  Forall counter_ok (m_states st) /\
  0 <= m_sysclk_div_8_carry st < 8.

(** Timer 1 synchronised to its gate in mode 2 (reset and run on gate),
    the gate low, the counter part-way. *)
Definition gated_counter : CounterState :=
  mkCounterState 0x405 1234 0 false false false false false.

Definition gated_state : State :=
  mkState [reset_counter; gated_counter; reset_counter] 0 [] 0.

(** Timer 1 synchronised in mode 3 (free run on gate). *)
Definition free_run_counter : CounterState :=
  mkCounterState 0x407 77 0 false false false true false.

Definition free_run_state : State :=
  mkState [reset_counter; free_run_counter; reset_counter] 0 [] 0.

(** *** What [SetGate] and a mode write do to the counter they reach

    As [AddTicks_on] for [AddTicks]: the same steps on the one
    [CounterState] behind the reference. *)
Definition SetGate_on (state : bool) (cs : CounterState) : CounterState :=
  if Bool.eqb (gate cs) state then cs
  else
    let cs1 := set_gate state cs in
    if CounterMode.sync_enable (mode cs) then
      UpdateCountingEnabled
        (if state then
           match SyncMode_of (CounterMode.sync_mode (mode cs)) with
           | ResetOnGate | ResetAndRunOnGate => set_counter 0 cs1
           | FreeRunOnGate =>
               set_mode (CounterMode.set_sync_enable false (mode cs1)) cs1
           | PauseOnGate => cs1
           end
         else cs1)
    else cs1.

Definition WriteMode_on (timer_index : nat) (value : Z) (cs : CounterState)
  : CounterState * bool :=
  let cs := set_mode (Z.land value 0x1FFF) cs in
  let cs := set_use_external_clock
              (negb (Z.land (CounterMode.clock_source (mode cs))
                            (if (timer_index =? 2)%nat then 2 else 1) =? 0)) cs in
  let cs := set_counter 0 cs in
  let cs := set_irq_done false cs in
  let cs := if CounterMode.irq_pulse_n (mode cs)
            then set_mode (CounterMode.set_interrupt_request_n true (mode cs)) cs
            else cs in
  UpdateIRQ_on (UpdateCountingEnabled cs).

(** Timer 0 raising a one-shot interrupt at target 100: [irq_at_target]
    set, [irq_repeat] clear, pulse mode. *)
Definition one_shot_state : State :=
  mkState [mkCounterState 0x410 0 100 false false false true false;
           reset_counter; reset_counter] 0 [] 0.

(** The modulus of the wrap at the end of [AddTicks]: the target when
    the counter resets at it, otherwise [0xFFFF]. *)
Definition wrap_modulus (cs : CounterState) : Z :=
  if CounterMode.reset_at_target (mode cs) then target cs else 0xFFFF.

(** A timer that [Execute] passes over: paused with its external clock
    off, or timer 0 or 1 counting on its external clock. *)
Definition not_driven (t : nat) (cs : CounterState) : Prop :=
  (counting_enabled cs = false /\ external_counting_enabled cs = false) \/
  ((t < 2)%nat /\ external_counting_enabled cs = true).

(** *** Passes of the target

    A timer that counts sysclk ticks and restarts at its target [T] with
    a repeated interrupt, in pulse or in toggle mode: what [Execute] and
    [AddTicks] look at of the configuration "sync disabled, internal
    clock, [reset_at_target], [irq_repeat]". *)
Definition repeating_timer (T : Z) (cs : CounterState) : Prop :=
  CounterMode.reset_at_target (mode cs) = true /\
  CounterMode.irq_repeat (mode cs) = true /\
  target cs = T /\
  counting_enabled cs = true /\
  external_counting_enabled cs = false.

(** How many calls of [Execute], out of a list of tick budgets, take a
    counter that stands at [c] and restarts at [T] to its target or past
    it: [AddTicks] compares once in a call, then reduces the counter
    modulo [T]. *)
Fixpoint target_passes (T c : Z) (budgets : list Z) : Z :=
  match budgets with
  | [] => 0
  | n :: rest => (if T <=? c + n then 1 else 0) + target_passes T ((c + n) mod T) rest
  end.

(** The requests that a number of passes raise on a timer with
    [irq_repeat] set: one for each pass in pulse mode; in toggle mode the
    line changes side at each pass and only the passes that take it low
    raise a request. *)
Definition requests_of_passes (cs : CounterState) (passes : Z) : Z :=
  if CounterMode.irq_pulse_n (mode cs)
  then (passes + (if CounterMode.interrupt_request_n (mode cs) then 1 else 0)) / 2
  else passes.

End Timers.

(** ** The bus ([bus.cpp]) *)

Module Bus.

Inductive MemoryAccessType := Read | Write.

(** [static_cast<u32>(size)] is 0, 1 and 2 in this order. *)
Inductive MemoryAccessSize := Byte | HalfWord | Word.

Definition ZeroExtend32 (v : Z) : Z := u32 v.
Definition Truncate8 (v : Z) : Z := Z.land v 0xFF.
Definition Truncate16 (v : Z) : Z := Z.land v 0xFFFF.

(** Modelled from the spec: the fields of [MEMDELAY] and [COMDELAY],
    declared in bus.h, which is not part of the slice.  The spec names the
    fields and their widths (4 bits for [access_time] and for each of
    [com0] to [com3]) but not their positions in the register word, so a
    register word is viewed through [MEMDELAY_of] and [COMDELAY_of] below. *)
Record MEMDELAY := mkMEMDELAY {
  access_time : Z;
  use_com0_time : bool;
  use_com1_time : bool;
  use_com2_time : bool;
  use_com3_time : bool;
  data_bus_16bit : bool
}.

Record COMDELAY := mkCOMDELAY {
  com0 : Z;
  com1 : Z;
  com2 : Z;
  com3 : Z
}.

(** [Bus::CalculateMemoryTiming], in [s32] arithmetic as the source has it. *)
Definition CalculateMemoryTiming (mem_delay : MEMDELAY) (common_delay : COMDELAY)
  : Z * Z * Z :=
  let first := 0 in
  let seq := 0 in
  let min := 0 in
  let '(first, seq) :=
    if use_com0_time mem_delay
    then (s32 (first + s32 (s32 (com0 common_delay) - 1)),
          s32 (seq + s32 (s32 (com0 common_delay) - 1)))
    else (first, seq) in
  let '(first, seq) :=
    if use_com2_time mem_delay
    then (s32 (first + s32 (com2 common_delay)),
          s32 (seq + s32 (com2 common_delay)))
    else (first, seq) in
  let min := if use_com3_time mem_delay then s32 (com3 common_delay) else min in
  let first := if first <? 6 then s32 (first + 1) else first in
  let first := s32 (s32 (first + s32 (access_time mem_delay)) + 2) in
  let seq := s32 (s32 (seq + s32 (access_time mem_delay)) + 2) in
  let first := if first <? s32 (min + 6) then s32 (min + 6) else first in
  let seq := if seq <? s32 (min + 2) then s32 (min + 2) else seq in
  let byte_access_time := first in
  let halfword_access_time :=
    if data_bus_16bit mem_delay then first else s32 (first + seq) in
  let word_access_time :=
    if data_bus_16bit mem_delay then s32 (first + seq)
    else s32 (s32 (s32 (first + seq) + seq) + seq) in
  (byte_access_time, halfword_access_time, word_access_time).

(** The recipe of section 4.4 of the specification, word for word, over
    unbounded integers. *)
Definition timing_recipe (mem_delay : MEMDELAY) (common_delay : COMDELAY)
  : Z * Z * Z :=
  let first := 0 in
  let seq := 0 in
  let min := 0 in
  let first := if use_com0_time mem_delay then first + (com0 common_delay - 1) else first in
  let seq := if use_com0_time mem_delay then seq + (com0 common_delay - 1) else seq in
  let first := if use_com2_time mem_delay then first + com2 common_delay else first in
  let seq := if use_com2_time mem_delay then seq + com2 common_delay else seq in
  let min := if use_com3_time mem_delay then com3 common_delay else min in
  let first := if first <? 6 then first + 1 else first in
  let first := first + (access_time mem_delay + 2) in
  let seq := seq + (access_time mem_delay + 2) in
  let first := Z.max first (min + 6) in
  let seq := Z.max seq (min + 2) in
  (first,
   if data_bus_16bit mem_delay then first else first + seq,
   if data_bus_16bit mem_delay then first + seq else first + 3 * seq).

(** The fields come out of a register word as unsigned bytes. *)
Definition u8_range (x : Z) : Prop := 0 <= x < 256.

Definition fields_in_range (mem_delay : MEMDELAY) (common_delay : COMDELAY) : Prop :=
  u8_range (access_time mem_delay) /\ u8_range (com0 common_delay) /\
  u8_range (com1 common_delay) /\ u8_range (com2 common_delay) /\
  u8_range (com3 common_delay).

(** The bus object.  The byte arrays [m_ram] and [m_bios] are finite maps
    from offsets to bytes, an offset without an entry holding the zero that
    [Reset] fills the array with; [collaborators] is whatever state the
    devices behind the bus's pointers have; [log] is what went to the
    error channel of the logger, oldest line first. *)
Record State {Devices : Type} := mkState {
  m_ram : gmap Z Z;
  m_bios : gmap Z Z;
  m_exp1_rom : list Z;
  m_MEMCTRL_regs : list Z;
  m_ram_size_reg : Z;
  m_tty_line_buffer : string;
  m_exp1_access_time : Z * Z * Z;
  m_exp2_access_time : Z * Z * Z;
  m_bios_access_time : Z * Z * Z;
  m_cdrom_access_time : Z * Z * Z;
  m_spu_access_time : Z * Z * Z;
  collaborators : Devices;
  log : list string
}.
Arguments State : clear implicits.

Section WithDevices.

Context {Devices : Type}.

#[local] Abbreviation State := (State Devices).
#[local] Abbreviation M := (Comp State).

Definition set_ram (v : gmap Z Z) (st : State) : State :=
  mkState Devices v (m_bios st) (m_exp1_rom st) (m_MEMCTRL_regs st) (m_ram_size_reg st)
    (m_tty_line_buffer st) (m_exp1_access_time st) (m_exp2_access_time st)
    (m_bios_access_time st) (m_cdrom_access_time st) (m_spu_access_time st)
    (collaborators st) (log st).

Definition set_MEMCTRL_regs (v : list Z) (st : State) : State :=
  mkState Devices (m_ram st) (m_bios st) (m_exp1_rom st) v (m_ram_size_reg st)
    (m_tty_line_buffer st) (m_exp1_access_time st) (m_exp2_access_time st)
    (m_bios_access_time st) (m_cdrom_access_time st) (m_spu_access_time st)
    (collaborators st) (log st).

Definition set_ram_size_reg (v : Z) (st : State) : State :=
  mkState Devices (m_ram st) (m_bios st) (m_exp1_rom st) (m_MEMCTRL_regs st) v
    (m_tty_line_buffer st) (m_exp1_access_time st) (m_exp2_access_time st)
    (m_bios_access_time st) (m_cdrom_access_time st) (m_spu_access_time st)
    (collaborators st) (log st).

Definition set_access_times (bios cdrom spu : Z * Z * Z) (st : State) : State :=
  mkState Devices (m_ram st) (m_bios st) (m_exp1_rom st) (m_MEMCTRL_regs st)
    (m_ram_size_reg st) (m_tty_line_buffer st) (m_exp1_access_time st)
    (m_exp2_access_time st) bios cdrom spu (collaborators st) (log st).

Definition set_log (v : list string) (st : State) : State :=
  mkState Devices (m_ram st) (m_bios st) (m_exp1_rom st) (m_MEMCTRL_regs st)
    (m_ram_size_reg st) (m_tty_line_buffer st) (m_exp1_access_time st)
    (m_exp2_access_time st) (m_bios_access_time st) (m_cdrom_access_time st)
    (m_spu_access_time st) (collaborators st) v.

(** [Log_ErrorPrint(str)] *)
Definition Log_ErrorPrint (str : string) : M unit :=
  fun st => Some (tt, set_log (log st ++ [str]) st).

(** [%08X]: eight upper-case hexadecimal digits of a [u32]. *)
Definition hex_digit (d : Z) : ascii :=
  match d with
  | 0 => "0" | 1 => "1" | 2 => "2" | 3 => "3" | 4 => "4" | 5 => "5" | 6 => "6"
  | 7 => "7" | 8 => "8" | 9 => "9" | 10 => "A" | 11 => "B" | 12 => "C"
  | 13 => "D" | 14 => "E" | _ => "F"
  end%char.

Fixpoint hex_digits (n : nat) (v : Z) (acc : string) : string :=
  match n with
  | O => acc
  | S n' => hex_digits n' (Z.shiftr v 4) (String (hex_digit (Z.land v 0xF)) acc)
  end.

Definition format_08X (v : Z) : string := hex_digits 8 v EmptyString.

(** [Bus::DoInvalidAccess].  The result is the tick count returned and
    the contents of the reference parameter [value] on return. *)
Definition DoInvalidAccess (type : MemoryAccessType) (size : MemoryAccessSize)
    (address : Z) (value : Z) : M (Z * Z) :=
  let str := "Invalid bus "%string in
  let str := match size with Byte => (str ++ "byte")%string | _ => str end in
  let str := match size with HalfWord => (str ++ "word")%string | _ => str end in
  let str := match size with Word => (str ++ "dword")%string | _ => str end in
  let str := (str ++ " ")%string in
  let str := match type with
             | Read => (str ++ "read")%string
             | Write => (str ++ "write")%string
             end in
  let str := (str ++ " at address 0x" ++ format_08X address)%string in
  let str := match type with
             | Write => (str ++ " (value 0x" ++ format_08X value ++ ")")%string
             | Read => str
             end in
  Log_ErrorPrint str >>
  let value := match type with Read => 0xFFFFFFFF | Write => value end in
  ret (1, value).

(** What an invalid access leaves of the bus: everything but the error
    log. *)
Definition only_logged (st st' : State) : Prop :=
  exists line,
    st' = set_log (log st ++ [line]) st /\
    m_ram st' = m_ram st /\ m_bios st' = m_bios st /\
    m_exp1_rom st' = m_exp1_rom st /\
    m_MEMCTRL_regs st' = m_MEMCTRL_regs st /\
    m_ram_size_reg st' = m_ram_size_reg st /\
    m_tty_line_buffer st' = m_tty_line_buffer st /\
    m_exp1_access_time st' = m_exp1_access_time st /\
    m_exp2_access_time st' = m_exp2_access_time st /\
    m_bios_access_time st' = m_bios_access_time st /\
    m_cdrom_access_time st' = m_cdrom_access_time st /\
    m_spu_access_time st' = m_spu_access_time st /\
    collaborators st' = collaborators st.

(** [FixupUnalignedWordAccessW32]: the offset and the value it leaves. *)
Definition FixupUnalignedWordAccessW32 (offset value : Z) : Z * Z :=
  let byte_offset := Z.land offset 3 in
  (Z.land offset (not32 3), u32 (Z.shiftl value (byte_offset * 8))).

(** Modelled from the spec: the order of the nine words of [m_MEMCTRL]
    (the union is declared in bus.h): [exp1_base], [exp2_base],
    [exp1_delay_size], [exp3_delay_size], [bios_delay_size],
    [spu_delay_size], [cdrom_delay_size], [exp2_delay_size],
    [common_delay]. *)
Definition MEMCTRL_NUM_REGS : nat := 9.
Definition bios_delay_size_index : nat := 4.
Definition spu_delay_size_index : nat := 5.
Definition cdrom_delay_size_index : nat := 6.
Definition common_delay_index : nat := 8.

Section WithRegisterLayout.

(** The views of a register word, and the two write masks, all declared
    in bus.h. *)
Variable MEMDELAY_of : Z -> MEMDELAY.
Variable COMDELAY_of : Z -> COMDELAY.
Variable MEMDELAY_WRITE_MASK : Z.
Variable COMDELAY_WRITE_MASK : Z.

Definition MEMCTRL_reg (index : nat) : M Z :=
  fun st => match m_MEMCTRL_regs st !! index with
            | Some v => Some (v, st)
            | None => None
            end.

Definition set_MEMCTRL_reg (index : nat) (v : Z) : M unit :=
  fun st => match m_MEMCTRL_regs st !! index with
            | Some _ => Some (tt, set_MEMCTRL_regs (<[index := v]> (m_MEMCTRL_regs st)) st)
            | None => None
            end.

(** [Bus::RecalculateMemoryTimings] (its three development-level trace
    lines are not part of [log]). *)
Definition RecalculateMemoryTimings : M unit :=
  let* bios := MEMCTRL_reg bios_delay_size_index in
  let* cdrom := MEMCTRL_reg cdrom_delay_size_index in
  let* spu := MEMCTRL_reg spu_delay_size_index in
  let* common := MEMCTRL_reg common_delay_index in
  fun st => Some (tt, set_access_times
    (CalculateMemoryTiming (MEMDELAY_of bios) (COMDELAY_of common))
    (CalculateMemoryTiming (MEMDELAY_of cdrom) (COMDELAY_of common))
    (CalculateMemoryTiming (MEMDELAY_of spu) (COMDELAY_of common)) st).

(** [Bus::DoReadMemoryControl] *)
Definition DoReadMemoryControl (size : MemoryAccessSize) (offset : Z) : M Z :=
  let* value := MEMCTRL_reg (Z.to_nat (offset / 4)) in
  let '(_, value) := FixupUnalignedWordAccessW32 offset value in
  ret value.

(** The write mask of a register, as [DoWriteMemoryControl] picks it. *)
Definition write_mask_of (index : nat) : Z :=
  if (index =? 8)%nat then COMDELAY_WRITE_MASK else MEMDELAY_WRITE_MASK.

(** [Bus::DoWriteMemoryControl] *)
Definition DoWriteMemoryControl (size : MemoryAccessSize) (offset value : Z) : M unit :=
  let '(offset, value) := FixupUnalignedWordAccessW32 offset value in
  let index := Z.to_nat (offset / 4) in
  let write_mask := if (index =? 8)%nat then COMDELAY_WRITE_MASK else MEMDELAY_WRITE_MASK in
  let* old := MEMCTRL_reg index in
  let new_value := Z.lor (Z.land old (not32 write_mask)) (Z.land value write_mask) in
  if negb (old =? new_value) then
    set_MEMCTRL_reg index new_value >>
    RecalculateMemoryTimings
  else ret tt.

Definition MEMCTRL2_BASE : Z := 0x1F801060.

(** [Bus::DoReadMemoryControl2] *)
Definition DoReadMemoryControl2 (size : MemoryAccessSize) (offset : Z) : M Z :=
  if offset =? 0x00 then fun st => Some (m_ram_size_reg st, st)
  else
    let value := 0 in
    let* '(_, value) := DoInvalidAccess Read size (Z.lor MEMCTRL2_BASE offset) value in
    ret value.

(** [Bus::DoWriteMemoryControl2] *)
Definition DoWriteMemoryControl2 (size : MemoryAccessSize) (offset value : Z) : M unit :=
  if offset =? 0x00 then fun st => Some (tt, set_ram_size_reg value st)
  else
    let* _ := DoInvalidAccess Write size (Z.lor MEMCTRL2_BASE offset) value in
    ret tt.

(** The implicit conversion of a tick count to the [bool] that the
    accessors return. *)
Definition to_bool (ticks : Z) : bool := negb (ticks =? 0).

Section WithDispatcher.

(** [Bus::DispatchAccess<type, size>(address, value)] is defined in
    bus.inl, which is not part of the slice.  It returns a tick count and
    leaves the value read in its reference parameter; the result here is
    that pair. *)
Variable DispatchAccess :
  MemoryAccessType -> MemoryAccessSize -> Z -> Z -> M (Z * Z).

(** [Bus::ReadByte]: the result and the byte stored through [value]. *)
Definition ReadByte (address : Z) : M (bool * Z) :=
  let temp := 0 in
  let* '(result, temp) := DispatchAccess Read Byte address temp in
  ret (to_bool result, Truncate8 temp).

(** [Bus::ReadHalfWord] *)
Definition ReadHalfWord (address : Z) : M (bool * Z) :=
  let temp := 0 in
  let* '(result, temp) := DispatchAccess Read HalfWord address temp in
  ret (to_bool result, Truncate16 temp).

(** [Bus::ReadWord] *)
Definition ReadWord (address : Z) (value : Z) : M (bool * Z) :=
  let* '(result, value) := DispatchAccess Read Word address value in
  ret (to_bool result, value).

(** [Bus::WriteByte] *)
Definition WriteByte (address : Z) (value : Z) : M bool :=
  let temp := ZeroExtend32 value in
  let* '(result, _) := DispatchAccess Read Byte address temp in
  ret (to_bool result).

(** [Bus::WriteHalfWord] *)
Definition WriteHalfWord (address : Z) (value : Z) : M bool :=
  let temp := ZeroExtend32 value in
  let* '(result, _) := DispatchAccess Read HalfWord address temp in
  ret (to_bool result).

(** [Bus::WriteWord] *)
Definition WriteWord (address : Z) (value : Z) : M bool :=
  let* '(result, _) := DispatchAccess Write Word address value in
  ret (to_bool result).

End WithDispatcher.

(** What the spec asks of the two narrow writes (section 9): the same
    accessors dispatching a [Write]. *)
Definition WriteByte_as_specified
    (DispatchAccess : MemoryAccessType -> MemoryAccessSize -> Z -> Z -> M (Z * Z))
    (address value : Z) : M bool :=
  let temp := ZeroExtend32 value in
  let* '(result, _) := DispatchAccess Write Byte address temp in
  ret (to_bool result).

Definition WriteHalfWord_as_specified
    (DispatchAccess : MemoryAccessType -> MemoryAccessSize -> Z -> Z -> M (Z * Z))
    (address value : Z) : M bool :=
  let temp := ZeroExtend32 value in
  let* '(result, _) := DispatchAccess Write HalfWord address temp in
  ret (to_bool result).

(** Little-endian access to the RAM array. *)
Definition ram_byte (ram : gmap Z Z) (offset : Z) : Z := default 0 (ram !! offset).

Fixpoint load_le (ram : gmap Z Z) (offset : Z) (n : nat) : Z :=
  match n with
  | O => 0
  | S n' => Z.lor (ram_byte ram offset) (Z.shiftl (load_le ram (offset + 1) n') 8)
  end.

Fixpoint store_le (ram : gmap Z Z) (offset : Z) (n : nat) (value : Z) : gmap Z Z :=
  match n with
  | O => ram
  | S n' => store_le (<[offset := Z.land value 0xFF]> ram) (offset + 1) n' (Z.shiftr value 8)
  end.

Definition size_bytes (size : MemoryAccessSize) : nat :=
  match size with Byte => 1 | HalfWord => 2 | Word => 4 end.

(** Modelled from the spec: the RAM leg of the dispatcher (sections 4.1
    and 4.2): the backing store is read or written at
    [pa & 0x001FFFFF], at a cost of 4 ticks. *)
Definition DoRAMAccess (type : MemoryAccessType) (size : MemoryAccessSize)
    (offset value : Z) : M (Z * Z) :=
  match type with
  | Read => fun st => Some ((4, load_le (m_ram st) offset (size_bytes size)), st)
  | Write => fun st =>
      Some ((4, value), set_ram (store_le (m_ram st) offset (size_bytes size) value) st)
  end.

Definition MEMCTRL_BASE : Z := 0x1F801000.
Definition MEMCTRL_SIZE : Z := 36.
Definition MEMCTRL2_SIZE : Z := 4.

(** The regions of the table in section 3 that are served by other
    devices or by tables this development does not need. *)
Definition in_range (pa base size : Z) : bool := (base <=? pa) && (pa <? base + size).

Definition other_region (pa : Z) : bool :=
  in_range pa 0x1F000000 0x800000      (* EXP1 *)
  || in_range pa 0x1F800000 0x400      (* SCRATCHPAD *)
  || in_range pa 0x1F801040 16         (* PAD *)
  || in_range pa 0x1F801050 16         (* SIO *)
  || in_range pa 0x1F801070 8          (* INTC *)
  || in_range pa 0x1F801080 128        (* DMA *)
  || in_range pa 0x1F801100 48         (* TIMERS *)
  || in_range pa 0x1F801800 4          (* CDROM *)
  || in_range pa 0x1F801810 8          (* GPU *)
  || in_range pa 0x1F801820 8          (* MDEC *)
  || in_range pa 0x1F801C00 640        (* SPU *)
  || in_range pa 0x1F802000 0x2000     (* EXP2 *)
  || in_range pa 0x1FC00000 0x80000.   (* BIOS *)

Section WithOtherRegions.

(** The accesses to those regions. *)
Variable DispatchOther :
  MemoryAccessType -> MemoryAccessSize -> Z -> Z -> M (Z * Z).

(** Modelled from the spec: [Bus::DispatchAccess] (bus.inl is not part of
    the slice), after sections 4.1 and 4.2: the address is folded to 29
    bits and classified; RAM is served from the backing store, MEMCTRL and
    MEMCTRL2 by the handlers above at the I/O cost of 2 ticks, and an
    address in no region is an invalid access. *)
Definition DispatchAccess_model (type : MemoryAccessType) (size : MemoryAccessSize)
    (address value : Z) : M (Z * Z) :=
  let pa := Z.land address 0x1FFFFFFF in
  if pa <? 0x00800000 then DoRAMAccess type size (Z.land pa 0x001FFFFF) value
  else if in_range pa MEMCTRL_BASE MEMCTRL_SIZE then
    match type with
    | Read => let* v := DoReadMemoryControl size (pa - MEMCTRL_BASE) in ret (2, v)
    | Write => DoWriteMemoryControl size (pa - MEMCTRL_BASE) value >> ret (2, value)
    end
  else if in_range pa MEMCTRL2_BASE MEMCTRL2_SIZE then
    match type with
    | Read => let* v := DoReadMemoryControl2 size (pa - MEMCTRL2_BASE) in ret (2, v)
    | Write => DoWriteMemoryControl2 size (pa - MEMCTRL2_BASE) value >> ret (2, value)
    end
  else if other_region pa then DispatchOther type size pa value
  else DoInvalidAccess type size pa value.

End WithOtherRegions.

End WithRegisterLayout.

End WithDevices.

(** The MEMCTRL registers and the RAM size register as [Bus::Reset] sets
    them, RAM zeroed, no device behind the bus, the access-time tables
    not yet computed. *)
Definition reset_MEMCTRL : list Z :=
  [0x1F000000; 0x1F802000; 0x0013243F; 0x00003022; 0x0013243F;
   0x200931E1; 0x00020843; 0x00070777; 0x00031125].

Definition reset_bus : State unit :=
  mkState unit ∅ ∅ [] reset_MEMCTRL 0x00000B88 EmptyString
    (0, 0, 0) (0, 0, 0) (0, 0, 0) (0, 0, 0) (0, 0, 0) tt [].

(** A region that uses COM0 and COM2 on an 8-bit bus, and a common delay. *)
Definition bios_delay_example : MEMDELAY := mkMEMDELAY 3 true false true false false.
Definition common_delay_example : COMDELAY := mkCOMDELAY 5 2 1 3.

(** *** The handlers the claims leave out *)

Section MoreHandlers.

Context {Devices : Type}.

#[local] Abbreviation State := (State Devices).
#[local] Abbreviation M := (Comp State).

Definition set_bios (v : gmap Z Z) (st : State) : State :=
  mkState Devices (m_ram st) v (m_exp1_rom st) (m_MEMCTRL_regs st) (m_ram_size_reg st)
    (m_tty_line_buffer st) (m_exp1_access_time st) (m_exp2_access_time st)
    (m_bios_access_time st) (m_cdrom_access_time st) (m_spu_access_time st)
    (collaborators st) (log st).

Definition set_tty_line_buffer (v : string) (st : State) : State :=
  mkState Devices (m_ram st) (m_bios st) (m_exp1_rom st) (m_MEMCTRL_regs st)
    (m_ram_size_reg st) v (m_exp1_access_time st) (m_exp2_access_time st)
    (m_bios_access_time st) (m_cdrom_access_time st) (m_spu_access_time st)
    (collaborators st) (log st).

Definition set_collaborators (v : Devices) (st : State) : State :=
  mkState Devices (m_ram st) (m_bios st) (m_exp1_rom st) (m_MEMCTRL_regs st)
    (m_ram_size_reg st) (m_tty_line_buffer st) (m_exp1_access_time st)
    (m_exp2_access_time st) (m_bios_access_time st) (m_cdrom_access_time st)
    (m_spu_access_time st) v (log st).

(** [FIXUP_WORD_READ_OFFSET] and [FIXUP_WORD_READ_VALUE] *)
Definition FIXUP_WORD_READ_OFFSET (offset : Z) : Z := Z.land offset (not32 3).

Definition FIXUP_WORD_READ_VALUE (offset value : Z) : Z :=
  Z.shiftr value (Z.land offset 3 * 8).

(** Modelled from the spec: [BIOS_BASE], [BIOS_SIZE] and [EXP2_BASE],
    declared in bus.h, from the table of regions in section 3. *)
Definition BIOS_BASE : Z := 0x1FC00000.
Definition BIOS_SIZE : Z := 0x80000.
Definition EXP2_BASE : Z := 0x1F802000.

(** [Bus::PatchBIOS].  [None] is the failed [Assert], or a word that
    starts in the last three bytes of the image, where the [memcpy] leaves
    the array.  The line it prints carries the disassembly of both words
    and is not kept. *)
Definition PatchBIOS (address value mask : Z) : M unit :=
  let phys_address := Z.land address 0x1FFFFFFF in
  let offset := u32 (phys_address - BIOS_BASE) in
  if (BIOS_BASE <=? phys_address) && (offset <? BIOS_SIZE) then
    if offset + 4 <=? BIOS_SIZE then
      fun st =>
        let existing_value := load_le (m_bios st) offset 4 in
        let new_value := Z.lor (Z.land existing_value (not32 mask)) value in
        Some (tt, set_bios (store_le (m_bios st) offset 4 new_value) st)
    else fun _ => None
  else fun _ => None.

(** [memcpy] of [n] bytes out of the expansion ROM, little-endian. *)
Fixpoint rom_le (rom : list Z) (offset n : nat) : option Z :=
  match n with
  | O => Some 0
  | S n' =>
      match rom !! offset, rom_le rom (S offset) n' with
      | Some b, Some rest => Some (Z.lor b (Z.shiftl rest 8))
      | _, _ => None
      end
  end.

Definition size_index (size : MemoryAccessSize) : Z :=
  match size with Byte => 0 | HalfWord => 1 | Word => 2 end.

(** [Bus::DoReadEXP1] *)
Definition DoReadEXP1 (size : MemoryAccessSize) (offset : Z) : M Z :=
  fun st =>
    let rom := m_exp1_rom st in
    if (length rom =? 0)%nat then Some (0xFFFFFFFF, st)
    else if offset =? 0x20018 then Some (1, st)
    else
      let transfer_size := u32 (Z.shiftl 1 (size_index size)) in
      if Z.of_nat (length rom) <? u32 (offset + transfer_size) then Some (0, st)
      else
        match rom_le rom (Z.to_nat offset) (size_bytes size) with
        | Some value =>
            Some (match size with Word => value | _ => ZeroExtend32 value end, st)
        | None => None
        end.

(** What a handler sends to the logger below the error level. *)
Inductive LogLine := Info (line : string) | Warning (line : string).

(** [%02X] *)
Definition format_02X (v : Z) : string := hex_digits 2 v EmptyString.

(** [%s] of a character array: the characters before the first NUL. *)
Fixpoint c_str (s : string) : string :=
  match s with
  | EmptyString => EmptyString
  | String c rest => if Ascii.eqb c zero then EmptyString else String c (c_str rest)
  end.

Definition char_of_byte (v : Z) : ascii := ascii_of_N (Z.to_N (Truncate8 v)).

(** [Bus::DoReadEXP2]: the value, and the warning for an unknown port. *)
Definition DoReadEXP2 (size : MemoryAccessSize) (offset : Z) : M (Z * list LogLine) :=
  if offset =? 0x21 then ret (Z.lor 0x04 0x08, [])
  else ret (0xFFFFFFFF,
            [Warning ("EXP2 read: 0x" ++ format_08X (Z.lor EXP2_BASE offset))%string]).

(** [Bus::DoWriteEXP2]: the result is what the call sends to the logger. *)
Definition DoWriteEXP2 (size : MemoryAccessSize) (offset value : Z) : M (list LogLine) :=
  if offset =? 0x23 then
    if value =? 13 then ret []
    else if value =? 10 then
      fun st =>
        Some (if (String.length (m_tty_line_buffer st) =? 0)%nat then []
              else [Info ("TTY: " ++ c_str (m_tty_line_buffer st))%string],
              set_tty_line_buffer EmptyString st)
    else
      fun st =>
        Some ([], set_tty_line_buffer
                    (m_tty_line_buffer st ++ String (char_of_byte value) EmptyString)%string st)
  else if offset =? 0x41 then
    ret [Warning ("BIOS POST status: " ++ format_02X (Z.land value 0x0F))%string]
  else
    ret [Warning ("EXP2 write: 0x" ++ format_08X (Z.lor EXP2_BASE offset)
                  ++ " <- 0x" ++ format_08X value)%string].

(** Byte writes to the TTY port, one after the other. *)
Fixpoint tty_write_all (bytes : list Z) : M (list LogLine) :=
  match bytes with
  | [] => ret []
  | b :: rest =>
      let* lines := DoWriteEXP2 Byte 0x23 b in
      let* more := tty_write_all rest in
      ret (lines ++ more)
  end.

(** The characters a run of byte writes leaves in the line buffer. *)
Fixpoint tty_chars (bytes : list Z) : string :=
  match bytes with
  | [] => EmptyString
  | b :: rest => if b =? 13 then tty_chars rest
                 else String (char_of_byte b) (tty_chars rest)
  end.

Section WithSPUandDMA.

(** The register files of the SPU and of the DMA controller, behind
    [m_spu] and [m_dma]: a read returns a value and may change the device,
    a write changes the device. *)
Variable SPU_ReadRegister : Z -> Devices -> Z * Devices.
Variable SPU_WriteRegister : Z -> Z -> Devices -> Devices.
Variable DMA_ReadRegister : Z -> Devices -> Z * Devices.
Variable DMA_WriteRegister : Z -> Z -> Devices -> Devices.

Definition spu_read (offset : Z) : M Z :=
  fun st => let '(v, dev) := SPU_ReadRegister offset (collaborators st) in
            Some (v, set_collaborators dev st).

Definition spu_write (offset value : Z) : M unit :=
  fun st => Some (tt, set_collaborators (SPU_WriteRegister offset value (collaborators st)) st).

Definition dma_read (offset : Z) : M Z :=
  fun st => let '(v, dev) := DMA_ReadRegister offset (collaborators st) in
            Some (v, set_collaborators dev st).

Definition dma_write (offset value : Z) : M unit :=
  fun st => Some (tt, set_collaborators (DMA_WriteRegister offset value (collaborators st)) st).

(** [Assert(cond)]: the program stops when the condition fails. *)
Definition Assert (cond : bool) : M unit :=
  fun st => if cond then Some (tt, st) else None.

(** [Common::IsAlignedPow2(offset, 2)] *)
Definition IsAligned2 (offset : Z) : bool := Z.land offset 1 =? 0.

(** [Bus::DoReadSPU] *)
Definition DoReadSPU (size : MemoryAccessSize) (offset : Z) : M Z :=
  match size with
  | Word =>
      let* lsb := spu_read offset in
      let* msb := spu_read (u32 (offset + 2)) in
      ret (Z.lor (ZeroExtend32 lsb) (u32 (Z.shiftl (ZeroExtend32 msb) 16)))
  | _ =>
      let* v := spu_read offset in
      ret (ZeroExtend32 v)
  end.

(** [Bus::DoWriteSPU] *)
Definition DoWriteSPU (size : MemoryAccessSize) (offset value : Z) : M unit :=
  match size with
  | Word =>
      Assert (IsAligned2 offset) >>
      spu_write offset (Truncate16 value) >>
      spu_write (u32 (offset + 2)) (Truncate16 (Z.shiftr value 16))
  | _ =>
      Assert (IsAligned2 offset) >>
      spu_write offset (Truncate16 value)
  end.

(** [Bus::DoReadDMA] *)
Definition DoReadDMA (size : MemoryAccessSize) (offset : Z) : M Z :=
  let* v := dma_read (FIXUP_WORD_READ_OFFSET offset) in
  ret (FIXUP_WORD_READ_VALUE offset v).

(** [Bus::DoWriteDMA] *)
Definition DoWriteDMA (size : MemoryAccessSize) (offset value : Z) : M unit :=
  let '(offset, value) :=
    match size with
    | Byte | HalfWord =>
        (* zero extend length register *)
        if (Z.land offset 0xF0 <? 7) && (Z.land offset 0x0F =? 0x4)
        then (offset, ZeroExtend32 value)
        else FixupUnalignedWordAccessW32 offset value
    | Word => (offset, value)
    end in
  dma_write offset value.

End WithSPUandDMA.

Section WithViews.

Variable MEMDELAY_of : Z -> MEMDELAY.
Variable COMDELAY_of : Z -> COMDELAY.

(** [Bus::Reset] *)
Definition Reset : M unit :=
  (fun st => Some (tt, set_ram_size_reg 0x00000B88
                         (set_MEMCTRL_regs reset_MEMCTRL (set_ram ∅ st)))) >>
  RecalculateMemoryTimings MEMDELAY_of COMDELAY_of.

(** The cached access times agree with the registers they are computed
    from, and the register file holds nine 32-bit words. *)
Definition timings_coherent (st : State) : Prop :=
  length (m_MEMCTRL_regs st) = MEMCTRL_NUM_REGS /\
  Forall (fun r => 0 <= r < 2 ^ 32) (m_MEMCTRL_regs st) /\
  exists bios cdrom spu common,
    m_MEMCTRL_regs st !! bios_delay_size_index = Some bios /\
    m_MEMCTRL_regs st !! cdrom_delay_size_index = Some cdrom /\
    m_MEMCTRL_regs st !! spu_delay_size_index = Some spu /\
    m_MEMCTRL_regs st !! common_delay_index = Some common /\
    m_bios_access_time st = CalculateMemoryTiming (MEMDELAY_of bios) (COMDELAY_of common) /\
    m_cdrom_access_time st = CalculateMemoryTiming (MEMDELAY_of cdrom) (COMDELAY_of common) /\
    m_spu_access_time st = CalculateMemoryTiming (MEMDELAY_of spu) (COMDELAY_of common).

End WithViews.

End MoreHandlers.

(** An expansion ROM of eight bytes, and a register file of halfwords
    standing for a device. *)
Definition rom_example : list Z := [0x10; 0x32; 0x54; 0x76; 0x98; 0xBA; 0xDC; 0xFE].

Definition bus_with_rom : State unit :=
  mkState unit ∅ ∅ rom_example reset_MEMCTRL 0x00000B88 EmptyString
    (0, 0, 0) (0, 0, 0) (0, 0, 0) (0, 0, 0) (0, 0, 0) tt [].

(** Views that take the fields out of the register word, in the order
    the spec lists them: [access_time] from bit 4 of a delay register,
    the four [use_com] flags and [data_bus_16bit] above it, and [com0] to
    [com3] from bit 0 of the common delay.  An instance of what bus.h
    declares, to run the handlers on concrete registers. *)
Definition MEMDELAY_example_of (bits : Z) : MEMDELAY :=
  mkMEMDELAY (get_field 4 4 bits) (get_flag 8 bits) (get_flag 9 bits)
    (get_flag 10 bits) (get_flag 11 bits) (get_flag 12 bits).

Definition COMDELAY_example_of (bits : Z) : COMDELAY :=
  mkCOMDELAY (get_field 0 4 bits) (get_field 4 4 bits) (get_field 8 4 bits)
    (get_field 12 4 bits).

(** The bus as [Bus::Reset] leaves it under these views: the reset
    registers, and the access times of the BIOS, the CDROM and the SPU
    computed from them. *)
Definition timed_bus : State unit :=
  mkState unit ∅ ∅ [] reset_MEMCTRL 0x00000B88 EmptyString
    (0, 0, 0) (0, 0, 0)
    (CalculateMemoryTiming (MEMDELAY_example_of 0x0013243F) (COMDELAY_example_of 0x00031125))
    (CalculateMemoryTiming (MEMDELAY_example_of 0x00020843) (COMDELAY_example_of 0x00031125))
    (CalculateMemoryTiming (MEMDELAY_example_of 0x200931E1) (COMDELAY_example_of 0x00031125))
    tt [].

End Bus.

(** * Properties *)

(** ** Running computations *)

Lemma bind_assoc {S A B C} (m : Comp S A) (f : A -> Comp S B) (g : B -> Comp S C) st :
  bind (bind m f) g st = bind m (fun x => bind (f x) g) st.
Proof. unfold bind. destruct (m st) as [[a st']|]; reflexivity. Qed.

Lemma bind_ret {S A B} (a : A) (k : A -> Comp S B) st : bind (ret a) k st = k a st.
Proof. reflexivity. Qed.

Section TimersFacts.

Import Timers.

Variable TMR0 : Z.
Variable Synchronize : State -> State.

Lemma run_state_at {A} t (k : CounterState -> M A) l c q d cs :
  (t < length l)%nat ->
  bind (state_at t) k (mkState (<[t := cs]> l) c q d)
  = k cs (mkState (<[t := cs]> l) c q d).
Proof.
  intros Hlt. unfold bind, state_at. cbn [m_states].
  rewrite list_lookup_insert_eq by exact Hlt. reflexivity.
Qed.

Lemma run_modify_state {A} t f (k : unit -> M A) l c q d cs :
  (t < length l)%nat ->
  bind (modify_state t f) k (mkState (<[t := cs]> l) c q d)
  = k tt (mkState (<[t := f cs]> l) c q d).
Proof.
  intros Hlt. unfold bind, modify_state, with_states. cbn [m_states].
  rewrite list_lookup_insert_eq by exact Hlt.
  rewrite list_insert_insert_eq. reflexivity.
Qed.

Lemma run_modify_state_last t f l c q d cs :
  (t < length l)%nat ->
  modify_state t f (mkState (<[t := cs]> l) c q d)
  = Some (tt, mkState (<[t := f cs]> l) c q d).
Proof.
  intros Hlt. unfold modify_state, with_states. cbn [m_states].
  rewrite list_lookup_insert_eq by exact Hlt.
  rewrite list_insert_insert_eq. reflexivity.
Qed.

Lemma run_UpdateIRQ {A} t (k : unit -> M A) l c q d cs :
  (t < length l)%nat ->
  bind (UpdateIRQ TMR0 t) k (mkState (<[t := cs]> l) c q d)
  = k tt (mkState (<[t := fst (UpdateIRQ_on cs)]> l) c
            (q ++ raised_irqs (snd (UpdateIRQ_on cs)) (TMR0 + Z.of_nat t)) d).
Proof.
  intros Hlt. unfold UpdateIRQ, UpdateIRQ_on.
  rewrite bind_assoc, run_state_at by exact Hlt.
  destruct (CounterMode.interrupt_request_n (mode cs)
            || negb (CounterMode.irq_repeat (mode cs)) && irq_done cs).
  - rewrite bind_ret. cbn [fst snd raised_irqs]. rewrite app_nil_r. reflexivity.
  - rewrite bind_assoc, run_modify_state by exact Hlt. reflexivity.
Qed.

Lemma run_UpdateIRQ_last t l c q d cs :
  (t < length l)%nat ->
  UpdateIRQ TMR0 t (mkState (<[t := cs]> l) c q d)
  = Some (tt, mkState (<[t := fst (UpdateIRQ_on cs)]> l) c
                (q ++ raised_irqs (snd (UpdateIRQ_on cs)) (TMR0 + Z.of_nat t)) d).
Proof.
  intros Hlt. unfold UpdateIRQ, UpdateIRQ_on.
  rewrite run_state_at by exact Hlt.
  destruct (CounterMode.interrupt_request_n (mode cs)
            || negb (CounterMode.irq_repeat (mode cs)) && irq_done cs).
  - unfold ret. cbn [fst snd raised_irqs]. rewrite app_nil_r. reflexivity.
  - rewrite run_modify_state by exact Hlt. reflexivity.
Qed.

Ltac run_timer Hlt :=
  repeat first
    [ rewrite bind_assoc
    | rewrite run_state_at by exact Hlt
    | rewrite run_modify_state by exact Hlt
    | rewrite run_UpdateIRQ by exact Hlt
    | rewrite bind_ret ].

(** [AddTicks] on a state whose counter [t] is [cs] acts as [AddTicks_on]
    says, and touches nothing else. *)
Lemma AddTicks_run_at t n l c q d cs :
  (t < length l)%nat ->
  AddTicks TMR0 t n (mkState (<[t := cs]> l) c q d)
  = Some (tt, mkState (<[t := fst (AddTicks_on cs n)]> l) c
                (q ++ raised_irqs (snd (AddTicks_on cs n)) (TMR0 + Z.of_nat t)) d).
Proof.
  intros Hlt. unfold AddTicks, AddTicks_on, modify_mode, when.
  run_timer Hlt.
  set (cs1 := set_counter (u32 (counter cs + u32 n)) cs).
  destruct ((target cs1 <=? counter cs1) && (counter cs <? target cs1));
    destruct (0xFFFF <=? counter cs1); cbn [orb]; run_timer Hlt.
  all: unfold request_on.
  all: try match goal with
       | |- context [negb (CounterMode.irq_pulse_n ?m)] =>
           destruct (negb (CounterMode.irq_pulse_n m))
       end.
  all: run_timer Hlt.
  all: cbn [fst snd raised_irqs]; rewrite ?app_nil_r.
  all: unfold wrap_counter.
  all: match goal with
       | |- context [CounterMode.reset_at_target ?m] =>
           destruct (CounterMode.reset_at_target m)
       end.
  all: try match goal with
       | |- context [0 <? ?x] => destruct (0 <? x)
       end.
  all: rewrite run_modify_state_last by exact Hlt; reflexivity.
Qed.

Lemma AddTicks_run t n st cs :
  m_states st !! t = Some cs ->
  AddTicks TMR0 t n st
  = Some (tt, mkState (<[t := fst (AddTicks_on cs n)]> (m_states st))
                (m_sysclk_div_8_carry st)
                (irq_requests st ++ raised_irqs (snd (AddTicks_on cs n)) (TMR0 + Z.of_nat t))
                (downcount st)).
Proof.
  intros Hcs. destruct st as [l c q d]. cbn [m_states m_sysclk_div_8_carry irq_requests downcount] in *.
  pose proof (lookup_lt_Some _ _ _ Hcs) as Hlt.
  rewrite <- (AddTicks_run_at t n l c q d cs Hlt).
  rewrite (list_insert_id l t cs Hcs). reflexivity.
Qed.

(** ** Bit fields *)

Lemma get_set_flag p p' v m :
  0 <= p' -> get_flag p (set_flag p' v m) = if p' =? p then v else get_flag p m.
Proof.
  intros Hp. unfold get_flag, set_flag. destruct v.
  - rewrite Z.setbit_eqb by exact Hp. destruct (p' =? p); reflexivity.
  - rewrite Z.clearbit_eqb. destruct (p' =? p); cbn; [apply andb_false_r | apply andb_true_r].
Qed.

Lemma get_field_set_flag pos width p' v m :
  0 <= pos -> 0 <= width -> 0 <= p' -> (p' < pos \/ pos + width <= p') ->
  get_field pos width (set_flag p' v m) = get_field pos width m.
Proof.
  intros Hpos Hw Hp Hout. unfold get_field. apply Z.bits_inj'. intros i Hi.
  rewrite !Z.land_spec, !Z.shiftr_spec by exact Hi.
  rewrite Z.testbit_ones_nonneg by lia.
  destruct (i <? width) eqn:Hiw; [| rewrite !andb_false_r; reflexivity].
  apply Z.ltb_lt in Hiw. rewrite !andb_true_r.
  change (Z.testbit (set_flag p' v m) (i + pos)) with (get_flag (i + pos) (set_flag p' v m)).
  rewrite get_set_flag by exact Hp.
  destruct (p' =? i + pos) eqn:E; [apply Z.eqb_eq in E; lia | reflexivity].
Qed.

Lemma u32_small x : 0 <= x < 2 ^ 32 -> u32 x = x.
Proof. intros H. unfold u32. apply Z.mod_small. exact H. Qed.

Lemma s32_small x : - 2 ^ 31 <= x < 2 ^ 31 -> s32 x = x.
Proof. intros H. unfold s32. rewrite Z.mod_small by lia. lia. Qed.

(** ** The counter after [AddTicks] *)

Lemma UpdateIRQ_on_frame cs :
  mode (fst (UpdateIRQ_on cs)) = mode cs /\
  counter (fst (UpdateIRQ_on cs)) = counter cs /\
  target (fst (UpdateIRQ_on cs)) = target cs.
Proof.
  unfold UpdateIRQ_on.
  destruct (CounterMode.interrupt_request_n (mode cs)
            || negb (CounterMode.irq_repeat (mode cs)) && irq_done cs);
    repeat split; reflexivity.
Qed.

Lemma request_on_frame cs :
  counter (fst (request_on cs)) = counter cs /\
  target (fst (request_on cs)) = target cs /\
  (forall p, p <> 10 -> get_flag p (mode (fst (request_on cs))) = get_flag p (mode cs)).
Proof.
  unfold request_on.
  destruct (negb (CounterMode.irq_pulse_n (mode cs))); cbn [fst snd].
  - match goal with |- context [UpdateIRQ_on ?x] =>
      destruct (UpdateIRQ_on_frame x) as (Hm & Hc & Ht) end.
    cbn [counter target mode set_mode]. rewrite Hm, Hc, Ht. cbn [counter target mode set_mode].
    repeat split; try reflexivity.
    intros p Hp. unfold CounterMode.set_interrupt_request_n.
    rewrite !get_set_flag by lia. destruct (10 =? p) eqn:E; [apply Z.eqb_eq in E; lia | reflexivity].
  - match goal with |- context [UpdateIRQ_on ?x] =>
      destruct (UpdateIRQ_on_frame x) as (Hm & Hc & Ht) end.
    rewrite Hm, Hc, Ht. cbn [counter target mode set_mode].
    repeat split; try reflexivity.
    intros p Hp. unfold CounterMode.set_interrupt_request_n.
    rewrite !get_set_flag by lia. destruct (10 =? p) eqn:E; [apply Z.eqb_eq in E; lia | reflexivity].
Qed.

(** The counter state on which [AddTicks] performs its final wrap: the
    counter holds the 32-bit sum, the target is untouched, and of the mode
    only bits 10 to 12 may have changed. *)
Lemma AddTicks_on_before_wrap cs n :
  exists pre,
    fst (AddTicks_on cs n) = wrap_counter pre /\
    counter pre = u32 (counter cs + u32 n) /\
    target pre = target cs /\
    (forall p, p <> 10 -> p <> 11 -> p <> 12 ->
               get_flag p (mode pre) = get_flag p (mode cs)).
Proof.
  unfold AddTicks_on.
  set (cs1 := set_counter (u32 (counter cs + u32 n)) cs).
  set (at_target := (target cs1 <=? counter cs1) && (counter cs <? target cs1)).
  set (at_overflow := 0xFFFF <=? counter cs1).
  set (cs2 := if at_target then _ else cs1).
  set (cs3 := if at_overflow then _ else cs2).
  assert (H2 : counter cs2 = u32 (counter cs + u32 n) /\ target cs2 = target cs /\
               forall p, p <> 11 -> get_flag p (mode cs2) = get_flag p (mode cs)).
  { subst cs2. destruct at_target; cbn [counter target mode set_mode set_counter cs1];
      repeat split; try reflexivity.
    intros p Hp. unfold CounterMode.set_reached_target. rewrite get_set_flag by lia.
    destruct (11 =? p) eqn:E; [apply Z.eqb_eq in E; lia | reflexivity]. }
  destruct H2 as (Hc2 & Ht2 & Hm2).
  assert (H3 : counter cs3 = u32 (counter cs + u32 n) /\ target cs3 = target cs /\
               forall p, p <> 11 -> p <> 12 -> get_flag p (mode cs3) = get_flag p (mode cs)).
  { subst cs3. destruct at_overflow; cbn [counter target mode set_mode];
      repeat split; auto.
    intros p Hp Hp'. unfold CounterMode.set_reached_overflow. rewrite get_set_flag by lia.
    destruct (12 =? p) eqn:E; [apply Z.eqb_eq in E; lia | auto]. }
  destruct H3 as (Hc3 & Ht3 & Hm3).
  destruct (at_target || at_overflow); cbn [fst snd].
  - exists (fst (request_on cs3)). destruct (request_on_frame cs3) as (Hc & Ht & Hm).
    split; [reflexivity|]. rewrite Hc, Ht. repeat split; auto.
    intros p H10 H11 H12. rewrite Hm by exact H10. auto.
  - exists cs3. repeat split; auto.
Qed.

Lemma AddTicks_on_counter cs n :
  counter (fst (AddTicks_on cs n)) =
    let sum := u32 (counter cs + u32 n) in
    if CounterMode.reset_at_target (mode cs)
    then if 0 <? target cs then sum mod target cs else 0
    else sum mod 0xFFFF.
Proof.
  destruct (AddTicks_on_before_wrap cs n) as (pre & -> & Hc & Ht & Hm).
  unfold wrap_counter, CounterMode.reset_at_target. rewrite Hm by lia. rewrite Ht.
  destruct (get_flag 3 (mode cs)); [destruct (0 <? target cs)|]; cbn; rewrite ?Hc; reflexivity.
Qed.

(** The counter stays within 16 bits, as the spec's invariant has it,
    whenever the target does. *)
Lemma AddTicks_on_counter_range cs n :
  0 <= target cs < 0x10000 ->
  0 <= counter (fst (AddTicks_on cs n)) < 0x10000.
Proof.
  intros Ht. rewrite AddTicks_on_counter. cbv zeta.
  destruct (CounterMode.reset_at_target (mode cs)).
  - destruct (0 <? target cs) eqn:E; [|lia].
    apply Z.ltb_lt in E.
    pose proof (Z.mod_pos_bound (u32 (counter cs + u32 n)) (target cs) E). lia.
  - pose proof (Z.mod_pos_bound (u32 (counter cs + u32 n)) 0xFFFF). lia.
Qed.

(** C2.  For every timer [t] and tick count [n] (a count, so not
    negative) whose sum with the counter fits the 32 bits the counter is
    held in, as it always does for a counter within its 16 bits and a
    [TickCount], [AddTicks] succeeds and leaves in the counter: with
    [reset_at_target] set, [(old_counter + n) mod target] when the target
    is positive and [0] when it is zero; otherwise
    [(old_counter + n) mod 0xFFFF], a remainder modulo 65535 and not a
    mask to 16 bits. *)
Theorem AddTicks_counter_wrap t n st cs :
  m_states st !! t = Some cs ->
  0 <= n ->
  0 <= counter cs ->
  counter cs + n < 2 ^ 32 ->
  exists st' cs',
    AddTicks TMR0 t n st = Some (tt, st') /\
    m_states st' !! t = Some cs' /\
    (CounterMode.reset_at_target (mode cs) = true ->
       (0 < target cs -> counter cs' = (counter cs + n) mod target cs) /\
       (target cs = 0 -> counter cs' = 0)) /\
    (CounterMode.reset_at_target (mode cs) = false ->
       counter cs' = (counter cs + n) mod 0xFFFF).
Proof.
  intros Hcs Hn Hc Hfit.
  eexists _, (fst (AddTicks_on cs n)). split; [apply AddTicks_run; exact Hcs|].
  split.
  { cbn [m_states]. apply list_lookup_insert_eq. eapply lookup_lt_Some; exact Hcs. }
  rewrite AddTicks_on_counter. cbv zeta.
  assert (Hsum : u32 (counter cs + u32 n) = counter cs + n).
  { rewrite (u32_small n) by lia. apply u32_small. lia. }
  rewrite Hsum. split.
  - intros ->. split.
    + intros Hpos. apply Z.ltb_lt in Hpos. rewrite Hpos. reflexivity.
    + intros ->. reflexivity.
  - intros ->. reflexivity.
Qed.

Lemma wrap_counter_mode cs : mode (wrap_counter cs) = mode cs.
Proof.
  unfold wrap_counter.
  destruct (CounterMode.reset_at_target (mode cs)); [destruct (0 <? target cs)|]; reflexivity.
Qed.

(** When the old counter is not below the target, [AddTicks] takes only
    the overflow path. *)
Lemma AddTicks_on_not_below_target cs n :
  (counter cs <? target cs) = false ->
  (forall p, p <> 10 -> p <> 12 ->
     get_flag p (mode (fst (AddTicks_on cs n))) = get_flag p (mode cs)) /\
  ((0xFFFF <=? u32 (counter cs + u32 n)) = false ->
     AddTicks_on cs n = (wrap_counter (set_counter (u32 (counter cs + u32 n)) cs), false)) /\
  ((0xFFFF <=? u32 (counter cs + u32 n)) = true ->
     CounterMode.reached_overflow (mode (fst (AddTicks_on cs n))) = true).
Proof.
  intros Hlt. unfold AddTicks_on.
  cbn [counter target mode set_counter]. rewrite Hlt, andb_false_r. cbn [orb].
  destruct (0xFFFF <=? u32 (counter cs + u32 n)); cbn [fst snd].
  - match goal with |- context [request_on ?x] =>
      destruct (request_on_frame x) as (_ & _ & Hm) end.
    split; [|split; [discriminate|]].
    + intros p H10 H12. rewrite wrap_counter_mode, Hm by exact H10.
      cbn [mode set_mode]. unfold CounterMode.set_reached_overflow.
      rewrite get_set_flag by lia.
      destruct (12 =? p) eqn:E; [apply Z.eqb_eq in E; lia | reflexivity].
    + intros _. unfold CounterMode.reached_overflow.
      rewrite wrap_counter_mode, Hm by lia.
      cbn [mode set_mode]. unfold CounterMode.set_reached_overflow.
      rewrite get_set_flag by lia. reflexivity.
  - split; [|split; [reflexivity | discriminate]].
    intros p _ _. rewrite wrap_counter_mode. reflexivity.
Qed.

(** C10.  A timer whose target is 0: for every tick count, [AddTicks]
    leaves [reached_target] as it was and takes an interrupt request only
    from the overflow test.  Below [0xFFFF] the mode word and the requests
    seen by the interrupt controller are unchanged; from [0xFFFF] on
    [reached_overflow] is set. *)
Theorem AddTicks_target_zero t n st cs :
  m_states st !! t = Some cs ->
  target cs = 0 ->
  0 <= counter cs ->
  exists st' cs',
    AddTicks TMR0 t n st = Some (tt, st') /\
    m_states st' !! t = Some cs' /\
    CounterMode.reached_target (mode cs') = CounterMode.reached_target (mode cs) /\
    (u32 (counter cs + u32 n) < 0xFFFF ->
       mode cs' = mode cs /\ irq_requests st' = irq_requests st) /\
    (irq_requests st' <> irq_requests st -> 0xFFFF <= u32 (counter cs + u32 n)) /\
    (0xFFFF <= u32 (counter cs + u32 n) ->
       CounterMode.reached_overflow (mode cs') = true).
Proof.
  intros Hcs Ht Hc.
  assert (Hlt : (counter cs <? target cs) = false) by (apply Z.ltb_ge; lia).
  destruct (AddTicks_on_not_below_target cs n Hlt) as (Hbits & Hlow & Hhigh).
  eexists _, (fst (AddTicks_on cs n)). split; [apply AddTicks_run; exact Hcs|].
  split.
  { cbn [m_states]. apply list_lookup_insert_eq. eapply lookup_lt_Some; exact Hcs. }
  cbn [irq_requests].
  assert (Hquiet : u32 (counter cs + u32 n) < 0xFFFF ->
            mode (fst (AddTicks_on cs n)) = mode cs /\
            irq_requests st ++ raised_irqs (snd (AddTicks_on cs n)) (TMR0 + Z.of_nat t)
            = irq_requests st).
  { intros Hb. rewrite Hlow by (apply Z.leb_gt; exact Hb). cbn [fst snd raised_irqs].
    rewrite wrap_counter_mode, app_nil_r. split; reflexivity. }
  split; [apply Hbits; lia|].
  split; [exact Hquiet|].
  split.
  - intros Hne. destruct (Z_lt_le_dec (u32 (counter cs + u32 n)) 0xFFFF) as [Hb|Hb]; [|exact Hb].
    destruct (Hquiet Hb) as [_ Heq]. contradiction.
  - intros Hb. apply Hhigh. apply Z.leb_le. exact Hb.
Qed.

(** ** The mode port *)

Lemma run_do_Synchronize {A} (k : unit -> M A) st :
  bind (do_Synchronize Synchronize) k st = k tt (Synchronize st).
Proof. reflexivity. Qed.

(** The offset of the mode port of timer [t]: the ports of a timer are
    [0x10] apart, the mode port [0x04] above the first. *)
Lemma mode_port_decode t :
  (t < 4)%nat ->
  timer_index_of (0x10 * Z.of_nat t + 0x04) = t /\
  port_offset_of (0x10 * Z.of_nat t + 0x04) = 0x04.
Proof. intros H. destruct t as [|[|[|[|t]]]]; try lia; split; reflexivity. Qed.

(** C5, as the code has it.  The mode port of timer [t] is at offset
    [0x10 * t + 0x04]: the ports of two timers are [0x10] apart, not
    [0x08].  Reading it returns the mode word of timer [t] as it stands
    when it is read, and in the same call clears [reached_target] and
    [reached_overflow] of that timer; every other bit of its mode word,
    hence every other mode field, and its counter, target, [irq_done],
    gate and three derived flags are left as they were, as are the other
    timers, the carry and the collaborators. *)
Theorem ReadRegister_mode_port t offset st cs :
  (t < NUM_TIMERS)%nat ->
  offset = 0x10 * Z.of_nat t + 0x04 ->
  m_states (Synchronize st) !! t = Some cs ->
  exists cs',
    ReadRegister Synchronize offset st
    = Some (mode cs,
            with_states (<[t := cs']> (m_states (Synchronize st))) (Synchronize st)) /\
    CounterMode.reached_target (mode cs') = false /\
    CounterMode.reached_overflow (mode cs') = false /\
    (forall i, i <> 11 -> i <> 12 -> Z.testbit (mode cs') i = Z.testbit (mode cs) i) /\
    CounterMode.sync_mode (mode cs') = CounterMode.sync_mode (mode cs) /\
    CounterMode.clock_source (mode cs') = CounterMode.clock_source (mode cs) /\
    counter cs' = counter cs /\ target cs' = target cs /\
    irq_done cs' = irq_done cs /\ gate cs' = gate cs /\
    use_external_clock cs' = use_external_clock cs /\
    external_counting_enabled cs' = external_counting_enabled cs /\
    counting_enabled cs' = counting_enabled cs.
Proof.
  intros Ht -> Hcs.
  destruct (mode_port_decode t) as [Hidx Hport]; [unfold NUM_TIMERS in Ht; lia|].
  exists (set_mode (CounterMode.set_reached_target false
                      (CounterMode.set_reached_overflow false (mode cs))) cs).
  split.
  - unfold ReadRegister. rewrite Hport, Hidx.
    change (4 =? 0) with false. change (4 =? 4) with true. cbv iota.
    rewrite run_do_Synchronize.
    pose proof (lookup_lt_Some _ _ _ Hcs) as Hlt.
    destruct (Synchronize st) as [l c q d]. cbn [m_states] in *.
    unfold with_states. cbn [m_states m_sysclk_div_8_carry irq_requests downcount].
    rewrite <- (list_insert_id l _ cs Hcs) at 1.
    unfold modify_mode. run_timer Hlt. reflexivity.
  - cbn [mode counter target irq_done gate use_external_clock
           external_counting_enabled counting_enabled set_mode].
    unfold CounterMode.reached_target, CounterMode.reached_overflow,
      CounterMode.set_reached_target, CounterMode.set_reached_overflow,
      CounterMode.sync_mode, CounterMode.clock_source.
    rewrite !get_set_flag by lia. cbn [Z.eqb Pos.eqb].
    rewrite !get_field_set_flag by lia.
    repeat split; try reflexivity.
    intros i H11 H12.
    change (Z.testbit ?m i) with (get_flag i m).
    rewrite !get_set_flag by lia.
    destruct (11 =? i) eqn:E1; [apply Z.eqb_eq in E1; lia|].
    destruct (12 =? i) eqn:E2; [apply Z.eqb_eq in E2; lia|]. reflexivity.
Qed.

(** C4, as the code has it.  Writing [value] to the mode port of timer
    [t], at offset [0x10 * t + 0x04], stores [value & 0x1FFF] as the mode
    word of that timer, with [interrupt_request_n] forced to 1 when the
    stored [irq_pulse_n] is set; recomputes [use_external_clock] as
    [(clock_source & (t == 2 ? 2 : 1)) != 0]; sets the counter to 0;
    recomputes [counting_enabled] from the stored sync fields and the
    gate, and [external_counting_enabled] as the conjunction of the two;
    and, [irq_done] having been cleared, re-evaluates the interrupt line:
    when the resulting [interrupt_request_n] is 0 the timer's interrupt
    is raised and [irq_done] is left set, otherwise no interrupt is raised
    and [irq_done] is left clear.  The target, the gate, the other timers
    and the carry are untouched. *)
Theorem WriteRegister_mode_port t offset value st cs :
  (t < NUM_TIMERS)%nat ->
  offset = 0x10 * Z.of_nat t + 0x04 ->
  m_states (Synchronize st) !! t = Some cs ->
  let bits := Z.land value 0x1FFF in
  let stored := if CounterMode.irq_pulse_n bits
                then CounterMode.set_interrupt_request_n true bits else bits in
  let raised := negb (CounterMode.interrupt_request_n stored) in
  let external :=
    negb (Z.land (CounterMode.clock_source bits) (if (t =? 2)%nat then 2 else 1) =? 0) in
  let counting :=
    if CounterMode.sync_enable stored then
      match SyncMode_of (CounterMode.sync_mode stored) with
      | PauseOnGate | FreeRunOnGate => negb (gate cs)
      | ResetOnGate => true
      | ResetAndRunOnGate => gate cs
      end
    else true in
  exists cs',
    WriteRegister TMR0 Synchronize offset value st
    = Some (tt, mkState (<[t := cs']> (m_states (Synchronize st)))
                  (m_sysclk_div_8_carry (Synchronize st))
                  (irq_requests (Synchronize st) ++ raised_irqs raised (TMR0 + Z.of_nat t))
                  (downcount (Synchronize st))) /\
    mode cs' = stored /\
    use_external_clock cs' = external /\
    counter cs' = 0 /\
    irq_done cs' = raised /\
    counting_enabled cs' = counting /\
    external_counting_enabled cs' = external && counting /\
    target cs' = target cs /\ gate cs' = gate cs.
Proof.
  intros Ht -> Hcs bits stored raised external counting.
  destruct (mode_port_decode t) as [Hidx Hport]; [unfold NUM_TIMERS in Ht; lia|].
  pose proof (lookup_lt_Some _ _ _ Hcs) as Hlt.
  set (cs4 := set_irq_done false (set_counter 0
        (set_use_external_clock external (set_mode bits cs)))).
  set (cs5 := UpdateCountingEnabled (set_mode stored cs4)).
  exists (fst (UpdateIRQ_on cs5)).
  assert (Hmode5 : mode cs5 = stored).
  { subst cs5. unfold UpdateCountingEnabled.
    destruct (CounterMode.sync_enable _); [destruct (SyncMode_of _)|]; reflexivity. }
  assert (Hfr5 : irq_done cs5 = false /\ counter cs5 = 0 /\ target cs5 = target cs /\
                 gate cs5 = gate cs /\
                 use_external_clock cs5 = external /\
                 counting_enabled cs5 = counting /\
                 external_counting_enabled cs5 = external && counting).
  { subst cs5 counting. unfold UpdateCountingEnabled.
    cbn [mode set_mode gate].
    destruct (CounterMode.sync_enable stored);
      [destruct (SyncMode_of (CounterMode.sync_mode stored))|];
      repeat split; reflexivity. }
  destruct Hfr5 as (Hd5 & Hc5 & Ht5 & Hg5 & Hu5 & Hn5 & He5).
  assert (Hirq : UpdateIRQ_on cs5 = (if raised then set_irq_done true cs5 else cs5, raised)).
  { unfold UpdateIRQ_on. rewrite Hd5, andb_false_r, orb_false_r, Hmode5.
    subst raised. destruct (CounterMode.interrupt_request_n stored); reflexivity. }
  split.
  - unfold WriteRegister. rewrite Hport, Hidx.
    change (4 =? 0) with false. change (4 =? 4) with true. cbv iota.
    rewrite run_do_Synchronize.
    destruct (Synchronize st) as [l c q d].
    cbn [m_states m_sysclk_div_8_carry irq_requests downcount] in *.
    rewrite <- (list_insert_id l _ cs Hcs) at 1.
    unfold modify_mode, when. run_timer Hlt.
    cbn [mode set_mode set_irq_done set_counter set_use_external_clock].
    fold bits. fold external.
    transitivity (UpdateIRQ TMR0 t (mkState (<[t := cs5]> l) c q d)).
    { destruct (CounterMode.irq_pulse_n bits) eqn:Hp; run_timer Hlt; reflexivity. }
    rewrite run_UpdateIRQ_last by exact Hlt.
    rewrite Hirq. reflexivity.
  - rewrite Hirq. cbn [fst].
    destruct raised;
      cbn [mode use_external_clock counter irq_done target gate set_irq_done
           counting_enabled external_counting_enabled];
      repeat split; assumption || reflexivity.
Qed.

(** ** [Execute] on the three counters *)

Lemma run_state_at_lookup {A} t (k : CounterState -> M A) st cs :
  m_states st !! t = Some cs -> bind (state_at t) k st = k cs st.
Proof. intros H. unfold bind, state_at. rewrite H. reflexivity. Qed.

Lemma run_AddTicks {A} t n (k : unit -> M A) st cs :
  m_states st !! t = Some cs ->
  bind (AddTicks TMR0 t n) k st
  = k tt (mkState (<[t := fst (AddTicks_on cs n)]> (m_states st))
            (m_sysclk_div_8_carry st)
            (irq_requests st ++ raised_irqs (snd (AddTicks_on cs n)) (TMR0 + Z.of_nat t))
            (downcount st)).
Proof. intros H. unfold bind. rewrite (AddTicks_run _ _ _ _ H). reflexivity. Qed.

Lemma UpdateDowncount_run s0 s1 s2 c q d :
  exists d', UpdateDowncount (mkState [s0; s1; s2] c q d)
             = Some (tt, mkState [s0; s1; s2] c q d').
Proof. eexists. reflexivity. Qed.

(** What one call of [Execute] does to the three counters, the carry and
    the interrupt controller. *)
Lemma Execute_run n s0 s1 s2 c q d :
  let r0 := if negb (external_counting_enabled s0) && counting_enabled s0
            then AddTicks_on s0 n else (s0, false) in
  let r1 := if negb (external_counting_enabled s1) && counting_enabled s1
            then AddTicks_on s1 n else (s1, false) in
  let r2 := if external_counting_enabled s2
            then AddTicks_on s2 (Z.quot (s32 (n + c)) 8)
            else if counting_enabled s2 then AddTicks_on s2 n else (s2, false) in
  let c' := if external_counting_enabled s2 then Z.rem (s32 (n + c)) 8 else c in
  exists d',
    Execute TMR0 n (mkState [s0; s1; s2] c q d)
    = Some (tt, mkState [fst r0; fst r1; fst r2] c'
                  (q ++ raised_irqs (snd r0) (TMR0 + 0)
                     ++ raised_irqs (snd r1) (TMR0 + 1)
                     ++ raised_irqs (snd r2) (TMR0 + 2)) d').
Proof.
  intros r0 r1 r2 c'. unfold Execute, when.
  rewrite (run_state_at_lookup 0 _ _ s0) by reflexivity.
  assert (E0 : forall (k : unit -> M unit),
            bind (if negb (external_counting_enabled s0) && counting_enabled s0
                  then AddTicks TMR0 0 n else ret tt) k (mkState [s0; s1; s2] c q d)
            = k tt (mkState [fst r0; s1; s2] c (q ++ raised_irqs (snd r0) (TMR0 + 0)) d)).
  { intros k. subst r0.
    destruct (negb (external_counting_enabled s0) && counting_enabled s0).
    - rewrite (run_AddTicks 0 n k _ s0) by reflexivity. reflexivity.
    - rewrite bind_ret. cbn [fst snd raised_irqs]. rewrite app_nil_r. reflexivity. }
  rewrite E0. clear E0.
  rewrite (run_state_at_lookup 1 _ _ s1) by reflexivity.
  set (q1 := q ++ raised_irqs (snd r0) (TMR0 + 0)).
  assert (E1 : forall (k : unit -> M unit),
            bind (if negb (external_counting_enabled s1) && counting_enabled s1
                  then AddTicks TMR0 1 n else ret tt) k (mkState [fst r0; s1; s2] c q1 d)
            = k tt (mkState [fst r0; fst r1; s2] c (q1 ++ raised_irqs (snd r1) (TMR0 + 1)) d)).
  { intros k. subst r1.
    destruct (negb (external_counting_enabled s1) && counting_enabled s1).
    - rewrite (run_AddTicks 1 n k _ s1) by reflexivity. reflexivity.
    - rewrite bind_ret. cbn [fst snd raised_irqs]. rewrite app_nil_r. reflexivity. }
  rewrite E1. clear E1.
  rewrite (run_state_at_lookup 2 _ _ s2) by reflexivity.
  set (q2 := q1 ++ raised_irqs (snd r1) (TMR0 + 1)).
  assert (E2 : forall (k : unit -> M unit),
            bind (if external_counting_enabled s2
                  then
                    let* carry := get_carry in
                    put_carry (Z.rem (s32 (n + carry)) 8) >>
                    AddTicks TMR0 2 (Z.quot (s32 (n + carry)) 8)
                  else
                    if counting_enabled s2
                    then AddTicks TMR0 2
                           (if external_counting_enabled s2 then Z.quot n 8 else n)
                    else ret tt) k (mkState [fst r0; fst r1; s2] c q2 d)
            = k tt (mkState [fst r0; fst r1; fst r2] c'
                      (q2 ++ raised_irqs (snd r2) (TMR0 + 2)) d)).
  { intros k. subst r2 c'.
    destruct (external_counting_enabled s2).
    - rewrite !bind_assoc. unfold get_carry at 1. unfold bind at 1.
      cbn [m_sysclk_div_8_carry]. rewrite bind_assoc.
      unfold put_carry at 1. unfold bind at 1.
      cbn [m_states irq_requests downcount].
      rewrite (run_AddTicks 2 _ k _ s2) by reflexivity. reflexivity.
    - destruct (counting_enabled s2).
      + rewrite (run_AddTicks 2 n k _ s2) by reflexivity. reflexivity.
      + rewrite bind_ret. cbn [fst snd raised_irqs]. rewrite app_nil_r. reflexivity. }
  rewrite E2. clear E2.
  destruct (UpdateDowncount_run (fst r0) (fst r1) (fst r2) c'
              (q2 ++ raised_irqs (snd r2) (TMR0 + 2)) d) as [d' Hd].
  exists d'. rewrite Hd. subst q2 q1. rewrite <- !app_assoc. reflexivity.
Qed.

Lemma UpdateIRQ_on_rest cs :
  gate (fst (UpdateIRQ_on cs)) = gate cs /\
  use_external_clock (fst (UpdateIRQ_on cs)) = use_external_clock cs /\
  external_counting_enabled (fst (UpdateIRQ_on cs)) = external_counting_enabled cs /\
  counting_enabled (fst (UpdateIRQ_on cs)) = counting_enabled cs.
Proof.
  unfold UpdateIRQ_on.
  destruct (CounterMode.interrupt_request_n (mode cs)
            || negb (CounterMode.irq_repeat (mode cs)) && irq_done cs);
    repeat split; reflexivity.
Qed.

Lemma request_on_rest cs :
  gate (fst (request_on cs)) = gate cs /\
  use_external_clock (fst (request_on cs)) = use_external_clock cs /\
  external_counting_enabled (fst (request_on cs)) = external_counting_enabled cs /\
  counting_enabled (fst (request_on cs)) = counting_enabled cs.
Proof.
  unfold request_on.
  destruct (negb (CounterMode.irq_pulse_n (mode cs))); cbn [fst snd];
    match goal with |- context [UpdateIRQ_on ?x] =>
      destruct (UpdateIRQ_on_rest x) as (Hg & Hu & He & Hc) end;
    cbn [gate use_external_clock external_counting_enabled counting_enabled set_mode] in *;
    repeat split; assumption.
Qed.

Lemma wrap_counter_rest cs :
  target (wrap_counter cs) = target cs /\
  gate (wrap_counter cs) = gate cs /\
  use_external_clock (wrap_counter cs) = use_external_clock cs /\
  external_counting_enabled (wrap_counter cs) = external_counting_enabled cs /\
  counting_enabled (wrap_counter cs) = counting_enabled cs /\
  irq_done (wrap_counter cs) = irq_done cs.
Proof.
  unfold wrap_counter.
  destruct (CounterMode.reset_at_target (mode cs)); [destruct (0 <? target cs)|];
    repeat split; reflexivity.
Qed.

(** [AddTicks] leaves the target, the gate, the derived flags and every
    mode bit other than bits 10 to 12 alone. *)
Lemma AddTicks_on_frame cs n :
  target (fst (AddTicks_on cs n)) = target cs /\
  external_counting_enabled (fst (AddTicks_on cs n)) = external_counting_enabled cs /\
  counting_enabled (fst (AddTicks_on cs n)) = counting_enabled cs /\
  (forall p, p <> 10 -> p <> 11 -> p <> 12 ->
     get_flag p (mode (fst (AddTicks_on cs n))) = get_flag p (mode cs)).
Proof.
  destruct (AddTicks_on_before_wrap cs n) as (pre & Hpre & _ & Ht & Hm).
  split; [|split; [|split]].
  - rewrite Hpre. destruct (wrap_counter_rest pre) as (-> & _). exact Ht.
  - unfold AddTicks_on. cbn [fst].
    match goal with |- context [wrap_counter ?x] =>
      destruct (wrap_counter_rest x) as (_ & _ & _ & -> & _) end.
    repeat match goal with
           | |- context [if ?b then _ else _] => destruct b
           end; cbn [fst];
      try match goal with |- context [request_on ?x] =>
        destruct (request_on_rest x) as (_ & _ & -> & _) end; reflexivity.
  - unfold AddTicks_on. cbn [fst].
    match goal with |- context [wrap_counter ?x] =>
      destruct (wrap_counter_rest x) as (_ & _ & _ & _ & -> & _) end.
    repeat match goal with
           | |- context [if ?b then _ else _] => destruct b
           end; cbn [fst];
      try match goal with |- context [request_on ?x] =>
        destruct (request_on_rest x) as (_ & _ & _ & ->) end; reflexivity.
  - intros p H10 H11 H12. rewrite Hpre, wrap_counter_mode. apply Hm; assumption.
Qed.

(** In pulse mode, with the one-shot latch not holding the request back,
    the interrupt controller is called exactly when the target or the
    overflow test succeeds; a target hit is recorded in [reached_target]. *)
Lemma AddTicks_on_pulse cs n :
  CounterMode.irq_pulse_n (mode cs) = false ->
  negb (CounterMode.irq_repeat (mode cs)) && irq_done cs = false ->
  let sum := u32 (counter cs + u32 n) in
  let at_target := (target cs <=? sum) && (counter cs <? target cs) in
  snd (AddTicks_on cs n) = at_target || (0xFFFF <=? sum) /\
  (at_target = true -> CounterMode.reached_target (mode (fst (AddTicks_on cs n))) = true).
Proof.
  intros Hpulse Hlatch sum at_target. unfold AddTicks_on.
  cbn [counter target mode set_counter]. fold sum. fold at_target.
  assert (Hreq : forall c,
            get_flag 7 (mode c) = false -> get_flag 6 (mode c) = get_flag 6 (mode cs) ->
            irq_done c = irq_done cs ->
            snd (request_on c) = true /\
            forall p, p <> 10 ->
              get_flag p (mode (fst (request_on c))) = get_flag p (mode c)).
  { intros c H7 H6 Hd. destruct (request_on_frame c) as (_ & _ & Hbits).
    split; [| exact Hbits].
    unfold request_on, CounterMode.irq_pulse_n. rewrite H7. cbn [negb snd].
    unfold UpdateIRQ_on. cbn [mode set_mode irq_done].
    unfold CounterMode.interrupt_request_n, CounterMode.set_interrupt_request_n,
      CounterMode.irq_repeat.
    rewrite !get_set_flag by lia. cbn [Z.eqb Pos.eqb orb].
    rewrite H6, Hd. fold (CounterMode.irq_repeat (mode cs)). rewrite Hlatch. reflexivity. }
  unfold CounterMode.irq_pulse_n in Hpulse. unfold CounterMode.reached_target.
  destruct at_target; destruct (0xFFFF <=? sum); cbn [orb fst snd];
    try (split; [reflexivity | discriminate]).
  all: match goal with |- context [request_on ?x] =>
         destruct (Hreq x) as [Hs Hb] end;
       cbn [mode set_mode irq_done set_counter];
       unfold CounterMode.set_reached_overflow, CounterMode.set_reached_target;
       rewrite ?get_set_flag by lia; try reflexivity; try exact Hpulse.
  all: split; [exact Hs|]; try discriminate.
  all: intros _; rewrite wrap_counter_mode, Hb by lia;
       cbn [mode set_mode];
       unfold CounterMode.set_reached_overflow, CounterMode.set_reached_target;
       rewrite ?get_set_flag by lia; reflexivity.
Qed.

Lemma AddTicks_on_quiet cs n :
  (target cs <=? u32 (counter cs + u32 n)) && (counter cs <? target cs) = false ->
  (0xFFFF <=? u32 (counter cs + u32 n)) = false ->
  AddTicks_on cs n = (wrap_counter (set_counter (u32 (counter cs + u32 n)) cs), false).
Proof.
  intros Ht Ho. unfold AddTicks_on. cbn [counter target set_counter].
  rewrite Ht, Ho. reflexivity.
Qed.

(** Whether [UpdateIRQ] calls the interrupt controller once the request
    line has moved, and where the line is left: in pulse mode the line
    goes low and back high, in toggle mode it changes side; the controller
    is called when the line is low and the one-shot latch is open. *)
Lemma request_on_line cs :
  snd (request_on cs)
  = (CounterMode.irq_repeat (mode cs) || negb (irq_done cs))
    && (negb (CounterMode.irq_pulse_n (mode cs))
        || CounterMode.interrupt_request_n (mode cs)) /\
  CounterMode.interrupt_request_n (mode (fst (request_on cs)))
  = (if CounterMode.irq_pulse_n (mode cs)
     then negb (CounterMode.interrupt_request_n (mode cs)) else true) /\
  irq_done (fst (request_on cs)) = irq_done cs || snd (request_on cs).
Proof.
  unfold request_on, UpdateIRQ_on, CounterMode.irq_pulse_n, CounterMode.irq_repeat,
    CounterMode.interrupt_request_n, CounterMode.set_interrupt_request_n.
  destruct (get_flag 7 (mode cs)) eqn:H7; destruct (get_flag 10 (mode cs)) eqn:H10;
    destruct (get_flag 6 (mode cs)) eqn:H6; destruct (irq_done cs) eqn:Hd;
    cbn [negb xorb fst snd mode set_mode irq_done];
    rewrite ?get_set_flag by lia; cbn [Z.eqb Pos.eqb];
    rewrite ?H6, ?Hd; cbn [negb andb orb fst snd mode set_mode irq_done set_irq_done];
    rewrite ?get_set_flag by lia; cbn [Z.eqb Pos.eqb];
    rewrite ?H10, ?Hd; repeat split; reflexivity.
Qed.

(** One call of [AddTicks], in either interrupt mode: the interrupt
    controller is called when the target or the overflow test succeeds,
    the one-shot latch is open and, in toggle mode, the line was high. *)
Lemma AddTicks_on_raised cs n :
  let sum := u32 (counter cs + u32 n) in
  let at_target := (target cs <=? sum) && (counter cs <? target cs) in
  let hit := at_target || (0xFFFF <=? sum) in
  snd (AddTicks_on cs n)
  = hit && ((CounterMode.irq_repeat (mode cs) || negb (irq_done cs))
            && (negb (CounterMode.irq_pulse_n (mode cs))
                || CounterMode.interrupt_request_n (mode cs))) /\
  CounterMode.interrupt_request_n (mode (fst (AddTicks_on cs n)))
  = (if hit
     then if CounterMode.irq_pulse_n (mode cs)
          then negb (CounterMode.interrupt_request_n (mode cs)) else true
     else CounterMode.interrupt_request_n (mode cs)) /\
  (at_target = true ->
   CounterMode.reached_target (mode (fst (AddTicks_on cs n))) = true).
Proof.
  intros sum at_target hit. unfold AddTicks_on.
  cbn [counter target mode set_counter]. fold sum. fold at_target.
  set (cs1 := set_counter sum cs).
  set (cs2 := if at_target then _ else cs1).
  set (cs3 := if 0xFFFF <=? sum then _ else cs2).
  assert (H3 : irq_done cs3 = irq_done cs /\
               (forall p, p <> 11 -> p <> 12 -> get_flag p (mode cs3) = get_flag p (mode cs)) /\
               (at_target = true -> get_flag 11 (mode cs3) = true)).
  { subst cs3 cs2 cs1.
    destruct at_target; destruct (0xFFFF <=? sum);
      cbn [irq_done mode set_mode set_counter];
      unfold CounterMode.set_reached_target, CounterMode.set_reached_overflow;
      (split; [reflexivity|]); (split; [|intros Hat]);
      try (intros p H11 H12); rewrite ?get_set_flag by lia; try discriminate;
      try reflexivity;
      repeat match goal with
             | |- context [?a =? ?b] =>
                 let E := fresh "E" in
                 destruct (a =? b) eqn:E; [apply Z.eqb_eq in E; lia|]
             end; reflexivity. }
  destruct H3 as (Hd3 & Hm3 & Ht3).
  fold hit.
  unfold CounterMode.irq_repeat, CounterMode.irq_pulse_n, CounterMode.interrupt_request_n,
    CounterMode.reached_target.
  destruct hit; cbn [fst snd andb].
  - destruct (request_on_line cs3) as (Hs & Hl & _).
    destruct (request_on_frame cs3) as (_ & _ & Hb).
    unfold CounterMode.irq_repeat, CounterMode.irq_pulse_n,
      CounterMode.interrupt_request_n in Hs, Hl.
    rewrite !Hm3, Hd3 in Hs by lia. rewrite !Hm3 in Hl by lia.
    rewrite wrap_counter_mode.
    split; [exact Hs|]. split; [exact Hl|].
    intros Hat. rewrite Hb by lia. apply Ht3. exact Hat.
  - rewrite wrap_counter_mode.
    split; [reflexivity|]. split; [apply Hm3; lia|].
    intros Hat. apply Ht3. exact Hat.
Qed.

(** ** Counting interrupt requests *)

Lemma irq_count_app irq (a b : list Z) :
  irq_count irq (a ++ b) = (irq_count irq a + irq_count irq b)%nat.
Proof. unfold irq_count. rewrite filter_app, length_app. reflexivity. Qed.

Lemma irq_count_raised irq raised (other : Z) :
  irq_count irq (raised_irqs raised other)
  = if raised && (other =? irq) then 1%nat else 0%nat.
Proof.
  unfold irq_count, raised_irqs. destruct raised; [|reflexivity].
  cbn [andb]. destruct (other =? irq) eqn:E.
  - apply Z.eqb_eq in E. subst. rewrite filter_cons_True by reflexivity. reflexivity.
  - apply Z.eqb_neq in E. rewrite filter_cons_False by exact E. reflexivity.
Qed.

(** ** Timer 2 on the sysclk/8 clock *)

(** C6, as the code has it.  Timer 2 counting on its external clock:
    [Execute] adds [(sysclk_ticks + carry) / 8] ticks to it and keeps
    [(sysclk_ticks + carry) % 8] as the new carry.  With target 10,
    counter 0 and carry 0, [Execute(79)] leaves the counter at 9 and the
    carry at 7, and a following [Execute(1)] leaves the carry at 0 and
    sets [reached_target]; the counter it leaves is 10 when
    [reset_at_target] is clear and 0 when it is set, and the interrupt of
    timer 2 is raised, once, exactly when the one-shot latch is open
    ([irq_repeat] set or [irq_done] clear) and the request line goes low
    (pulse mode, or toggle mode with the line high). *)
Theorem Execute_timer2_sysclk_div_8 s0 s1 s2 q d :
  external_counting_enabled s2 = true ->
  (forall n c, 0 <= n -> 0 <= c -> n + c < 2 ^ 31 ->
     exists st',
       Execute TMR0 n (mkState [s0; s1; s2] c q d) = Some (tt, st') /\
       m_sysclk_div_8_carry st' = (n + c) mod 8 /\
       m_states st' !! 2%nat = Some (fst (AddTicks_on s2 ((n + c) / 8)))) /\
  (target s2 = 10 -> counter s2 = 0 ->
   let raised :=
     (CounterMode.irq_repeat (mode s2) || negb (irq_done s2))
     && (negb (CounterMode.irq_pulse_n (mode s2))
         || CounterMode.interrupt_request_n (mode s2)) in
   exists st1 st2 cs1 cs2,
     Execute TMR0 79 (mkState [s0; s1; s2] 0 q d) = Some (tt, st1) /\
     m_states st1 !! 2%nat = Some cs1 /\
     counter cs1 = 9 /\ m_sysclk_div_8_carry st1 = 7 /\
     Execute TMR0 1 st1 = Some (tt, st2) /\
     m_states st2 !! 2%nat = Some cs2 /\
     counter cs2 = (if CounterMode.reset_at_target (mode s2) then 0 else 10) /\
     m_sysclk_div_8_carry st2 = 0 /\
     CounterMode.reached_target (mode cs2) = true /\
     irq_count (TMR0 + 2) (irq_requests st2)
     = (irq_count (TMR0 + 2) (irq_requests st1) + if raised then 1 else 0)%nat).
Proof.
  intros Hext. split.
  - intros n c Hn Hc Hsum.
    destruct (Execute_run n s0 s1 s2 c q d) as [d' Hrun].
    cbv zeta in Hrun. rewrite Hext in Hrun.
    rewrite (s32_small (n + c)) in Hrun by lia.
    rewrite Z.quot_div_nonneg, Z.rem_mod_nonneg in Hrun by lia.
    eexists. split; [exact Hrun|]. split; reflexivity.
  - intros Htarget Hcounter raised.
    destruct (Execute_run 79 s0 s1 s2 0 q d) as [d1 Hrun1].
    cbv zeta in Hrun1. rewrite Hext in Hrun1.
    change (Z.quot (s32 (79 + 0)) 8) with 9 in Hrun1.
    change (Z.rem (s32 (79 + 0)) 8) with 7 in Hrun1.
    assert (Hstep1 : AddTicks_on s2 9 = (set_counter 9 (set_counter 9 s2), false)).
    { rewrite AddTicks_on_quiet; rewrite ?Htarget, ?Hcounter; try reflexivity.
      unfold wrap_counter. cbn [mode target counter set_counter]. rewrite Htarget.
      destruct (CounterMode.reset_at_target (mode s2)); reflexivity. }
    rewrite Hstep1 in Hrun1. cbn [fst snd] in Hrun1.
    set (cs1 := set_counter 9 (set_counter 9 s2)) in *.
    match type of Hrun1 with _ = Some (tt, mkState [?a; ?b; _] _ ?q' _) =>
      set (a0 := a) in *; set (b0 := b) in *; set (q1 := q') in * end.
    destruct (Execute_run 1 a0 b0 cs1 7 q1 d1) as [d2 Hrun2].
    cbv zeta in Hrun2.
    change (external_counting_enabled cs1) with (external_counting_enabled s2) in Hrun2.
    rewrite Hext in Hrun2.
    change (Z.quot (s32 (1 + 7)) 8) with 1 in Hrun2.
    change (Z.rem (s32 (1 + 7)) 8) with 0 in Hrun2.
    destruct (AddTicks_on_raised cs1 1) as (Hraised & _ & Hflag).
    change (target cs1) with (target s2) in Hraised, Hflag.
    change (counter cs1) with 9 in Hraised, Hflag.
    change (mode cs1) with (mode s2) in Hraised.
    change (irq_done cs1) with (irq_done s2) in Hraised.
    rewrite Htarget in Hraised, Hflag.
    change (u32 (9 + u32 1)) with 10 in Hraised, Hflag.
    change ((10 <=? 10) && (9 <? 10)) with true in Hraised, Hflag.
    cbn [orb andb] in Hraised. fold raised in Hraised.
    exists (mkState [a0; b0; cs1] 7 q1 d1).
    eexists. exists cs1, (fst (AddTicks_on cs1 1)).
    split; [exact Hrun1|]. split; [reflexivity|]. split; [reflexivity|].
    split; [reflexivity|]. split; [exact Hrun2|]. split; [reflexivity|].
    split.
    { rewrite AddTicks_on_counter. cbv zeta.
      change (mode cs1) with (mode s2). change (target cs1) with (target s2).
      change (counter cs1) with 9. rewrite Htarget.
      destruct (CounterMode.reset_at_target (mode s2)); reflexivity. }
    split; [reflexivity|]. split; [apply Hflag; reflexivity|].
    cbn [irq_requests]. rewrite Hraised.
    rewrite !irq_count_app, !irq_count_raised.
    replace (TMR0 + 0 =? TMR0 + 2) with false by (symmetry; apply Z.eqb_neq; lia).
    replace (TMR0 + 1 =? TMR0 + 2) with false by (symmetry; apply Z.eqb_neq; lia).
    rewrite Z.eqb_refl, !andb_false_r, andb_true_r. lia.
Qed.

(** ** Interrupts of a periodic timer *)

Lemma AddTicks_on_periodic T cs n :
  periodic_timer T cs -> 0 < T <= 0xFFFF -> 0 <= counter cs < T -> 0 <= n <= T ->
  periodic_timer T (fst (AddTicks_on cs n)) /\
  counter (fst (AddTicks_on cs n)) = (counter cs + n) mod T /\
  snd (AddTicks_on cs n) = (T <=? counter cs + n).
Proof.
  intros (Hreset & Hrepeat & Hpulse & Htarget & Hcount & Hext) HT Hc Hn.
  destruct (AddTicks_on_frame cs n) as (Ft & Fe & Fc & Fm).
  assert (Hsum : u32 (counter cs + u32 n) = counter cs + n).
  { rewrite (u32_small n) by lia. apply u32_small. lia. }
  split; [|split].
  - unfold periodic_timer, CounterMode.reset_at_target, CounterMode.irq_repeat,
      CounterMode.irq_pulse_n.
    rewrite Ft, Fe, Fc, !Fm by lia. repeat split; assumption.
  - rewrite AddTicks_on_counter. cbv zeta. rewrite Hsum, Hreset, Htarget.
    replace (0 <? T) with true by (symmetry; apply Z.ltb_lt; lia). reflexivity.
  - destruct (AddTicks_on_pulse cs n Hpulse) as [Hr _].
    { rewrite Hrepeat. reflexivity. }
    rewrite Hr, Hsum, Htarget.
    replace (counter cs <? T) with true by (symmetry; apply Z.ltb_lt; lia).
    rewrite andb_true_r.
    destruct (T <=? counter cs + n) eqn:E; [reflexivity|].
    apply Z.leb_gt in E. cbn [orb]. apply Z.leb_gt. lia.
Qed.

(** One call of [Execute] seen from a timer [t] that counts sysclk. *)
Lemma Execute_counting_timer n t s0 s1 s2 c q d cs :
  [s0; s1; s2] !! t = Some cs ->
  counting_enabled cs = true ->
  external_counting_enabled cs = false ->
  exists s0' s1' s2' c' q' d',
    Execute TMR0 n (mkState [s0; s1; s2] c q d)
    = Some (tt, mkState [s0'; s1'; s2'] c' q' d') /\
    [s0'; s1'; s2'] !! t = Some (fst (AddTicks_on cs n)) /\
    irq_count (TMR0 + Z.of_nat t) q'
    = (irq_count (TMR0 + Z.of_nat t) q + if snd (AddTicks_on cs n) then 1 else 0)%nat.
Proof.
  intros Hcs Hcount Hext.
  destruct (Execute_run n s0 s1 s2 c q d) as [d' Hrun]. cbv zeta in Hrun.
  do 6 eexists. split; [exact Hrun|].
  rewrite !irq_count_app, !irq_count_raised.
  destruct t as [|[|[|t]]]; cbn in Hcs; try discriminate;
    injection Hcs as ->; rewrite ?Hext, ?Hcount; cbn [negb andb fst snd];
    (split; [reflexivity|]).
  - replace (TMR0 + 0 =? TMR0 + Z.of_nat 0) with true by (symmetry; apply Z.eqb_eq; lia).
    replace (TMR0 + 1 =? TMR0 + Z.of_nat 0) with false by (symmetry; apply Z.eqb_neq; lia).
    replace (TMR0 + 2 =? TMR0 + Z.of_nat 0) with false by (symmetry; apply Z.eqb_neq; lia).
    rewrite !andb_false_r, andb_true_r. lia.
  - replace (TMR0 + 0 =? TMR0 + Z.of_nat 1) with false by (symmetry; apply Z.eqb_neq; lia).
    replace (TMR0 + 1 =? TMR0 + Z.of_nat 1) with true by (symmetry; apply Z.eqb_eq; lia).
    replace (TMR0 + 2 =? TMR0 + Z.of_nat 1) with false by (symmetry; apply Z.eqb_neq; lia).
    rewrite !andb_false_r, andb_true_r. lia.
  - replace (TMR0 + 0 =? TMR0 + Z.of_nat 2) with false by (symmetry; apply Z.eqb_neq; lia).
    replace (TMR0 + 1 =? TMR0 + Z.of_nat 2) with false by (symmetry; apply Z.eqb_neq; lia).
    replace (TMR0 + 2 =? TMR0 + Z.of_nat 2) with true by (symmetry; apply Z.eqb_eq; lia).
    rewrite !andb_false_r, andb_true_r. lia.
Qed.

(** Tick budgets of at most [T] each never step over the target twice:
    the requests raised are the multiples of [T] passed. *)
Lemma Execute_all_periodic T t budgets :
  0 < T <= 0xFFFF ->
  Forall (fun n => 0 <= n <= T) budgets ->
  forall s0 s1 s2 c q d cs,
    [s0; s1; s2] !! t = Some cs ->
    periodic_timer T cs -> 0 <= counter cs < T ->
    exists st',
      Execute_all TMR0 budgets (mkState [s0; s1; s2] c q d) = Some (tt, st') /\
      irq_count (TMR0 + Z.of_nat t) (irq_requests st')
      = (irq_count (TMR0 + Z.of_nat t) q
         + Z.to_nat ((counter cs + total_ticks budgets) / T))%nat.
Proof.
  intros HT Hall. induction Hall as [|n rest Hn Hrest IH];
    intros s0 s1 s2 c q d cs Hcs Hper Hc.
  - eexists. split; [reflexivity|]. cbn [irq_requests total_ticks foldr].
    rewrite Z.add_0_r, Z.div_small by lia. cbn. lia.
  - destruct Hper as (Hreset & Hrepeat & Hpulse & Htarget & Hcount & Hext).
    destruct (Execute_counting_timer n t s0 s1 s2 c q d cs Hcs Hcount Hext)
      as (s0' & s1' & s2' & c' & q' & d' & Hrun & Hcs' & Hq').
    destruct (AddTicks_on_periodic T cs n) as (Hper' & Hc' & Hraised);
      [repeat split; assumption | lia | lia | lia |].
    destruct (IH s0' s1' s2' c' q' d' _ Hcs' Hper') as (st' & Hall' & Hcnt).
    { rewrite Hc'. apply Z.mod_pos_bound. lia. }
    exists st'. split.
    { cbn [Execute_all]. unfold bind. rewrite Hrun. exact Hall'. }
    rewrite Hcnt, Hq', Hraised, Hc'. cbn [total_ticks foldr]. fold (total_ticks rest).
    assert (Hrest_nonneg : 0 <= total_ticks rest).
    { clear -Hrest. induction Hrest as [|x l Hx _ IHl]; cbn [total_ticks foldr]; [lia|].
      fold (total_ticks l). lia. }
    set (x := counter cs + n) in *. set (r := total_ticks rest) in *.
    replace (counter cs + (n + r)) with (x + r) by (subst x; lia).
    assert (Hsplit : (x + r) / T = x / T + (x mod T + r) / T).
    { rewrite (Z.div_mod x T) at 1 by lia.
      replace (T * (x / T) + x mod T + r) with ((x mod T + r) + (x / T) * T) by lia.
      rewrite Z.div_add by lia. lia. }
    rewrite Hsplit.
    assert (Hx : 0 <= x < 2 * T) by (subst x; lia).
    assert (Hmod : 0 <= x mod T < T) by (apply Z.mod_pos_bound; lia).
    assert (Hq2 : 0 <= (x mod T + r) / T) by (apply Z.div_pos; lia).
    destruct (T <=? x) eqn:E.
    + apply Z.leb_le in E.
      assert (x / T = 1) by (symmetry; apply Z.div_unique with (r := x - T); lia). lia.
    + apply Z.leb_gt in E. rewrite (Z.div_small x T) by lia. lia.
Qed.

(** One call of [AddTicks] on a repeating timer below its target. *)
Lemma AddTicks_on_repeating T cs n :
  repeating_timer T cs -> 0 < T <= 0xFFFF -> 0 <= counter cs < T -> 0 <= n < 2 ^ 31 ->
  let hit := T <=? counter cs + n in
  repeating_timer T (fst (AddTicks_on cs n)) /\
  counter (fst (AddTicks_on cs n)) = (counter cs + n) mod T /\
  CounterMode.irq_pulse_n (mode (fst (AddTicks_on cs n))) = CounterMode.irq_pulse_n (mode cs) /\
  CounterMode.interrupt_request_n (mode (fst (AddTicks_on cs n)))
  = (if hit
     then if CounterMode.irq_pulse_n (mode cs)
          then negb (CounterMode.interrupt_request_n (mode cs)) else true
     else CounterMode.interrupt_request_n (mode cs)) /\
  snd (AddTicks_on cs n)
  = hit && (negb (CounterMode.irq_pulse_n (mode cs))
            || CounterMode.interrupt_request_n (mode cs)).
Proof.
  intros (Hreset & Hrepeat & Htarget & Hcount & Hext) HT Hc Hn hit.
  destruct (AddTicks_on_frame cs n) as (Ft & Fe & Fc & Fm).
  assert (Hsum : u32 (counter cs + u32 n) = counter cs + n).
  { rewrite (u32_small n) by lia. apply u32_small. lia. }
  destruct (AddTicks_on_raised cs n) as (Hraised & Hline & _).
  cbv zeta in Hraised, Hline. rewrite Hsum, Htarget, Hrepeat in Hraised.
  rewrite Hsum, Htarget in Hline.
  assert (Hhit : (T <=? counter cs + n) && (counter cs <? T) || (0xFFFF <=? counter cs + n)
                 = hit).
  { subst hit. replace (counter cs <? T) with true by (symmetry; apply Z.ltb_lt; lia).
    rewrite andb_true_r. destruct (T <=? counter cs + n) eqn:E; [reflexivity|].
    apply Z.leb_gt in E. cbn [orb]. apply Z.leb_gt. lia. }
  rewrite Hhit in Hraised, Hline.
  split; [|split; [|split; [|split]]].
  - unfold repeating_timer, CounterMode.reset_at_target, CounterMode.irq_repeat.
    rewrite Ft, Fe, Fc, !Fm by lia. repeat split; assumption.
  - rewrite AddTicks_on_counter. cbv zeta. rewrite Hsum, Hreset, Htarget.
    replace (0 <? T) with true by (symmetry; apply Z.ltb_lt; lia). reflexivity.
  - unfold CounterMode.irq_pulse_n. apply Fm; lia.
  - exact Hline.
  - rewrite Hraised. cbn [orb andb]. reflexivity.
Qed.

Lemma target_passes_nonneg T budgets : forall c, 0 <= target_passes T c budgets.
Proof.
  induction budgets as [|n rest IH]; intros c; cbn [target_passes]; [lia|].
  specialize (IH ((c + n) mod T)). destruct (T <=? c + n); lia.
Qed.

(** With budgets of at most [T] ticks no call steps over the target
    twice: the passes are the multiples of [T] that the ticks reach. *)
Lemma target_passes_small_budgets T budgets :
  0 < T ->
  Forall (fun n => 0 <= n <= T) budgets ->
  forall c, 0 <= c < T ->
    target_passes T c budgets = (c + total_ticks budgets) / T.
Proof.
  intros HT Hall. induction Hall as [|n rest Hn Hrest IH]; intros c Hc.
  - cbn [target_passes total_ticks foldr]. rewrite Z.add_0_r, Z.div_small by lia.
    reflexivity.
  - cbn [target_passes total_ticks foldr]. fold (total_ticks rest).
    rewrite IH by (apply Z.mod_pos_bound; lia).
    set (x := c + n). set (r := total_ticks rest).
    replace (c + (n + r)) with (x + r) by (subst x; lia).
    assert (Hsplit : (x + r) / T = x / T + (x mod T + r) / T).
    { rewrite (Z.div_mod x T) at 1 by lia.
      replace (T * (x / T) + x mod T + r) with ((x mod T + r) + (x / T) * T) by lia.
      rewrite Z.div_add by lia. lia. }
    rewrite Hsplit.
    assert (Hx : 0 <= x < 2 * T) by (subst x; lia).
    destruct (T <=? x) eqn:E.
    + apply Z.leb_le in E.
      assert (x / T = 1) by (symmetry; apply Z.div_unique with (r := x - T); lia). lia.
    + apply Z.leb_gt in E. rewrite (Z.div_small x T) by lia. lia.
Qed.

(** The requests of a pass followed by further passes. *)
Lemma requests_of_passes_step cs cs' (hit : bool) passes :
  0 <= passes ->
  CounterMode.irq_pulse_n (mode cs') = CounterMode.irq_pulse_n (mode cs) ->
  CounterMode.interrupt_request_n (mode cs')
  = (if hit
     then if CounterMode.irq_pulse_n (mode cs)
          then negb (CounterMode.interrupt_request_n (mode cs)) else true
     else CounterMode.interrupt_request_n (mode cs)) ->
  Z.to_nat (requests_of_passes cs ((if hit then 1 else 0) + passes))
  = ((if hit && (negb (CounterMode.irq_pulse_n (mode cs))
                 || CounterMode.interrupt_request_n (mode cs)) then 1 else 0)
     + Z.to_nat (requests_of_passes cs' passes))%nat.
Proof.
  intros Hp Hpulse Hline. unfold requests_of_passes. rewrite Hpulse, Hline.
  destruct (CounterMode.irq_pulse_n (mode cs)); destruct hit;
    destruct (CounterMode.interrupt_request_n (mode cs)); cbn [negb orb andb];
    try lia.
  - replace (1 + passes + 1) with (passes + 0 + 1 * 2) by lia.
    rewrite Z.div_add by lia.
    pose proof (Z.div_pos (passes + 0) 2). lia.
  - replace (1 + passes + 0) with (passes + 1) by lia. lia.
  - replace (0 + passes + 1) with (passes + 1) by lia. lia.
  - replace (0 + passes + 0) with (passes + 0) by lia. lia.
Qed.

(** C3, as the code has it.  A timer with [reset_at_target] and
    [irq_repeat] set that counts sysclk ticks towards a target [T] with
    [0 < T <= 0xFFFF], its counter anywhere below [T]: [Execute] tests the
    target once in a call, so the timer passes its target once in every
    call that takes the counter to [T] or beyond, however many multiples
    of [T] the call spans.  In pulse mode each pass raises one interrupt
    request; in toggle mode each pass moves the request line to its other
    side and only the passes that take it low raise one.  When [k * T]
    ticks are delivered by calls of at most [T] ticks each, there are
    exactly [k] passes: [k] requests in pulse mode, and in toggle mode
    [(k + 1) / 2] when the line starts high and [k / 2] when it starts
    low. *)
Theorem Execute_periodic_irq_count T t budgets s0 s1 s2 c q d cs :
  [s0; s1; s2] !! t = Some cs ->
  repeating_timer T cs ->
  0 < T <= 0xFFFF ->
  0 <= counter cs < T ->
  Forall (fun n => 0 <= n < 2 ^ 31) budgets ->
  exists st',
    Execute_all TMR0 budgets (mkState [s0; s1; s2] c q d) = Some (tt, st') /\
    irq_count (TMR0 + Z.of_nat t) (irq_requests st')
    = (irq_count (TMR0 + Z.of_nat t) q
       + Z.to_nat (requests_of_passes cs (target_passes T (counter cs) budgets)))%nat /\
    (forall k,
       Forall (fun n => n <= T) budgets -> total_ticks budgets = k * T ->
       target_passes T (counter cs) budgets = k /\
       irq_count (TMR0 + Z.of_nat t) (irq_requests st')
       = (irq_count (TMR0 + Z.of_nat t) q
          + Z.to_nat (if CounterMode.irq_pulse_n (mode cs)
                      then (k + (if CounterMode.interrupt_request_n (mode cs)
                                 then 1 else 0)) / 2
                      else k))%nat).
Proof.
  intros Hcs Hrep HT Hc Hall.
  assert (Hmain : exists st',
            Execute_all TMR0 budgets (mkState [s0; s1; s2] c q d) = Some (tt, st') /\
            irq_count (TMR0 + Z.of_nat t) (irq_requests st')
            = (irq_count (TMR0 + Z.of_nat t) q
               + Z.to_nat (requests_of_passes cs (target_passes T (counter cs) budgets)))%nat).
  { clear -Hcs Hrep HT Hc Hall.
    revert s0 s1 s2 c q d cs Hcs Hrep Hc.
    induction Hall as [|n rest Hn Hrest IH]; intros s0 s1 s2 c q d cs Hcs Hrep Hc.
    - eexists. split; [reflexivity|]. cbn [irq_requests target_passes].
      unfold requests_of_passes.
      destruct (CounterMode.irq_pulse_n (mode cs));
        [destruct (CounterMode.interrupt_request_n (mode cs))|];
        rewrite ?(Z.div_small (0 + 1) 2), ?(Z.div_small (0 + 0) 2) by lia; lia.
    - pose proof Hrep as (Hreset & Hrepeat & Htarget & Hcount & Hext).
      destruct (Execute_counting_timer n t s0 s1 s2 c q d cs Hcs Hcount Hext)
        as (s0' & s1' & s2' & c' & q' & d' & Hrun & Hcs' & Hq').
      destruct (AddTicks_on_repeating T cs n Hrep HT Hc Hn)
        as (Hrep' & Hc' & Hpulse' & Hline' & Hraised).
      destruct (IH s0' s1' s2' c' q' d' _ Hcs' Hrep') as (st' & Hall' & Hcnt).
      { rewrite Hc'. apply Z.mod_pos_bound. lia. }
      exists st'. split.
      { cbn [Execute_all]. unfold bind. rewrite Hrun. exact Hall'. }
      rewrite Hcnt, Hq', Hraised, Hc'. cbn [target_passes].
      rewrite (requests_of_passes_step cs (fst (AddTicks_on cs n))
                 (T <=? counter cs + n) _ (target_passes_nonneg T rest _) Hpulse' Hline').
      lia. }
  destruct Hmain as (st' & Hrun & Hcnt).
  exists st'. split; [exact Hrun|]. split; [exact Hcnt|].
  intros k Hsmall Htotal.
  assert (Hboth : Forall (fun n => 0 <= n <= T) budgets).
  { apply Forall_forall. intros n Hin.
    pose proof (proj1 (Forall_forall _ _) Hall n Hin) as H1.
    pose proof (proj1 (Forall_forall _ _) Hsmall n Hin) as H2.
    cbv beta in H1, H2. lia. }
  assert (Hpasses : target_passes T (counter cs) budgets = k).
  { rewrite (target_passes_small_budgets T budgets) by (lia || assumption).
    rewrite Htotal, Z.div_add, Z.div_small by lia. lia. }
  split; [exact Hpasses|].
  rewrite Hcnt, Hpasses. reflexivity.
Qed.

(** A single call, however many periods it spans, raises one request. *)
Lemma Execute_once_periodic T k t s0 s1 s2 c q d cs :
  [s0; s1; s2] !! t = Some cs ->
  periodic_timer T cs ->
  0 < T <= 0xFFFF ->
  counter cs = 0 ->
  1 <= k -> k * T < 2 ^ 31 ->
  exists st',
    Execute TMR0 (k * T) (mkState [s0; s1; s2] c q d) = Some (tt, st') /\
    irq_count (TMR0 + Z.of_nat t) (irq_requests st')
    = S (irq_count (TMR0 + Z.of_nat t) q).
Proof.
  intros Hcs (Hreset & Hrepeat & Hpulse & Htarget & Hcount & Hext) HT Hc Hk Hsmall.
  destruct (Execute_counting_timer (k * T) t s0 s1 s2 c q d cs Hcs Hcount Hext)
    as (s0' & s1' & s2' & c' & q' & d' & Hrun & _ & Hq').
  eexists. split; [exact Hrun|]. cbn [irq_requests]. rewrite Hq'.
  destruct (AddTicks_on_pulse cs (k * T) Hpulse) as [Hr _].
  { rewrite Hrepeat. reflexivity. }
  rewrite Hr, Hc, Htarget, Z.add_0_l.
  rewrite (u32_small (k * T)) by nia. rewrite (u32_small (k * T)) by nia.
  replace (T <=? k * T) with true by (symmetry; apply Z.leb_le; nia).
  replace (0 <? T) with true by (symmetry; apply Z.ltb_lt; lia).
  cbn. lia.
Qed.

End TimersFacts.

(** ** The timer statements at concrete inputs *)

Section TimersExamples.

Import Timers.

Lemma AddTicks_counter_wrap_at_100 :
  m_states periodic_state !! 0%nat = Some periodic_100 /\
  0 <= 250 /\
  0 <= counter periodic_100 /\
  counter periodic_100 + 250 < 2 ^ 32 /\
  exists st' cs',
    AddTicks 4 0 250 periodic_state = Some (tt, st') /\
    m_states st' !! 0%nat = Some cs' /\
    (CounterMode.reset_at_target (mode periodic_100) = true ->
       (0 < target periodic_100 ->
          counter cs' = (counter periodic_100 + 250) mod target periodic_100) /\
       (target periodic_100 = 0 -> counter cs' = 0)) /\
    (CounterMode.reset_at_target (mode periodic_100) = false ->
       counter cs' = (counter periodic_100 + 250) mod 0xFFFF).
Proof.
  split; [reflexivity|]. split; [lia|]. split; [cbn; lia|]. split; [cbn; lia|].
  apply (AddTicks_counter_wrap 4 0%nat 250 periodic_state periodic_100);
    [reflexivity | lia | cbn; lia | cbn; lia].
Defined.

(** The counter that call leaves: 250 mod 100, and the same ticks on a
    free-running counter near the top: 65534 + 3 mod 65535. *)
Example AddTicks_counter_values :
  (counter <$> (AddTicks 4 0 250 periodic_state ≫= fun r => m_states r.2 !! 0%nat)) = Some 50 /\
  counter (fst (AddTicks_on (set_counter 65534 reset_counter) 3)) = 2.
Proof. split; vm_compute; reflexivity. Qed.


Lemma AddTicks_target_zero_at_reset :
  m_states reset_state !! 1%nat = Some reset_counter /\
  target reset_counter = 0 /\
  0 <= counter reset_counter /\
  exists st' cs',
    AddTicks 4 1 70000 reset_state = Some (tt, st') /\
    m_states st' !! 1%nat = Some cs' /\
    CounterMode.reached_target (mode cs') = CounterMode.reached_target (mode reset_counter) /\
    (u32 (counter reset_counter + u32 70000) < 0xFFFF ->
       mode cs' = mode reset_counter /\ irq_requests st' = irq_requests reset_state) /\
    (irq_requests st' <> irq_requests reset_state ->
       0xFFFF <= u32 (counter reset_counter + u32 70000)) /\
    (0xFFFF <= u32 (counter reset_counter + u32 70000) ->
       CounterMode.reached_overflow (mode cs') = true).
Proof.
  split; [reflexivity|]. split; [reflexivity|]. split; [cbn; lia|].
  apply (AddTicks_target_zero 4 1%nat 70000 reset_state reset_counter);
    [reflexivity | reflexivity | cbn; lia].
Defined.

Lemma ReadRegister_mode_port_timer_1 :
  (1 < NUM_TIMERS)%nat /\
  0x14 = 0x10 * Z.of_nat 1 + 0x04 /\
  m_states (mkState [reset_counter; hit_100; reset_counter] 0 [5] 0) !! 1%nat = Some hit_100 /\
  exists cs',
    ReadRegister (fun st => st) 0x14 (mkState [reset_counter; hit_100; reset_counter] 0 [5] 0)
    = Some (mode hit_100,
            with_states
              (<[1%nat := cs']>
                 (m_states (mkState [reset_counter; hit_100; reset_counter] 0 [5] 0)))
              (mkState [reset_counter; hit_100; reset_counter] 0 [5] 0)) /\
    CounterMode.reached_target (mode cs') = false /\
    CounterMode.reached_overflow (mode cs') = false /\
    (forall i, i <> 11 -> i <> 12 -> Z.testbit (mode cs') i = Z.testbit (mode hit_100) i) /\
    CounterMode.sync_mode (mode cs') = CounterMode.sync_mode (mode hit_100) /\
    CounterMode.clock_source (mode cs') = CounterMode.clock_source (mode hit_100) /\
    counter cs' = counter hit_100 /\ target cs' = target hit_100 /\
    irq_done cs' = irq_done hit_100 /\ gate cs' = gate hit_100 /\
    use_external_clock cs' = use_external_clock hit_100 /\
    external_counting_enabled cs' = external_counting_enabled hit_100 /\
    counting_enabled cs' = counting_enabled hit_100.
Proof.
  split; [unfold NUM_TIMERS; lia|]. split; [reflexivity|]. split; [reflexivity|].
  apply (ReadRegister_mode_port (fun st => st) 1%nat 0x14
           (mkState [reset_counter; hit_100; reset_counter] 0 [5] 0) hit_100);
    [unfold NUM_TIMERS; lia | reflexivity | reflexivity].
Defined.

(** The offset that a stride of [0x08] gives for the mode port of timer
    1 is no register: reading it returns all ones and clears nothing, the
    two flags of timer 1 staying set. *)
Lemma ReadRegister_at_stride_8_is_no_mode_port :
  CounterMode.reached_target (mode hit_100) = true /\
  CounterMode.reached_overflow (mode hit_100) = true /\
  ReadRegister (fun st => st) (0x08 * 1 + 0x04)
    (mkState [reset_counter; hit_100; reset_counter] 0 [5] 0)
  = Some (0xFFFFFFFF, mkState [reset_counter; hit_100; reset_counter] 0 [5] 0).
Proof. repeat split; reflexivity. Qed.

(** What that read returns and leaves, evaluated. *)
Example ReadRegister_mode_port_after_hit_value :
  ReadRegister (fun st => st) 0x04 after_hit
  = Some (0x1C58,
          mkState [mkCounterState 0x458 0 100 false false false true true;
                   reset_counter; reset_counter] 0 [4] 0).
Proof. vm_compute. reflexivity. Qed.

(** Writing 0 to the mode port of timer 0 raises its interrupt and leaves
    [irq_done] set. *)
Lemma mode_write_zero_leaves_irq_done_set :
  exists st' cs',
    WriteRegister 4 (fun st => st) 0x04 0 reset_state = Some (tt, st') /\
    m_states st' !! 0%nat = Some cs' /\
    irq_done cs' = true /\
    irq_requests st' = [4].
Proof. do 2 eexists. vm_compute. repeat split; reflexivity. Qed.

Lemma WriteRegister_mode_port_at_reset :
  (2 < NUM_TIMERS)%nat /\
  0x24 = 0x10 * Z.of_nat 2 + 0x04 /\
  m_states reset_state !! 2%nat = Some reset_counter /\
  exists cs',
    WriteRegister 4 (fun st => st) 0x24 0x200 reset_state
    = Some (tt, mkState (<[2%nat := cs']> (m_states reset_state)) 0 [6] 0) /\
    mode cs' = 0x200 /\
    use_external_clock cs' = true /\
    counter cs' = 0 /\
    irq_done cs' = true /\
    counting_enabled cs' = true /\
    external_counting_enabled cs' = true /\
    target cs' = 0 /\ gate cs' = false.
Proof.
  split; [unfold NUM_TIMERS; lia|]. split; [reflexivity|]. split; [reflexivity|].
  apply (WriteRegister_mode_port 4 (fun st => st) 2%nat 0x24 0x200 reset_state reset_counter);
    [unfold NUM_TIMERS; lia | reflexivity | reflexivity].
Defined.

(** One call of [Execute] with two periods' worth of ticks raises one
    request, not two. *)
Lemma Execute_two_periods_raises_once :
  CounterMode.irq_at_target (mode periodic_100) = true /\
  CounterMode.reset_at_target (mode periodic_100) = true /\
  CounterMode.irq_repeat (mode periodic_100) = true /\
  CounterMode.sync_enable (mode periodic_100) = false /\
  CounterMode.clock_source (mode periodic_100) = 0 /\
  counting_enabled periodic_100 = true /\
  external_counting_enabled periodic_100 = false /\
  target periodic_100 = 100 /\
  exists st',
    Execute 4 (2 * 100) periodic_state = Some (tt, st') /\
    irq_requests st' = [4 + 0] /\
    irq_count (4 + 0) (irq_requests st') = 1%nat.
Proof. repeat split; try reflexivity. eexists. vm_compute. repeat split; reflexivity. Qed.

Lemma Execute_periodic_irq_count_at_100 :
  [mkCounterState 0x458 37 100 false false false true false; reset_counter; reset_counter]
    !! 0%nat = Some (mkCounterState 0x458 37 100 false false false true false) /\
  repeating_timer 100 (mkCounterState 0x458 37 100 false false false true false) /\
  0 < 100 <= 0xFFFF /\
  0 <= counter (mkCounterState 0x458 37 100 false false false true false) < 100 /\
  Forall (fun n => 0 <= n < 2 ^ 31) [60; 100; 40] /\
  exists st',
    Execute_all 4 [60; 100; 40]
      (mkState [mkCounterState 0x458 37 100 false false false true false;
                reset_counter; reset_counter] 0 [] 0) = Some (tt, st') /\
    irq_count (4 + Z.of_nat 0) (irq_requests st')
    = (irq_count (4 + Z.of_nat 0) []
       + Z.to_nat (requests_of_passes
                     (mkCounterState 0x458 37 100 false false false true false)
                     (target_passes 100
                        (counter (mkCounterState 0x458 37 100 false false false true false))
                        [60; 100; 40]%Z)))%nat /\
    (forall k,
       Forall (fun n => n <= 100) [60; 100; 40] -> total_ticks [60; 100; 40] = k * 100 ->
       target_passes 100
         (counter (mkCounterState 0x458 37 100 false false false true false)) [60; 100; 40]
       = k /\
       irq_count (4 + Z.of_nat 0) (irq_requests st')
       = (irq_count (4 + Z.of_nat 0) []
          + Z.to_nat
              (if CounterMode.irq_pulse_n
                    (mode (mkCounterState 0x458 37 100 false false false true false))
               then (k + (if CounterMode.interrupt_request_n
                               (mode (mkCounterState 0x458 37 100 false false false true false))
                          then 1 else 0)) / 2
               else k))%nat).
Proof.
  assert (Hrep : repeating_timer 100 (mkCounterState 0x458 37 100 false false false true false))
    by (repeat split; reflexivity).
  assert (Hall : Forall (fun n => 0 <= n < 2 ^ 31) [60; 100; 40])
    by (repeat constructor; lia).
  split; [reflexivity|]. split; [exact Hrep|]. split; [lia|]. split; [cbn; lia|].
  split; [exact Hall|].
  apply (Execute_periodic_irq_count 4 100 0%nat [60; 100; 40]
           (mkCounterState 0x458 37 100 false false false true false)
           reset_counter reset_counter 0 [] 0
           (mkCounterState 0x458 37 100 false false false true false));
    [reflexivity | exact Hrep | lia | cbn; lia | exact Hall].
Defined.

(** The requests counted: two for two periods delivered in three calls
    from counter 37 in pulse mode; in toggle mode, three periods from
    counter 0 with the line high raise two requests, and with the line
    low one. *)
Example Execute_periodic_irq_values :
  (irq_requests <$> (snd <$> Execute_all 4 [60; 100; 40]
     (mkState [mkCounterState 0x458 37 100 false false false true false;
               reset_counter; reset_counter] 0 [] 0))) = Some [4; 4] /\
  (irq_requests <$> (snd <$> Execute_all 4 [100; 100; 100]
     (mkState [mkCounterState 0x4D8 0 100 false false false true false;
               reset_counter; reset_counter] 0 [] 0))) = Some [4; 4] /\
  (irq_requests <$> (snd <$> Execute_all 4 [100; 100; 100]
     (mkState [mkCounterState 0x0D8 0 100 false false false true false;
               reset_counter; reset_counter] 0 [] 0))) = Some [4].
Proof. repeat split; vm_compute; reflexivity. Qed.

(** Timer 2 on its external clock, as scenario S5 sets it up. *)
Lemma Execute_timer2_sysclk_div_8_at_S5 :
  external_counting_enabled timer2_div8 = true /\
  (exists st',
     Execute 4 79 (mkState [reset_counter; reset_counter; timer2_div8] 0 [] 0)
     = Some (tt, st') /\
     m_sysclk_div_8_carry st' = (79 + 0) mod 8 /\
     m_states st' !! 2%nat = Some (fst (AddTicks_on timer2_div8 ((79 + 0) / 8)))) /\
  target timer2_div8 = 10 /\ counter timer2_div8 = 0 /\
  exists st1 st2 cs1 cs2,
    Execute 4 79 (mkState [reset_counter; reset_counter; timer2_div8] 0 [] 0)
    = Some (tt, st1) /\
    m_states st1 !! 2%nat = Some cs1 /\
    counter cs1 = 9 /\ m_sysclk_div_8_carry st1 = 7 /\
    Execute 4 1 st1 = Some (tt, st2) /\
    m_states st2 !! 2%nat = Some cs2 /\
    counter cs2 = (if CounterMode.reset_at_target (mode timer2_div8) then 0 else 10) /\
    m_sysclk_div_8_carry st2 = 0 /\
    CounterMode.reached_target (mode cs2) = true /\
    irq_count (4 + 2) (irq_requests st2)
    = (irq_count (4 + 2) (irq_requests st1)
       + if (CounterMode.irq_repeat (mode timer2_div8) || negb (irq_done timer2_div8))
            && (negb (CounterMode.irq_pulse_n (mode timer2_div8))
                || CounterMode.interrupt_request_n (mode timer2_div8))
         then 1 else 0)%nat.
Proof.
  destruct (Execute_timer2_sysclk_div_8 4 reset_counter reset_counter timer2_div8 [] 0
              eq_refl) as [Hgen Hscn].
  split; [reflexivity|]. split; [apply Hgen; lia|].
  split; [reflexivity|]. split; [reflexivity|].
  apply Hscn; reflexivity.
Defined.

(** Timer 2 set up through its ports: target 10, then mode [0x200]
    (clock source 2, every other field clear).  It counts sysclk/8 from 0
    with no carry, but the mode write has raised its interrupt and closed
    the one-shot latch: [Execute(79)] and [Execute(1)] take the counter to
    10 and the carry to 0 and raise nothing.  With mode [0x208]
    ([reset_at_target] also set) the counter is back at 0. *)
Lemma Execute_timer2_after_mode_write :
  exists st0 st1 st2 cs0 cs2,
    (WriteRegister 4 (fun st => st) 0x28 10 >>
     WriteRegister 4 (fun st => st) 0x24 0x200)%comp reset_state = Some (tt, st0) /\
    m_states st0 !! 2%nat = Some cs0 /\
    external_counting_enabled cs0 = true /\ counting_enabled cs0 = true /\
    target cs0 = 10 /\ counter cs0 = 0 /\ m_sysclk_div_8_carry st0 = 0 /\
    Execute 4 79 st0 = Some (tt, st1) /\
    Execute 4 1 st1 = Some (tt, st2) /\
    m_states st2 !! 2%nat = Some cs2 /\
    counter cs2 = 10 /\ m_sysclk_div_8_carry st2 = 0 /\
    irq_requests st1 = [6] /\ irq_requests st2 = [6] /\
    (counter <$> ((WriteRegister 4 (fun st => st) 0x28 10 >>
                   WriteRegister 4 (fun st => st) 0x24 0x208 >>
                   Execute 4 79 >> Execute 4 1)%comp reset_state
                  ≫= fun r => m_states r.2 !! 2%nat)) = Some 0.
Proof.
  do 5 eexists. repeat (split; [vm_compute; reflexivity|]). vm_compute. reflexivity.
Qed.

End TimersExamples.

(** ** The bus *)

Section BusFacts.

Import Bus.

Context {Devices : Type}.

Variable MEMDELAY_of : Z -> MEMDELAY.
Variable COMDELAY_of : Z -> COMDELAY.
Variable MEMDELAY_WRITE_MASK : Z.
Variable COMDELAY_WRITE_MASK : Z.

#[local] Abbreviation BusState := (Bus.State Devices).
#[local] Abbreviation write_mask_of :=
  (Bus.write_mask_of MEMDELAY_WRITE_MASK COMDELAY_WRITE_MASK).

(** [DoInvalidAccess] always returns, with a tick count of exactly 1;
    for a read the value handed back is [0xFFFFFFFF], for a write the
    value is left alone; and the bus and the devices behind it are left as
    they were, but for the one line added to the error log. *)
Lemma DoInvalidAccess_run
    (type : MemoryAccessType) (size : MemoryAccessSize) (address value : Z)
    (st : BusState) :
  exists line,
    DoInvalidAccess type size address value st
    = Some ((1, match type with Read => 0xFFFFFFFF | Write => value end),
            set_log (log st ++ [line]) st) /\
    let st' := set_log (log st ++ [line]) st in
    m_ram st' = m_ram st /\ m_bios st' = m_bios st /\
    m_exp1_rom st' = m_exp1_rom st /\
    m_MEMCTRL_regs st' = m_MEMCTRL_regs st /\
    m_ram_size_reg st' = m_ram_size_reg st /\
    m_tty_line_buffer st' = m_tty_line_buffer st /\
    m_exp1_access_time st' = m_exp1_access_time st /\
    m_exp2_access_time st' = m_exp2_access_time st /\
    m_bios_access_time st' = m_bios_access_time st /\
    m_cdrom_access_time st' = m_cdrom_access_time st /\
    m_spu_access_time st' = m_spu_access_time st /\
    collaborators st' = collaborators st.
Proof.
  unfold DoInvalidAccess, Log_ErrorPrint, bind, ret.
  eexists. split; [reflexivity|]. cbn. repeat split; reflexivity.
Qed.

(** The line logged for an invalid halfword write, as an instance. *)
Example DoInvalidAccess_line (st : BusState) :
  DoInvalidAccess Write HalfWord 0x1F900000 0xBEEF st
  = Some ((1, 0xBEEF),
          set_log (log st ++ ["Invalid bus word write at address 0x1F900000 (value 0x0000BEEF)"%string]) st).
Proof. reflexivity. Qed.

(** ** Memory timing *)

Ltac drop_s32 :=
  repeat match goal with
         | |- context [s32 ?x] => rewrite (s32_small x) in * by lia
         | H : context [s32 ?x] |- _ => rewrite (s32_small x) in * by lia
         end.

(** C8.  [CalculateMemoryTiming] returns the triple of the recipe of
    section 4.4, for every [MEMDELAY] and [COMDELAY] whose fields are the
    unsigned bytes that come out of a register word. *)
Theorem CalculateMemoryTiming_recipe mem_delay common_delay :
  fields_in_range mem_delay common_delay ->
  CalculateMemoryTiming mem_delay common_delay = timing_recipe mem_delay common_delay.
Proof.
  intros (Ha & H0 & H1 & H2 & H3). unfold u8_range in *.
  unfold CalculateMemoryTiming, timing_recipe.
  destruct mem_delay as [a u0 u1 u2 u3 b16], common_delay as [c0 c1 c2 c3].
  cbn [access_time use_com0_time use_com2_time use_com3_time data_bus_16bit
       com0 com2 com3] in *.
  destruct u0, u2, u3, b16; cbv beta iota zeta; drop_s32;
    repeat match goal with
           | |- context [?x <? ?y] => destruct (Z.ltb_spec x y); drop_s32
           end;
    (apply (f_equal2 pair); [apply (f_equal2 pair)|]); lia.
Qed.

(** ** The memory-control registers *)

Lemma u32_bits_high x i : 0 <= x < 2 ^ 32 -> 32 <= i -> Z.testbit x i = false.
Proof.
  intros Hx Hi. rewrite <- (Z.mod_small x (2 ^ 32)) by exact Hx.
  apply Z.mod_pow2_bits_high. lia.
Qed.

Lemma u32_merge old v mask :
  0 <= old < 2 ^ 32 -> 0 <= v < 2 ^ 32 ->
  u32 (Z.lor (Z.land old (not32 mask)) (Z.land v mask))
  = Z.lor (Z.land old (not32 mask)) (Z.land v mask).
Proof.
  intros Ho Hv. unfold u32.
  rewrite <- Z.land_ones by lia. apply Z.bits_inj'. intros i Hi.
  rewrite Z.land_spec, Z.testbit_ones_nonneg by lia.
  destruct (i <? 32) eqn:E; [apply andb_true_r|].
  apply Z.ltb_ge in E. rewrite andb_false_r.
  rewrite Z.lor_spec, !Z.land_spec.
  rewrite (u32_bits_high old i Ho E), (u32_bits_high v i Hv E). reflexivity.
Qed.

(** C7.  For each of the nine MEMCTRL registers, an aligned word write of
    [v] followed by an aligned word read of the same register returns
    [(old & ~write_mask) | (v & write_mask)], the mask being
    [COMDELAY::WRITE_MASK] for register 8 and [MEMDELAY::WRITE_MASK] for
    the other eight; a write whose masked value equals the stored one
    changes nothing. *)
Theorem MEMCTRL_write_then_read (index : nat) (v old : Z) (st : BusState) :
  length (m_MEMCTRL_regs st) = MEMCTRL_NUM_REGS ->
  m_MEMCTRL_regs st !! index = Some old ->
  0 <= old < 2 ^ 32 ->
  0 <= v < 2 ^ 32 ->
  let merged := Z.lor (Z.land old (not32 (write_mask_of index)))
                      (Z.land v (write_mask_of index)) in
  exists st',
    DoWriteMemoryControl MEMDELAY_of COMDELAY_of MEMDELAY_WRITE_MASK COMDELAY_WRITE_MASK
      Word (4 * Z.of_nat index) v st = Some (tt, st') /\
    DoReadMemoryControl Word (4 * Z.of_nat index) st' = Some (merged, st') /\
    (merged = old -> st' = st).
Proof.
  intros Hlen Hold Ho Hv merged.
  pose proof (lookup_lt_Some _ _ _ Hold) as Hlt. rewrite Hlen in Hlt.
  unfold MEMCTRL_NUM_REGS in *.
  assert (Hfix : forall x, 0 <= x < 2 ^ 32 ->
            FixupUnalignedWordAccessW32 (4 * Z.of_nat index) x = (4 * Z.of_nat index, x)).
  { intros x Hx. unfold FixupUnalignedWordAccessW32.
    assert (Hoff : Z.land (4 * Z.of_nat index) 3 = 0 /\
                   Z.land (4 * Z.of_nat index) (not32 3) = 4 * Z.of_nat index).
    { clear -Hlt. do 9 (destruct index as [|index]; [split; reflexivity|]). lia. }
    destruct Hoff as [-> ->]. change (0 * 8) with 0.
    rewrite Z.shiftl_0_r, u32_small by exact Hx. reflexivity. }
  assert (Hidx : Z.to_nat (4 * Z.of_nat index / 4) = index).
  { rewrite Z.mul_comm, Z.div_mul by lia. apply Nat2Z.id. }
  unfold DoWriteMemoryControl, DoReadMemoryControl.
  rewrite (Hfix v Hv). cbv beta iota. rewrite Hidx.
  fold (write_mask_of index). cbv zeta.
  unfold bind at 1. unfold MEMCTRL_reg at 1. rewrite Hold. fold merged.
  destruct (old =? merged) eqn:E; cbn [negb].
  - apply Z.eqb_eq in E. exists st. split; [reflexivity|]. split; [|reflexivity].
    unfold bind, MEMCTRL_reg. rewrite Hold, (Hfix old Ho), E. reflexivity.
  - destruct st as [ram bios rom regs rsz tty t1 t2 t3 t4 t5 dev lg].
    cbn [m_MEMCTRL_regs] in *.
    destruct regs as [|r0 [|r1 [|r2 [|r3 [|r4 [|r5 [|r6 [|r7 [|r8 [|]]]]]]]]]];
      try discriminate Hlen.
    assert (Hm : 0 <= merged < 2 ^ 32).
    { subst merged. rewrite <- (u32_merge old v (write_mask_of index) Ho Hv).
      unfold u32. apply Z.mod_pos_bound. lia. }
    pose proof (Hfix merged Hm) as Hfixm.
    apply Z.eqb_neq in E.
    set (regs := [r0; r1; r2; r3; r4; r5; r6; r7; r8]) in *.
    set (regs' := <[index := merged]> regs).
    set (reg := fun k => default 0 (regs' !! k)).
    exists (mkState Devices ram bios rom regs' rsz tty t1 t2
              (CalculateMemoryTiming (MEMDELAY_of (reg bios_delay_size_index))
                 (COMDELAY_of (reg common_delay_index)))
              (CalculateMemoryTiming (MEMDELAY_of (reg cdrom_delay_size_index))
                 (COMDELAY_of (reg common_delay_index)))
              (CalculateMemoryTiming (MEMDELAY_of (reg spu_delay_size_index))
                 (COMDELAY_of (reg common_delay_index)))
              dev lg).
    split; [| split; [| intros Heq; congruence]].
    + unfold bind, set_MEMCTRL_reg, RecalculateMemoryTimings, MEMCTRL_reg, bind.
      cbn [m_MEMCTRL_regs]. rewrite Hold. subst reg regs' regs.
      clear -Hlt. do 9 (destruct index as [|index]; [reflexivity|]). lia.
    + unfold bind, MEMCTRL_reg. cbn [m_MEMCTRL_regs]. subst regs'.
      rewrite list_lookup_insert_eq by (subst regs; cbn; lia).
      rewrite Hfixm. reflexivity.
Qed.

(** ** The narrow writes *)

Section Dispatch.

Variable DispatchOther :
  MemoryAccessType -> MemoryAccessSize -> Z -> Z -> Comp BusState (Z * Z).

#[local] Abbreviation Dispatch :=
  (DispatchAccess_model MEMDELAY_of COMDELAY_of MEMDELAY_WRITE_MASK COMDELAY_WRITE_MASK
     DispatchOther).

(** Whatever the dispatcher, the two narrow writes ask it for a read. *)
Lemma narrow_writes_dispatch_a_read
    (D : MemoryAccessType -> MemoryAccessSize -> Z -> Z -> Comp BusState (Z * Z))
    address value st :
  WriteByte D address value st
  = bind (D Read Byte address (ZeroExtend32 value))
      (fun r => ret (to_bool (fst r))) st /\
  WriteHalfWord D address value st
  = bind (D Read HalfWord address (ZeroExtend32 value))
      (fun r => ret (to_bool (fst r))) st.
Proof.
  unfold WriteByte, WriteHalfWord, bind.
  split; match goal with |- context [D ?t ?s ?a ?v st] =>
           destruct (D t s a v st) as [[[ticks x] st']|] end; reflexivity.
Qed.

(** A narrow write to RAM succeeds and leaves the bus, RAM included, as
    it was. *)
Lemma narrow_writes_leave_RAM address value st :
  Z.land address 0x1FFFFFFF < 0x00800000 ->
  WriteByte Dispatch address value st = Some (true, st) /\
  WriteHalfWord Dispatch address value st = Some (true, st).
Proof.
  intros Hram. apply Z.ltb_lt in Hram.
  unfold WriteByte, WriteHalfWord, DispatchAccess_model, bind. rewrite Hram.
  split; reflexivity.
Qed.

(** C1, on the code.  [WriteByte] and [WriteHalfWord] dispatch an access
    of type [Read]: at RAM address [0x00001000] each returns success and
    leaves the bus as it was, the byte [0xAB] or the halfword [0xABCD]
    stored nowhere, where the same accessor dispatching a [Write] stores
    the zero-extended value at offset [0x1000] of the RAM array. *)
Theorem narrow_writes_store_nothing (st : BusState) :
  WriteByte Dispatch 0x00001000 0xAB st = Some (true, st) /\
  WriteHalfWord Dispatch 0x00001000 0xABCD st = Some (true, st) /\
  WriteByte_as_specified Dispatch 0x00001000 0xAB st
  = Some (true, set_ram (<[0x1000 := 0xAB]> (m_ram st)) st) /\
  WriteHalfWord_as_specified Dispatch 0x00001000 0xABCD st
  = Some (true, set_ram (<[0x1001 := 0xAB]> (<[0x1000 := 0xCD]> (m_ram st))) st).
Proof. repeat split; reflexivity. Qed.

(** After the specified byte write the byte reads back; after the one in
    the source the old contents do. *)
Lemma narrow_write_read_back (st st' : BusState) :
  m_ram st !! 0x1000 = None ->
  (WriteByte Dispatch 0x00001000 0xAB st = Some (true, st') ->
   ReadByte Dispatch 0x00001000 st' = Some ((true, 0), st')) /\
  (WriteByte_as_specified Dispatch 0x00001000 0xAB st = Some (true, st') ->
   ReadByte Dispatch 0x00001000 st' = Some ((true, 0xAB), st')).
Proof.
  intros Hempty. split; intros Hw.
  - assert (Hb : WriteByte Dispatch 0x00001000 0xAB st = Some (true, st))
      by (apply narrow_writes_leave_RAM; reflexivity).
    rewrite Hb in Hw. injection Hw as <-.
    unfold ReadByte, DispatchAccess_model, bind, DoRAMAccess, size_bytes, load_le, ram_byte.
    change (Z.land 0x1000 0x1FFFFFFF) with 0x1000.
    change (0x1000 <? 0x00800000) with true.
    change (Z.land 0x1000 0x001FFFFF) with 0x1000. cbv beta iota.
    rewrite Hempty. reflexivity.
  - assert (Hb : WriteByte_as_specified Dispatch 0x00001000 0xAB st
                 = Some (true, set_ram (<[0x1000 := 0xAB]> (m_ram st)) st))
      by reflexivity.
    rewrite Hb in Hw. injection Hw as <-.
    unfold ReadByte, DispatchAccess_model, bind, DoRAMAccess, size_bytes, load_le, ram_byte.
    change (Z.land 0x1000 0x1FFFFFFF) with 0x1000.
    change (0x1000 <? 0x00800000) with true.
    change (Z.land 0x1000 0x001FFFFF) with 0x1000. cbv beta iota.
    cbn [m_ram set_ram]. rewrite lookup_insert_eq. reflexivity.
Qed.

Lemma set_log_only_logged (st : BusState) line :
  only_logged st (set_log (log st ++ [line]) st).
Proof. exists line. repeat split; reflexivity. Qed.

(** C9, as the code has it.  An invalid access never aborts, hands back
    [0xFFFFFFFF] for a read and leaves the value of a write alone, and
    changes nothing of the bus or of the devices behind it but the error
    log, which gets one line.  Its cost is the 1 tick that
    [DoInvalidAccess] returns when the dispatcher finds the address in no
    region.  Inside the MEMCTRL2 region, where every offset but 0 is
    invalid, the handlers call [DoInvalidAccess] and drop the tick count
    it returns: the access has the same effect and is charged as the
    dispatcher charges the region, 2 ticks, not 1. *)
Theorem invalid_access_cost_and_effect
    (type : MemoryAccessType) (size : MemoryAccessSize) (value : Z) (st : BusState) :
  let result := match type with Read => 0xFFFFFFFF | Write => value end in
  (forall address,
     exists st',
       DoInvalidAccess type size address value st = Some ((1, result), st') /\
       only_logged st st') /\
  (forall address,
     let pa := Z.land address 0x1FFFFFFF in
     (pa <? 0x00800000) || in_range pa MEMCTRL_BASE MEMCTRL_SIZE
     || in_range pa MEMCTRL2_BASE MEMCTRL2_SIZE || other_region pa = false ->
     exists st',
       Dispatch type size address value st = Some ((1, result), st') /\
       only_logged st st') /\
  (forall address,
     let pa := Z.land address 0x1FFFFFFF in
     in_range pa MEMCTRL2_BASE MEMCTRL2_SIZE = true -> pa <> MEMCTRL2_BASE ->
     (exists st',
        Dispatch type size address value st = Some ((2, result), st') /\
        only_logged st st') /\
     (exists st',
        DoReadMemoryControl2 size (pa - MEMCTRL2_BASE) st = Some (0xFFFFFFFF, st') /\
        only_logged st st') /\
     (exists st',
        DoWriteMemoryControl2 size (pa - MEMCTRL2_BASE) value st = Some (tt, st') /\
        only_logged st st')).
Proof.
  intros result.
  assert (Hinvalid : forall a v,
            exists st',
              DoInvalidAccess type size a v st
              = Some ((1, match type with Read => 0xFFFFFFFF | Write => v end), st') /\
              only_logged st st').
  { intros a v. unfold DoInvalidAccess, Log_ErrorPrint, bind, ret.
    eexists. split; [reflexivity|]. apply set_log_only_logged. }
  split; [|split].
  - intros address. apply Hinvalid.
  - intros address pa Hnone.
    apply orb_false_elim in Hnone as [Hnone Hother].
    apply orb_false_elim in Hnone as [Hnone Hm2].
    apply orb_false_elim in Hnone as [Hram Hm1].
    unfold DispatchAccess_model. fold pa. rewrite Hram, Hm1, Hm2, Hother.
    apply Hinvalid.
  - intros address pa Hin Hne.
    assert (Hrange : MEMCTRL2_BASE <= pa < MEMCTRL2_BASE + MEMCTRL2_SIZE).
    { unfold in_range in Hin. apply andb_prop in Hin as [H1 H2].
      apply Z.leb_le in H1. apply Z.ltb_lt in H2. lia. }
    assert (Hoff : (pa - MEMCTRL2_BASE =? 0) = false) by (apply Z.eqb_neq; lia).
    assert (Hread : exists st',
              DoReadMemoryControl2 size (pa - MEMCTRL2_BASE) st = Some (0xFFFFFFFF, st') /\
              only_logged st st').
    { unfold DoReadMemoryControl2. rewrite Hoff.
      unfold DoInvalidAccess, Log_ErrorPrint, bind, ret.
      eexists. split; [reflexivity|]. apply set_log_only_logged. }
    assert (Hwrite : exists st',
              DoWriteMemoryControl2 size (pa - MEMCTRL2_BASE) value st = Some (tt, st') /\
              only_logged st st').
    { unfold DoWriteMemoryControl2. rewrite Hoff.
      unfold DoInvalidAccess, Log_ErrorPrint, bind, ret.
      eexists. split; [reflexivity|]. apply set_log_only_logged. }
    split; [|split; [exact Hread | exact Hwrite]].
    unfold MEMCTRL2_BASE, MEMCTRL2_SIZE in Hrange.
    unfold DispatchAccess_model. fold pa.
    replace (pa <? 0x00800000) with false by (symmetry; apply Z.ltb_ge; lia).
    replace (in_range pa MEMCTRL_BASE MEMCTRL_SIZE) with false
      by (symmetry; unfold in_range, MEMCTRL_BASE, MEMCTRL_SIZE;
          apply andb_false_intro2; apply Z.ltb_ge; lia).
    rewrite Hin. subst result.
    destruct type.
    + destruct Hread as (st' & Hr & Hl). exists st'. split; [|exact Hl].
      unfold bind. rewrite Hr. reflexivity.
    + destruct Hwrite as (st' & Hw & Hl). exists st'. split; [|exact Hl].
      unfold bind. rewrite Hw. reflexivity.
Qed.

(** An address in no region of the table is an invalid access: one tick,
    all ones for a read, nothing stored for a write. *)
Example unmapped_word_access (st : BusState) :
  ReadWord Dispatch 0x1F900000 0 st
  = Some ((true, 0xFFFFFFFF),
          set_log (log st ++ ["Invalid bus dword read at address 0x1F900000"%string]) st) /\
  Dispatch Write Word 0xBF900000 0x12345678 st
  = Some ((1, 0x12345678),
          set_log (log st ++ ["Invalid bus dword write at address 0x1F900000 (value 0x12345678)"%string]) st).
Proof. split; reflexivity. Qed.

End Dispatch.

End BusFacts.

(** ** The bus statements at concrete inputs *)

Section BusExamples.

Import Bus.

Lemma MEMCTRL_write_then_read_at_reset :
  length (m_MEMCTRL_regs reset_bus) = MEMCTRL_NUM_REGS /\
  m_MEMCTRL_regs reset_bus !! 8%nat = Some 0x00031125 /\
  0 <= 0x00031125 < 2 ^ 32 /\
  0 <= 0xFFFFFFFF < 2 ^ 32 /\
  forall MEMDELAY_of COMDELAY_of MEMDELAY_WRITE_MASK,
  exists st',
    DoWriteMemoryControl MEMDELAY_of COMDELAY_of MEMDELAY_WRITE_MASK 0x0003FFFF
      Word (4 * Z.of_nat 8) 0xFFFFFFFF reset_bus = Some (tt, st') /\
    DoReadMemoryControl Word (4 * Z.of_nat 8) st'
    = Some (Z.lor (Z.land 0x00031125 (not32 0x0003FFFF)) (Z.land 0xFFFFFFFF 0x0003FFFF), st') /\
    (Z.lor (Z.land 0x00031125 (not32 0x0003FFFF)) (Z.land 0xFFFFFFFF 0x0003FFFF) = 0x00031125 ->
     st' = reset_bus).
Proof.
  split; [reflexivity|]. split; [reflexivity|]. split; [lia|]. split; [lia|].
  intros MEMDELAY_of COMDELAY_of MEMDELAY_WRITE_MASK.
  apply (MEMCTRL_write_then_read MEMDELAY_of COMDELAY_of MEMDELAY_WRITE_MASK 0x0003FFFF
           8%nat 0xFFFFFFFF 0x00031125 reset_bus); [reflexivity | reflexivity | lia | lia].
Defined.

(** A byte write to an address in no region, and one inside MEMCTRL2. *)
Lemma invalid_access_cost_and_effect_byte_write :
  (let pa := Z.land 0xBF900000 0x1FFFFFFF in
   (pa <? 0x00800000) || in_range pa MEMCTRL_BASE MEMCTRL_SIZE
   || in_range pa MEMCTRL2_BASE MEMCTRL2_SIZE || other_region pa = false) /\
  (let pa := Z.land 0x1F801061 0x1FFFFFFF in
   in_range pa MEMCTRL2_BASE MEMCTRL2_SIZE = true /\ pa <> MEMCTRL2_BASE) /\
  forall MEMDELAY_of COMDELAY_of MEMDELAY_WRITE_MASK COMDELAY_WRITE_MASK DispatchOther,
    (exists st',
       DispatchAccess_model MEMDELAY_of COMDELAY_of MEMDELAY_WRITE_MASK COMDELAY_WRITE_MASK
         DispatchOther Write Byte 0xBF900000 0xAB reset_bus = Some ((1, 0xAB), st') /\
       only_logged reset_bus st') /\
    (exists st',
       DispatchAccess_model MEMDELAY_of COMDELAY_of MEMDELAY_WRITE_MASK COMDELAY_WRITE_MASK
         DispatchOther Write Byte 0x1F801061 0xAB reset_bus = Some ((2, 0xAB), st') /\
       only_logged reset_bus st').
Proof.
  split; [reflexivity|]. split; [split; [reflexivity | vm_compute; discriminate]|].
  intros MEMDELAY_of COMDELAY_of MEMDELAY_WRITE_MASK COMDELAY_WRITE_MASK DispatchOther.
  destruct (invalid_access_cost_and_effect MEMDELAY_of COMDELAY_of
              MEMDELAY_WRITE_MASK COMDELAY_WRITE_MASK DispatchOther
              Write Byte 0xAB reset_bus) as (_ & Hnone & Hm2).
  split.
  - apply (Hnone 0xBF900000). reflexivity.
  - apply (Hm2 0x1F801061); [reflexivity | vm_compute; discriminate].
Defined.

(** A halfword read at [0x1F801062], inside MEMCTRL2: logged as an
    invalid access and answered with all ones, by a handler whose result
    is the value alone, and charged 2 ticks by the dispatcher. *)
Lemma invalid_access_in_MEMCTRL2_costs_2 :
  DoReadMemoryControl2 HalfWord (0x1F801062 - MEMCTRL2_BASE) reset_bus
  = Some (0xFFFFFFFF,
          set_log ["Invalid bus word read at address 0x1F801062"%string] reset_bus) /\
  forall MEMDELAY_of COMDELAY_of MEMDELAY_WRITE_MASK COMDELAY_WRITE_MASK DispatchOther,
    DispatchAccess_model MEMDELAY_of COMDELAY_of MEMDELAY_WRITE_MASK COMDELAY_WRITE_MASK
      DispatchOther Read HalfWord 0x1F801062 0 reset_bus
    = Some ((2, 0xFFFFFFFF),
            set_log ["Invalid bus word read at address 0x1F801062"%string] reset_bus).
Proof. split; [reflexivity|]. intros. reflexivity. Qed.

Lemma CalculateMemoryTiming_recipe_example :
  fields_in_range bios_delay_example common_delay_example /\
  CalculateMemoryTiming bios_delay_example common_delay_example
  = timing_recipe bios_delay_example common_delay_example.
Proof.
  assert (H : fields_in_range bios_delay_example common_delay_example)
    by (unfold fields_in_range, u8_range; cbn; lia).
  split; [exact H|].
  apply (CalculateMemoryTiming_recipe bios_delay_example common_delay_example H).
Defined.

Example CalculateMemoryTiming_value :
  CalculateMemoryTiming bios_delay_example common_delay_example = (11, 21, 41).
Proof. reflexivity. Qed.

End BusExamples.

(** * Further properties of the timer unit *)

Section TimersMore.

Import Timers.

Variable TMR0 : Z.
Variable Synchronize : State -> State.

(** ** The ranges are kept *)

Lemma in_bits n x : 0 <= n -> (0 <= x < 2 ^ n <-> Z.land x (Z.ones n) = x).
Proof.
  intros Hn. rewrite Z.land_ones by exact Hn. split.
  - intros H. apply Z.mod_small. exact H.
  - intros <-. apply Z.mod_pos_bound. apply Z.pow_pos_nonneg; lia.
Qed.

Lemma high_bits_clear n x :
  0 <= n -> (0 <= x < 2 ^ n <-> forall i, n <= i -> Z.testbit x i = false).
Proof.
  intros Hn. rewrite in_bits by exact Hn. split.
  - intros <- i Hi. rewrite Z.land_spec, Z.testbit_ones_nonneg by lia.
    replace (i <? n) with false by (symmetry; apply Z.ltb_ge; lia).
    apply andb_false_r.
  - intros H. apply Z.bits_inj'. intros i Hi.
    rewrite Z.land_spec, Z.testbit_ones_nonneg by lia.
    destruct (i <? n) eqn:E; [apply andb_true_r|].
    apply Z.ltb_ge in E. rewrite (H i E). reflexivity.
Qed.

Lemma set_flag_range n p v m :
  0 <= p < n -> 0 <= m < 2 ^ n -> 0 <= set_flag p v m < 2 ^ n.
Proof.
  intros Hp Hm. apply in_bits; [lia|]. apply in_bits in Hm; [|lia].
  apply Z.bits_inj'. intros i Hi.
  rewrite Z.land_spec, Z.testbit_ones_nonneg by lia.
  change (Z.testbit (set_flag p v m) i) with (get_flag i (set_flag p v m)).
  rewrite get_set_flag by lia.
  destruct (i <? n) eqn:E; [apply andb_true_r|]. rewrite andb_false_r.
  apply Z.ltb_ge in E.
  destruct (p =? i) eqn:E'; [apply Z.eqb_eq in E'; lia|].
  unfold get_flag. rewrite <- Hm, Z.land_spec, Z.testbit_ones_nonneg by lia.
  replace (i <? n) with false by (symmetry; apply Z.ltb_ge; lia).
  rewrite andb_false_r. reflexivity.
Qed.

Lemma UpdateIRQ_on_ok cs : counter_ok cs -> counter_ok (fst (UpdateIRQ_on cs)).
Proof.
  unfold UpdateIRQ_on.
  destruct (CounterMode.interrupt_request_n (mode cs)
            || negb (CounterMode.irq_repeat (mode cs)) && irq_done cs);
    intros H; exact H.
Qed.

Lemma set_mode_ok m cs : counter_ok cs -> 0 <= m < 0x2000 -> counter_ok (set_mode m cs).
Proof.
  intros (Hm & Hc & Ht & He) Hm'.
  split; [|split; [|split]]; cbn; try lia; exact He.
Qed.

Lemma set_counter_ok c cs : counter_ok cs -> 0 <= c < 0x10000 -> counter_ok (set_counter c cs).
Proof.
  intros (Hm & Hc & Ht & He) Hc'.
  split; [|split; [|split]]; cbn; try lia; exact He.
Qed.

Lemma set_mode_flag_ok p v cs :
  0 <= p < 13 -> counter_ok cs -> counter_ok (set_mode (set_flag p v (mode cs)) cs).
Proof.
  intros Hp H. apply set_mode_ok; [exact H|].
  destruct H as (Hm & _). apply (set_flag_range 13); [exact Hp | exact Hm].
Qed.

Lemma request_on_ok cs : counter_ok cs -> counter_ok (fst (request_on cs)).
Proof.
  intros H. unfold request_on, CounterMode.set_interrupt_request_n.
  destruct (negb (CounterMode.irq_pulse_n (mode cs))); cbn [fst snd].
  - apply set_mode_flag_ok; [lia|]. apply UpdateIRQ_on_ok.
    apply set_mode_flag_ok; [lia | exact H].
  - apply UpdateIRQ_on_ok. apply set_mode_flag_ok; [lia | exact H].
Qed.

(** [AddTicks] keeps a counter within its ranges, for every tick count. *)
Lemma AddTicks_on_ok cs n : counter_ok cs -> counter_ok (fst (AddTicks_on cs n)).
Proof.
  intros H.
  destruct (AddTicks_on_frame cs n) as (Ft & Fe & Fc & Fm).
  pose proof H as (Hm & Hc & Ht & He).
  assert (Hmode : 0 <= mode (fst (AddTicks_on cs n)) < 0x2000).
  { apply (high_bits_clear 13); [lia|]. intros i Hi.
    change (Z.testbit ?m i) with (get_flag i m). rewrite Fm by lia.
    apply (high_bits_clear 13); [lia | exact Hm | exact Hi]. }
  split; [exact Hmode|]. split; [apply AddTicks_on_counter_range; exact Ht|].
  split; [rewrite Ft; exact Ht|]. rewrite Fe, Fc.
  intros Hext. destruct (He Hext) as [Hu Hce]. split; [|exact Hce].
  (* use_external_clock is not touched either *)
  unfold AddTicks_on. cbn [fst].
  match goal with |- context [wrap_counter ?x] =>
    destruct (wrap_counter_rest x) as (_ & _ & -> & _) end.
  repeat match goal with
         | |- context [if ?b then _ else _] => destruct b
         end; cbn [fst];
    try match goal with |- context [request_on ?x] =>
      destruct (request_on_rest x) as (_ & -> & _) end; exact Hu.
Qed.

Lemma Forall3 {A} (P : A -> Prop) a b c : Forall P [a; b; c] <-> P a /\ P b /\ P c.
Proof.
  split.
  - intros H. inversion H as [|? ? Ha H']; subst. inversion H' as [|? ? Hb H'']; subst.
    inversion H'' as [|? ? Hc _]; subst. auto.
  - intros (Ha & Hb & Hc). repeat constructor; assumption.
Qed.

(** X1.  [Execute] always returns on a unit within its ranges and keeps
    it there: mode words within 13 bits, counters and targets within 16,
    the external-clock flag only with its two sources, and the carry of
    the divider between 0 and 7. *)
Theorem Execute_keeps_ranges n st :
  state_ok st ->
  0 <= n -> n + 7 < 2 ^ 31 ->
  exists st', Execute TMR0 n st = Some (tt, st') /\ state_ok st'.
Proof.
  intros (Hlen & Hall & Hcarry) Hn Hbig.
  destruct st as [l c q d]. cbn [m_states m_sysclk_div_8_carry] in *.
  destruct l as [|s0 [|s1 [|s2 [|]]]]; try discriminate Hlen.
  apply Forall3 in Hall. destruct Hall as (H0 & H1 & H2).
  destruct (Execute_run TMR0 n s0 s1 s2 c q d) as [d' Hrun]. cbv zeta in Hrun.
  eexists. split; [exact Hrun|].
  split; [reflexivity|]. cbn [m_states m_sysclk_div_8_carry]. split.
  - apply Forall3. split; [|split].
    + destruct (negb (external_counting_enabled s0) && counting_enabled s0);
        cbn [fst]; [apply AddTicks_on_ok|]; exact H0.
    + destruct (negb (external_counting_enabled s1) && counting_enabled s1);
        cbn [fst]; [apply AddTicks_on_ok|]; exact H1.
    + destruct (external_counting_enabled s2); [apply AddTicks_on_ok; exact H2|].
      destruct (counting_enabled s2); cbn [fst]; [apply AddTicks_on_ok|]; exact H2.
  - destruct (external_counting_enabled s2); [|exact Hcarry].
    rewrite s32_small by lia. rewrite Z.rem_mod_nonneg by lia.
    apply Z.mod_pos_bound. lia.
Qed.

(** ** The gate *)

Ltac run_unit Hlt :=
  repeat first
    [ rewrite bind_assoc
    | rewrite run_state_at by exact Hlt
    | rewrite run_modify_state by exact Hlt
    | rewrite (run_UpdateIRQ TMR0) by exact Hlt
    | rewrite bind_ret ].

Lemma SetGate_run_at t b l c q d cs :
  (t < length l)%nat ->
  SetGate t b (mkState (<[t := cs]> l) c q d)
  = Some (tt, mkState (<[t := SetGate_on b cs]> l) c q d).
Proof.
  intros Hlt. unfold SetGate, SetGate_on, when, modify_mode.
  run_unit Hlt.
  destruct (Bool.eqb (gate cs) b); [reflexivity|].
  run_unit Hlt.
  destruct (CounterMode.sync_enable (mode cs)).
  - destruct b.
    + destruct (SyncMode_of (CounterMode.sync_mode (mode cs))); run_unit Hlt;
        rewrite run_modify_state_last by exact Hlt; reflexivity.
    + run_unit Hlt. rewrite run_modify_state_last by exact Hlt. reflexivity.
  - reflexivity.
Qed.

Lemma SetGate_run t b st cs :
  m_states st !! t = Some cs ->
  SetGate t b st
  = Some (tt, with_states (<[t := SetGate_on b cs]> (m_states st)) st).
Proof.
  intros Hcs. destruct st as [l c q d]. cbn [m_states] in *. unfold with_states.
  cbn [m_states m_sysclk_div_8_carry irq_requests downcount].
  pose proof (lookup_lt_Some _ _ _ Hcs) as Hlt.
  rewrite <- (SetGate_run_at t b l c q d cs Hlt).
  rewrite (list_insert_id l t cs Hcs). reflexivity.
Qed.

Lemma SetGate_on_gate b cs : gate (SetGate_on b cs) = b.
Proof.
  unfold SetGate_on. destruct (Bool.eqb (gate cs) b) eqn:E.
  - apply Bool.eqb_prop in E. exact E.
  - unfold UpdateCountingEnabled.
    repeat match goal with
           | |- context [if ?x then _ else _] => destruct x
           | |- context [match SyncMode_of ?x with _ => _ end] => destruct (SyncMode_of x)
           end; reflexivity.
Qed.

(** X2.  [SetGate] acts on an edge only: a call that repeats the level the
    gate already has changes nothing, so calling it twice with the same
    level is the same as calling it once. *)
Theorem SetGate_same_level_is_noop t b st cs :
  m_states st !! t = Some cs ->
  (gate cs = b -> SetGate t b st = Some (tt, st)) /\
  exists st',
    SetGate t b st = Some (tt, st') /\
    SetGate t b st' = Some (tt, st').
Proof.
  intros Hcs. pose proof (lookup_lt_Some _ _ _ Hcs) as Hlt.
  assert (Hnoop : forall s c0, m_states s !! t = Some c0 -> gate c0 = b ->
                               SetGate t b s = Some (tt, s)).
  { intros s c0 Hc0 Hg. rewrite (SetGate_run t b s c0 Hc0).
    unfold SetGate_on. rewrite Hg, Bool.eqb_reflx.
    rewrite (list_insert_id _ t c0 Hc0). destruct s; reflexivity. }
  split; [apply Hnoop; exact Hcs|].
  eexists. split; [apply (SetGate_run t b st cs Hcs)|].
  apply (Hnoop _ (SetGate_on b cs)).
  - cbn [m_states with_states]. apply list_lookup_insert_eq. exact Hlt.
  - apply SetGate_on_gate.
Qed.

Lemma SetGate_without_sync_run t b st cs :
  m_states st !! t = Some cs ->
  CounterMode.sync_enable (mode cs) = false ->
  SetGate t b st = Some (tt, with_states (<[t := set_gate b cs]> (m_states st)) st).
Proof.
  intros Hcs Hsync. rewrite (SetGate_run t b st cs Hcs).
  unfold SetGate_on. rewrite Hsync.
  destruct (Bool.eqb (gate cs) b) eqn:E; [|reflexivity].
  apply Bool.eqb_prop in E. subst b. destruct cs; reflexivity.
Qed.

(** X3.  A timer whose [sync_enable] is clear ignores its gate: [SetGate]
    records the level and leaves the mode, the counter, the target and
    the counting flags as they were, whatever they are. *)
Theorem SetGate_without_sync t b st cs :
  m_states st !! t = Some cs ->
  CounterMode.sync_enable (mode cs) = false ->
  exists st' cs',
    SetGate t b st = Some (tt, st') /\
    m_states st' !! t = Some cs' /\
    gate cs' = b /\
    mode cs' = mode cs /\ counter cs' = counter cs /\ target cs' = target cs /\
    counting_enabled cs' = counting_enabled cs /\
    external_counting_enabled cs' = external_counting_enabled cs /\
    use_external_clock cs' = use_external_clock cs /\
    irq_done cs' = irq_done cs /\
    irq_requests st' = irq_requests st.
Proof.
  intros Hcs Hsync. pose proof (lookup_lt_Some _ _ _ Hcs) as Hlt.
  eexists _, (set_gate b cs).
  split; [exact (SetGate_without_sync_run t b st cs Hcs Hsync)|].
  split; [cbn [m_states with_states]; apply list_lookup_insert_eq; exact Hlt|].
  repeat split; reflexivity.
Qed.

(** X4.  Sync mode 2 (reset and run on gate): the rising edge of the gate
    sets the counter to 0 and starts the count; the falling edge stops
    the count and leaves the counter where it is.  The mode word and the
    target are untouched by either. *)
Theorem SetGate_reset_and_run t st cs :
  m_states st !! t = Some cs ->
  CounterMode.sync_enable (mode cs) = true ->
  CounterMode.sync_mode (mode cs) = 2 ->
  exists st' cs',
    SetGate t (negb (gate cs)) st = Some (tt, st') /\
    m_states st' !! t = Some cs' /\
    gate cs' = negb (gate cs) /\
    mode cs' = mode cs /\ target cs' = target cs /\
    counting_enabled cs' = negb (gate cs) /\
    external_counting_enabled cs' = (use_external_clock cs && negb (gate cs)) /\
    counter cs' = (if gate cs then counter cs else 0).
Proof.
  intros Hcs Hsync Hmode. pose proof (lookup_lt_Some _ _ _ Hcs) as Hlt.
  eexists _, (SetGate_on (negb (gate cs)) cs).
  split; [apply (SetGate_run _ _ st cs Hcs)|].
  split; [cbn [m_states with_states]; apply list_lookup_insert_eq; exact Hlt|].
  unfold SetGate_on, UpdateCountingEnabled. rewrite Hsync, Hmode.
  destruct (gate cs); cbn [Bool.eqb negb SyncMode_of Z.eqb Pos.eqb mode set_gate set_counter];
    rewrite ?Hsync, ?Hmode; cbn; repeat split; reflexivity.
Qed.

(** X5.  Sync mode 3 (free run on gate) is one-shot: the first rising
    edge clears [sync_enable], leaving every other mode bit, the counter
    and the target alone and the timer counting; from then on the gate is
    only recorded. *)
Theorem SetGate_free_run_once t st cs :
  m_states st !! t = Some cs ->
  CounterMode.sync_enable (mode cs) = true ->
  CounterMode.sync_mode (mode cs) = 3 ->
  gate cs = false ->
  exists st' cs',
    SetGate t true st = Some (tt, st') /\
    m_states st' !! t = Some cs' /\
    CounterMode.sync_enable (mode cs') = false /\
    (forall i, i <> 0 -> Z.testbit (mode cs') i = Z.testbit (mode cs) i) /\
    counting_enabled cs' = true /\
    counter cs' = counter cs /\ target cs' = target cs /\
    forall b,
      SetGate t b st'
      = Some (tt, with_states (<[t := set_gate b cs']> (m_states st')) st').
Proof.
  intros Hcs Hsync Hmode Hgate. pose proof (lookup_lt_Some _ _ _ Hcs) as Hlt.
  set (cs' := SetGate_on true cs).
  assert (Hcs' : cs' = set_external_counting_enabled (use_external_clock cs)
                         (set_counting_enabled true
                            (set_mode (CounterMode.set_sync_enable false (mode cs))
                               (set_gate true cs)))).
  { subst cs'. unfold SetGate_on, UpdateCountingEnabled. rewrite Hsync, Hmode, Hgate.
    cbn [Bool.eqb SyncMode_of Z.eqb Pos.eqb mode set_mode set_gate].
    unfold CounterMode.sync_enable, CounterMode.set_sync_enable.
    rewrite get_set_flag by lia. cbn [Z.eqb].
    cbn [use_external_clock counting_enabled set_counting_enabled]. rewrite andb_true_r.
    reflexivity. }
  assert (Hoff : CounterMode.sync_enable (mode cs') = false).
  { rewrite Hcs'. cbn [mode set_mode set_external_counting_enabled set_counting_enabled].
    unfold CounterMode.sync_enable, CounterMode.set_sync_enable.
    rewrite get_set_flag by lia. reflexivity. }
  assert (Hlook : m_states (with_states (<[t := cs']> (m_states st)) st) !! t = Some cs').
  { cbn [m_states with_states]. apply list_lookup_insert_eq. exact Hlt. }
  exists (with_states (<[t := cs']> (m_states st)) st), cs'.
  split; [apply (SetGate_run _ _ st cs Hcs)|]. split; [exact Hlook|].
  split; [exact Hoff|]. split.
  { intros i Hi. rewrite Hcs'.
    cbn [mode set_mode set_external_counting_enabled set_counting_enabled set_gate].
    change (Z.testbit ?m i) with (get_flag i m).
    unfold CounterMode.set_sync_enable. rewrite get_set_flag by lia.
    destruct (0 =? i) eqn:E; [apply Z.eqb_eq in E; lia | reflexivity]. }
  rewrite Hcs' at 1 2 3. repeat split; try reflexivity.
  intros b. exact (SetGate_without_sync_run t b _ cs' Hlook Hoff).
Qed.

(** ** The counter and target ports *)

Lemma WriteRegister_counter_run offset value st cs :
  port_offset_of offset = 0x00 ->
  m_states (Synchronize st) !! timer_index_of offset = Some cs ->
  WriteRegister TMR0 Synchronize offset value st
  = Some (tt, with_states (<[timer_index_of offset := set_counter (Z.land value 0xFFFF) cs]>
                             (m_states (Synchronize st))) (Synchronize st)).
Proof.
  intros Hport Hcs. unfold WriteRegister. rewrite Hport.
  change (0 =? 0) with true. cbv iota. unfold bind, do_Synchronize, modify_state.
  rewrite Hcs. reflexivity.
Qed.

Lemma WriteRegister_target_run offset value st cs :
  port_offset_of offset = 0x08 ->
  m_states (Synchronize st) !! timer_index_of offset = Some cs ->
  WriteRegister TMR0 Synchronize offset value st
  = Some (tt, with_states (<[timer_index_of offset := set_target (Z.land value 0xFFFF) cs]>
                             (m_states (Synchronize st))) (Synchronize st)).
Proof.
  intros Hport Hcs. unfold WriteRegister. rewrite Hport.
  change (8 =? 0) with false. change (8 =? 4) with false. change (8 =? 8) with true.
  cbv iota. unfold bind, do_Synchronize, modify_state.
  rewrite Hcs. reflexivity.
Qed.

Lemma ReadRegister_counter_run offset st cs :
  port_offset_of offset = 0x00 ->
  m_states (Synchronize st) !! timer_index_of offset = Some cs ->
  ReadRegister Synchronize offset st = Some (counter cs, Synchronize st).
Proof.
  intros Hport Hcs. unfold ReadRegister. rewrite Hport.
  change (0 =? 0) with true. cbv iota. unfold bind, do_Synchronize, state_at, ret.
  rewrite Hcs. reflexivity.
Qed.

Lemma ReadRegister_target_run offset st cs :
  port_offset_of offset = 0x08 ->
  m_states st !! timer_index_of offset = Some cs ->
  ReadRegister Synchronize offset st = Some (target cs, st).
Proof.
  intros Hport Hcs. unfold ReadRegister. rewrite Hport.
  change (8 =? 0) with false. change (8 =? 4) with false. change (8 =? 8) with true.
  cbv iota. unfold bind, state_at, ret.
  rewrite Hcs. reflexivity.
Qed.

(** X6.  The target port keeps the low 16 bits of what is written to it
    and gives them back: a write followed by a read of the target port of
    the same timer returns [value & 0xFFFF], and that read neither
    synchronises nor changes anything. *)
Theorem target_port_round_trip offset value st cs :
  port_offset_of offset = 0x08 ->
  m_states (Synchronize st) !! timer_index_of offset = Some cs ->
  exists st',
    WriteRegister TMR0 Synchronize offset value st = Some (tt, st') /\
    ReadRegister Synchronize offset st' = Some (Z.land value 0xFFFF, st').
Proof.
  intros Hport Hcs. pose proof (lookup_lt_Some _ _ _ Hcs) as Hlt.
  eexists. split; [apply (WriteRegister_target_run offset value st cs Hport Hcs)|].
  apply (ReadRegister_target_run offset _ (set_target (Z.land value 0xFFFF) cs) Hport).
  cbn [m_states with_states]. apply list_lookup_insert_eq. exact Hlt.
Qed.

(** X7.  The counter port: a write stores [value & 0xFFFF] in the counter
    after synchronising, and a read returns the counter as the
    synchronisation before it leaves it.  When that second synchronisation
    has nothing to add, the read gives back [value & 0xFFFF]. *)
Theorem counter_port_round_trip offset value st cs :
  port_offset_of offset = 0x00 ->
  m_states (Synchronize st) !! timer_index_of offset = Some cs ->
  exists st',
    WriteRegister TMR0 Synchronize offset value st = Some (tt, st') /\
    (forall cs', m_states (Synchronize st') !! timer_index_of offset = Some cs' ->
       ReadRegister Synchronize offset st' = Some (counter cs', Synchronize st')) /\
    (Synchronize st' = st' ->
       ReadRegister Synchronize offset st' = Some (Z.land value 0xFFFF, st')).
Proof.
  intros Hport Hcs. pose proof (lookup_lt_Some _ _ _ Hcs) as Hlt.
  eexists. split; [apply (WriteRegister_counter_run offset value st cs Hport Hcs)|].
  split.
  - intros cs' Hcs'. apply (ReadRegister_counter_run offset _ cs' Hport Hcs').
  - intros Hquiet.
    rewrite (ReadRegister_counter_run offset _
               (set_counter (Z.land value 0xFFFF) cs) Hport).
    + rewrite Hquiet. reflexivity.
    + rewrite Hquiet. cbn [m_states with_states].
      apply list_lookup_insert_eq. exact Hlt.
Qed.


(** ** Register accesses keep the ranges *)

Lemma WriteRegister_mode_run offset value st cs :
  port_offset_of offset = 0x04 ->
  m_states (Synchronize st) !! timer_index_of offset = Some cs ->
  let t := timer_index_of offset in
  WriteRegister TMR0 Synchronize offset value st
  = Some (tt, mkState (<[t := fst (WriteMode_on t value cs)]> (m_states (Synchronize st)))
                (m_sysclk_div_8_carry (Synchronize st))
                (irq_requests (Synchronize st)
                   ++ raised_irqs (snd (WriteMode_on t value cs)) (TMR0 + Z.of_nat t))
                (downcount (Synchronize st))).
Proof.
  intros Hport Hcs t. pose proof (lookup_lt_Some _ _ _ Hcs) as Hlt. fold t in Hcs, Hlt.
  unfold WriteRegister. rewrite Hport.
  change (4 =? 0) with false. change (4 =? 4) with true. cbv iota.
  rewrite run_do_Synchronize. fold t.
  destruct (Synchronize st) as [l c q d].
  cbn [m_states m_sysclk_div_8_carry irq_requests downcount] in *.
  rewrite <- (list_insert_id l _ cs Hcs) at 1.
  unfold modify_mode, when, WriteMode_on. run_unit Hlt.
  cbn [mode set_mode set_irq_done set_counter set_use_external_clock].
  destruct (CounterMode.irq_pulse_n (Z.land value 0x1FFF)); run_unit Hlt;
    rewrite (run_UpdateIRQ_last TMR0) by exact Hlt; reflexivity.
Qed.

Lemma ReadRegister_mode_run offset st cs :
  port_offset_of offset = 0x04 ->
  m_states (Synchronize st) !! timer_index_of offset = Some cs ->
  ReadRegister Synchronize offset st
  = Some (mode cs,
          with_states
            (<[timer_index_of offset :=
                 set_mode (CounterMode.set_reached_target false
                             (CounterMode.set_reached_overflow false (mode cs))) cs]>
               (m_states (Synchronize st))) (Synchronize st)).
Proof.
  intros Hport Hcs. pose proof (lookup_lt_Some _ _ _ Hcs) as Hlt.
  unfold ReadRegister. rewrite Hport.
  change (4 =? 0) with false. change (4 =? 4) with true. cbv iota.
  rewrite run_do_Synchronize.
  destruct (Synchronize st) as [l c q d]. cbn [m_states] in *.
  unfold with_states. cbn [m_states m_sysclk_div_8_carry irq_requests downcount].
  rewrite <- (list_insert_id l _ cs Hcs) at 1.
  unfold modify_mode. run_unit Hlt. reflexivity.
Qed.

Lemma UpdateCountingEnabled_ok cs :
  0 <= mode cs < 0x2000 -> 0 <= counter cs < 0x10000 -> 0 <= target cs < 0x10000 ->
  counter_ok (UpdateCountingEnabled cs).
Proof.
  intros Hm Hc Ht. unfold UpdateCountingEnabled.
  destruct (CounterMode.sync_enable (mode cs));
    [destruct (SyncMode_of (CounterMode.sync_mode (mode cs)))|];
    (split; [|split; [|split]]; cbn; try lia;
     intros H; apply andb_true_iff in H; exact H).
Qed.

Lemma WriteMode_on_ok t value cs :
  counter_ok cs -> counter_ok (fst (WriteMode_on t value cs)).
Proof.
  intros (Hm & Hc & Ht & He). unfold WriteMode_on.
  apply UpdateIRQ_on_ok.
  assert (Hbits : 0 <= Z.land value 0x1FFF < 0x2000).
  { change 0x1FFF with (Z.ones 13). rewrite Z.land_ones by lia.
    apply Z.mod_pos_bound. lia. }
  cbn [mode set_mode set_use_external_clock set_counter set_irq_done].
  destruct (CounterMode.irq_pulse_n (Z.land value 0x1FFF)).
  - apply UpdateCountingEnabled_ok;
      cbn [mode counter target set_mode set_use_external_clock set_counter set_irq_done];
      try lia.
    apply (set_flag_range 13); [lia | exact Hbits].
  - apply UpdateCountingEnabled_ok;
      cbn [mode counter target set_mode set_use_external_clock set_counter set_irq_done];
      try lia.
Qed.

Lemma state_ok_insert t cs l c q d q' d' :
  state_ok (mkState l c q d) -> counter_ok cs ->
  state_ok (mkState (<[t := cs]> l) c q' d').
Proof.
  intros (Hlen & Hall & Hcarry) Hcs. cbn [m_states m_sysclk_div_8_carry] in *.
  split; [cbn [m_states]; rewrite length_insert; exact Hlen|]. split; [|exact Hcarry].
  cbn [m_states]. apply Forall_insert; assumption.
Qed.

Lemma state_ok_lookup st t :
  state_ok st -> (t < NUM_TIMERS)%nat ->
  exists cs, m_states st !! t = Some cs /\ counter_ok cs.
Proof.
  intros (Hlen & Hall & _) Ht.
  destruct (lookup_lt_is_Some_2 (m_states st) t) as [cs Hcs]; [rewrite Hlen; exact Ht|].
  exists cs. split; [exact Hcs|].
  rewrite Forall_lookup in Hall. exact (Hall t cs Hcs).
Qed.

(** X9.  If the synchronisation callback keeps the unit within its
    ranges, so does every register access that names one of the three
    timers: the write and the read both return, the state they leave is
    within the ranges, and the value read fits in 32 bits. *)
Theorem register_access_keeps_ranges offset value st :
  (forall s, state_ok s -> state_ok (Synchronize s)) ->
  state_ok st ->
  (timer_index_of offset < NUM_TIMERS)%nat ->
  (exists st', WriteRegister TMR0 Synchronize offset value st = Some (tt, st') /\
               state_ok st') /\
  (exists v st', ReadRegister Synchronize offset st = Some (v, st') /\
                 state_ok st' /\ 0 <= v < 2 ^ 32).
Proof.
  intros Hsync Hok Ht.
  pose proof (Hsync st Hok) as Hok'.
  destruct (state_ok_lookup _ _ Hok' Ht) as (cs & Hcs & Hcsok).
  destruct (state_ok_lookup _ _ Hok Ht) as (cs0 & Hcs0 & Hcs0ok).
  pose proof Hcsok as (Hm & Hc & Htg & _).
  pose proof Hcs0ok as (_ & _ & Htg0 & _).
  assert (Hmask : 0 <= Z.land value 0xFFFF < 0x10000).
  { change 0xFFFF with (Z.ones 16). rewrite Z.land_ones by lia.
    apply Z.mod_pos_bound. lia. }
  destruct (Z.eq_dec (port_offset_of offset) 0x00) as [P0|P0];
    [|destruct (Z.eq_dec (port_offset_of offset) 0x04) as [P4|P4];
      [|destruct (Z.eq_dec (port_offset_of offset) 0x08) as [P8|P8]]].
  - split.
    + eexists. split; [apply (WriteRegister_counter_run offset value st cs P0 Hcs)|].
      destruct (Synchronize st) as [l c q d]. apply (state_ok_insert _ _ l c q d); [exact Hok'|].
      apply set_counter_ok; assumption.
    + exists (counter cs), (Synchronize st).
      split; [apply (ReadRegister_counter_run offset st cs P0 Hcs)|].
      split; [exact Hok' | lia].
  - split.
    + eexists. split; [apply (WriteRegister_mode_run offset value st cs P4 Hcs)|].
      destruct (Synchronize st) as [l c q d]. apply (state_ok_insert _ _ l c q d); [exact Hok'|].
      apply WriteMode_on_ok. exact Hcsok.
    + eexists _, _. split; [apply (ReadRegister_mode_run offset st cs P4 Hcs)|].
      split; [|lia].
      destruct (Synchronize st) as [l c q d]. apply (state_ok_insert _ _ l c q d); [exact Hok'|].
      unfold CounterMode.set_reached_target, CounterMode.set_reached_overflow.
      apply set_mode_ok; [exact Hcsok|].
      apply (set_flag_range 13); [lia|]. apply (set_flag_range 13); [lia | exact Hm].
  - split.
    + eexists. split; [apply (WriteRegister_target_run offset value st cs P8 Hcs)|].
      destruct (Synchronize st) as [l c q d]. apply (state_ok_insert _ _ l c q d); [exact Hok'|].
      destruct Hcsok as (? & ? & ? & He).
      split; [|split; [|split]]; cbn; try lia; exact He.
    + exists (target cs0), st.
      split; [apply (ReadRegister_target_run offset st cs0 P8 Hcs0)|].
      split; [exact Hok | lia].
  - apply Z.eqb_neq in P0, P4, P8. unfold WriteRegister, ReadRegister.
    rewrite P0, P4, P8. split.
    + exists st. split; [reflexivity | exact Hok].
    + exists 0xFFFFFFFF, st. split; [reflexivity|]. split; [exact Hok | lia].
Qed.

Lemma SetGate_on_ok b cs : counter_ok cs -> counter_ok (SetGate_on b cs).
Proof.
  intros H. pose proof H as (Hm & Hc & Ht & He). unfold SetGate_on.
  destruct (Bool.eqb (gate cs) b); [exact H|].
  destruct (CounterMode.sync_enable (mode cs)).
  - destruct b; [destruct (SyncMode_of (CounterMode.sync_mode (mode cs)))|];
      apply UpdateCountingEnabled_ok; cbn [mode counter target set_gate set_counter set_mode];
      try lia.
    apply (set_flag_range 13); [lia | exact Hm].
  - split; [|split; [|split]]; cbn; try lia; exact He.
Qed.

(** X10.  [Reset] puts a unit of three counters within its ranges, every
    counter cleared and counting sysclk, without a word to the interrupt
    controller; and [SetGate] on any of the three timers keeps a unit
    within its ranges. *)
Theorem Reset_and_SetGate_ranges st :
  length (m_states st) = NUM_TIMERS ->
  (exists st',
     Reset st = Some (tt, st') /\ state_ok st' /\
     irq_requests st' = irq_requests st /\
     Forall (fun cs => mode cs = 0 /\ counter cs = 0 /\ target cs = 0 /\
                       counting_enabled cs = true /\
                       external_counting_enabled cs = false /\ irq_done cs = false)
            (m_states st')) /\
  (state_ok st ->
   forall t b, (t < NUM_TIMERS)%nat ->
     exists st', SetGate t b st = Some (tt, st') /\ state_ok st').
Proof.
  intros Hlen. split.
  - eexists. split; [reflexivity|]. cbn [m_states irq_requests m_sysclk_div_8_carry].
    split; [|split; [reflexivity|]].
    + split; [cbn [m_states]; rewrite length_fmap; exact Hlen|].
      split; [|cbn; lia]. cbn [m_states]. apply Forall_fmap. apply Forall_true.
      intros cs. unfold compose. split; [|split; [|split]]; cbn; lia.
    + apply Forall_fmap. apply Forall_true. intros cs. cbn. repeat split; reflexivity.
  - intros Hok t b Ht.
    destruct (state_ok_lookup _ _ Hok Ht) as (cs & Hcs & Hcsok).
    eexists. split; [apply (SetGate_run t b st cs Hcs)|].
    destruct st as [l c q d]. apply (state_ok_insert _ _ l c q d); [exact Hok|].
    apply SetGate_on_ok. exact Hcsok.
Qed.

(** ** One-shot interrupts *)

Lemma UpdateIRQ_on_done cs :
  irq_done (fst (UpdateIRQ_on cs)) = irq_done cs || snd (UpdateIRQ_on cs) /\
  (CounterMode.irq_repeat (mode cs) = false ->
   snd (UpdateIRQ_on cs) = true -> irq_done cs = false).
Proof.
  unfold UpdateIRQ_on.
  destruct (CounterMode.interrupt_request_n (mode cs));
    destruct (CounterMode.irq_repeat (mode cs));
    destruct (irq_done cs) eqn:E;
    cbn [negb andb orb fst snd irq_done set_irq_done]; rewrite ?E;
    split; try reflexivity; try discriminate; intros; reflexivity.
Qed.

Lemma request_on_done cs :
  irq_done (fst (request_on cs)) = irq_done cs || snd (request_on cs) /\
  (CounterMode.irq_repeat (mode cs) = false ->
   snd (request_on cs) = true -> irq_done cs = false).
Proof.
  assert (Hrep : forall v, CounterMode.irq_repeat
                             (CounterMode.set_interrupt_request_n v (mode cs))
                           = CounterMode.irq_repeat (mode cs)).
  { intros v. unfold CounterMode.irq_repeat, CounterMode.set_interrupt_request_n.
    rewrite get_set_flag by lia. reflexivity. }
  unfold request_on.
  destruct (negb (CounterMode.irq_pulse_n (mode cs))); cbn [fst snd irq_done set_mode].
  - destruct (UpdateIRQ_on_done
                (set_mode (CounterMode.set_interrupt_request_n false (mode cs)) cs))
      as [Hd Hr].
    cbn [mode set_mode irq_done] in Hd, Hr. rewrite Hrep in Hr.
    split; [exact Hd | exact Hr].
  - destruct (UpdateIRQ_on_done
                (set_mode (CounterMode.set_interrupt_request_n
                             (xorb (CounterMode.interrupt_request_n (mode cs)) true)
                             (mode cs)) cs))
      as [Hd Hr].
    cbn [mode set_mode irq_done] in Hd, Hr. rewrite Hrep in Hr.
    split; [exact Hd | exact Hr].
Qed.

Lemma wrap_counter_done cs : irq_done (wrap_counter cs) = irq_done cs.
Proof. destruct (wrap_counter_rest cs) as (_ & _ & _ & _ & _ & H). exact H. Qed.

(** [AddTicks] never clears [irq_done], sets it exactly when it calls the
    interrupt controller, and in one-shot mode calls it only while
    [irq_done] is clear. *)
Lemma AddTicks_on_done cs n :
  irq_done (fst (AddTicks_on cs n)) = irq_done cs || snd (AddTicks_on cs n) /\
  (CounterMode.irq_repeat (mode cs) = false ->
   snd (AddTicks_on cs n) = true -> irq_done cs = false).
Proof.
  unfold AddTicks_on. cbn [fst snd]. rewrite wrap_counter_done.
  set (cs1 := set_counter (u32 (counter cs + u32 n)) cs).
  destruct ((target cs1 <=? counter cs1) && (counter cs <? target cs1));
    destruct (0xFFFF <=? counter cs1); cbn [orb fst snd];
    try (rewrite orb_false_r; split; [reflexivity | discriminate]).
  all: match goal with |- context [request_on ?x] =>
         destruct (request_on_done x) as [Hd Hr] end;
       cbn [mode set_mode irq_done set_counter cs1] in Hd, Hr;
       unfold CounterMode.irq_repeat, CounterMode.set_reached_target,
         CounterMode.set_reached_overflow in Hr;
       rewrite ?get_set_flag in Hr by lia; cbn [Z.eqb Pos.eqb] in Hr;
       split; [exact Hd | exact Hr].
Qed.

(** One call of [Execute] seen from any one of the three timers: the
    timer is either left alone or handed to [AddTicks] with some count. *)
Lemma Execute_timer_view n t s0 s1 s2 c q d cs :
  [s0; s1; s2] !! t = Some cs ->
  exists s0' s1' s2' c' q' d' (r : CounterState * bool),
    Execute TMR0 n (mkState [s0; s1; s2] c q d)
    = Some (tt, mkState [s0'; s1'; s2'] c' q' d') /\
    [s0'; s1'; s2'] !! t = Some (fst r) /\
    irq_count (TMR0 + Z.of_nat t) q'
    = (irq_count (TMR0 + Z.of_nat t) q + if snd r then 1 else 0)%nat /\
    (r = (cs, false) \/ exists m, r = AddTicks_on cs m).
Proof.
  intros Hcs.
  destruct (Execute_run TMR0 n s0 s1 s2 c q d) as [d' Hrun]. cbv zeta in Hrun.
  destruct t as [|[|[|t]]]; cbn in Hcs; try discriminate; injection Hcs as ->.
  - do 6 eexists. eexists (if negb (external_counting_enabled cs) && counting_enabled cs
                           then AddTicks_on cs n else (cs, false)).
    split; [exact Hrun|]. split; [reflexivity|]. split.
    + rewrite !irq_count_app, !irq_count_raised.
      replace (TMR0 + 0 =? TMR0 + Z.of_nat 0) with true by (symmetry; apply Z.eqb_eq; lia).
      replace (TMR0 + 1 =? TMR0 + Z.of_nat 0) with false by (symmetry; apply Z.eqb_neq; lia).
      replace (TMR0 + 2 =? TMR0 + Z.of_nat 0) with false by (symmetry; apply Z.eqb_neq; lia).
      rewrite !andb_false_r, andb_true_r. lia.
    + destruct (negb (external_counting_enabled cs) && counting_enabled cs);
        [right; eexists; reflexivity | left; reflexivity].
  - do 6 eexists. eexists (if negb (external_counting_enabled cs) && counting_enabled cs
                           then AddTicks_on cs n else (cs, false)).
    split; [exact Hrun|]. split; [reflexivity|]. split.
    + rewrite !irq_count_app, !irq_count_raised.
      replace (TMR0 + 0 =? TMR0 + Z.of_nat 1) with false by (symmetry; apply Z.eqb_neq; lia).
      replace (TMR0 + 1 =? TMR0 + Z.of_nat 1) with true by (symmetry; apply Z.eqb_eq; lia).
      replace (TMR0 + 2 =? TMR0 + Z.of_nat 1) with false by (symmetry; apply Z.eqb_neq; lia).
      rewrite !andb_false_r, andb_true_r. lia.
    + destruct (negb (external_counting_enabled cs) && counting_enabled cs);
        [right; eexists; reflexivity | left; reflexivity].
  - do 6 eexists. eexists (if external_counting_enabled cs
                           then AddTicks_on cs (Z.quot (s32 (n + c)) 8)
                           else if counting_enabled cs then AddTicks_on cs n
                                else (cs, false)).
    split; [exact Hrun|]. split; [reflexivity|]. split.
    + rewrite !irq_count_app, !irq_count_raised.
      replace (TMR0 + 0 =? TMR0 + Z.of_nat 2) with false by (symmetry; apply Z.eqb_neq; lia).
      replace (TMR0 + 1 =? TMR0 + Z.of_nat 2) with false by (symmetry; apply Z.eqb_neq; lia).
      replace (TMR0 + 2 =? TMR0 + Z.of_nat 2) with true by (symmetry; apply Z.eqb_eq; lia).
      rewrite !andb_false_r, andb_true_r. lia.
    + destruct (external_counting_enabled cs); [right; eexists; reflexivity|].
      destruct (counting_enabled cs); [right; eexists; reflexivity | left; reflexivity].
Qed.

(** X11.  A timer in one-shot mode ([irq_repeat] clear) raises at most
    one interrupt however many times [Execute] runs and whatever the tick
    budgets, and none at all once [irq_done] is set. *)
Theorem one_shot_raises_at_most_once budgets :
  forall t s0 s1 s2 c q d cs,
    [s0; s1; s2] !! t = Some cs ->
    CounterMode.irq_repeat (mode cs) = false ->
    exists st',
      Execute_all TMR0 budgets (mkState [s0; s1; s2] c q d) = Some (tt, st') /\
      (irq_count (TMR0 + Z.of_nat t) (irq_requests st')
       <= irq_count (TMR0 + Z.of_nat t) q + (if irq_done cs then 0 else 1))%nat.
Proof.
  induction budgets as [|n rest IH]; intros t s0 s1 s2 c q d cs Hcs Hrep.
  - eexists. split; [reflexivity|]. cbn [irq_requests]. lia.
  - destruct (Execute_timer_view n t s0 s1 s2 c q d cs Hcs)
      as (s0' & s1' & s2' & c' & q' & d' & r & Hrun & Hcs' & Hq' & Hr).
    assert (Hstep : CounterMode.irq_repeat (mode (fst r)) = false /\
                    irq_done (fst r) = irq_done cs || snd r /\
                    (snd r = true -> irq_done cs = false)).
    { destruct Hr as [-> | [m ->]].
      - cbn [fst snd]. rewrite orb_false_r. repeat split; [exact Hrep | discriminate].
      - destruct (AddTicks_on_frame cs m) as (_ & _ & _ & Fm).
        destruct (AddTicks_on_done cs m) as [Hd Hone].
        split; [|split; [exact Hd | exact (Hone Hrep)]].
        unfold CounterMode.irq_repeat. rewrite Fm by lia. exact Hrep. }
    destruct Hstep as (Hrep' & Hdone & Hone).
    destruct (IH t s0' s1' s2' c' q' d' _ Hcs' Hrep') as (st' & Hall & Hcnt).
    exists st'. split.
    { cbn [Execute_all]. unfold bind. rewrite Hrun. exact Hall. }
    rewrite Hq', Hdone in Hcnt.
    destruct (snd r) eqn:Er.
    + rewrite (Hone eq_refl). rewrite orb_true_r in Hcnt. lia.
    + rewrite orb_false_r in Hcnt. lia.
Qed.

(** ** The counter over several calls *)

Lemma total_ticks_nonneg (P : Z -> Prop) budgets :
  (forall n, P n -> 0 <= n) -> Forall P budgets -> 0 <= total_ticks budgets.
Proof.
  intros HP Hall. induction Hall as [|x l Hx _ IH]; cbn [total_ticks foldr]; [lia|].
  fold (total_ticks l). specialize (HP x Hx). lia.
Qed.

Lemma AddTicks_on_modulus cs n :
  0 <= counter cs -> 0 <= n -> counter cs + n < 2 ^ 32 -> 0 < wrap_modulus cs ->
  counter (fst (AddTicks_on cs n)) = (counter cs + n) mod wrap_modulus cs /\
  wrap_modulus (fst (AddTicks_on cs n)) = wrap_modulus cs.
Proof.
  intros Hc Hn Hfit HW.
  destruct (AddTicks_on_frame cs n) as (Ft & _ & _ & Fm).
  split.
  - rewrite AddTicks_on_counter. cbv zeta.
    rewrite (u32_small n) by lia. rewrite u32_small by lia.
    unfold wrap_modulus in *.
    destruct (CounterMode.reset_at_target (mode cs)); [|reflexivity].
    replace (0 <? target cs) with true by (symmetry; apply Z.ltb_lt; lia). reflexivity.
  - unfold wrap_modulus, CounterMode.reset_at_target. rewrite Fm, Ft by lia. reflexivity.
Qed.

Lemma Execute_all_counter_below t budgets :
  Forall (fun n => 0 <= n < 2 ^ 31) budgets ->
  forall s0 s1 s2 c q d cs,
    [s0; s1; s2] !! t = Some cs ->
    counting_enabled cs = true -> external_counting_enabled cs = false ->
    0 < wrap_modulus cs <= 0xFFFF ->
    0 <= counter cs < wrap_modulus cs ->
    exists st' cs',
      Execute_all TMR0 budgets (mkState [s0; s1; s2] c q d) = Some (tt, st') /\
      m_states st' !! t = Some cs' /\
      counter cs' = (counter cs + total_ticks budgets) mod wrap_modulus cs.
Proof.
  intros Hall. induction Hall as [|n rest Hn Hrest IH];
    intros s0 s1 s2 c q d cs Hcs Hcount Hext HW Hc.
  - exists (mkState [s0; s1; s2] c q d), cs. split; [reflexivity|]. split; [exact Hcs|].
    cbn [total_ticks foldr]. rewrite Z.add_0_r, Z.mod_small by lia. reflexivity.
  - destruct (Execute_counting_timer TMR0 n t s0 s1 s2 c q d cs Hcs Hcount Hext)
      as (s0' & s1' & s2' & c' & q' & d' & Hrun & Hcs' & _).
    destruct (AddTicks_on_modulus cs n) as [Hc' HW']; try lia.
    destruct (AddTicks_on_frame cs n) as (_ & Fe & Fc & _).
    destruct (IH s0' s1' s2' c' q' d' _ Hcs') as (st' & cs' & Hall' & Hlook & Hfinal).
    { rewrite Fc. exact Hcount. }
    { rewrite Fe. exact Hext. }
    { rewrite HW'. exact HW. }
    { rewrite HW', Hc'. apply Z.mod_pos_bound. lia. }
    exists st', cs'. split.
    { cbn [Execute_all]. unfold bind. rewrite Hrun. exact Hall'. }
    split; [exact Hlook|].
    rewrite Hfinal, HW', Hc'. cbn [total_ticks foldr]. fold (total_ticks rest).
    rewrite Zplus_mod_idemp_l. f_equal. lia.
Qed.

(** X12.  How the tick budget is cut into calls of [Execute] does not
    matter to the counter of a timer counting sysclk: after one or more
    calls it holds [(old_counter + total) mod W], where [total] is the sum
    of the budgets and [W] is the target when the counter resets at it
    and [0xFFFF] otherwise. *)
Theorem counter_after_several_calls t n rest s0 s1 s2 c q d cs :
  [s0; s1; s2] !! t = Some cs ->
  counting_enabled cs = true -> external_counting_enabled cs = false ->
  0 <= counter cs < 0x10000 ->
  0 < wrap_modulus cs <= 0xFFFF ->
  Forall (fun n => 0 <= n < 2 ^ 31) (n :: rest) ->
  exists st' cs',
    Execute_all TMR0 (n :: rest) (mkState [s0; s1; s2] c q d) = Some (tt, st') /\
    m_states st' !! t = Some cs' /\
    counter cs' = (counter cs + total_ticks (n :: rest)) mod wrap_modulus cs.
Proof.
  intros Hcs Hcount Hext Hc HW Hall.
  inversion Hall as [|? ? Hn Hrest]; subst.
  destruct (Execute_counting_timer TMR0 n t s0 s1 s2 c q d cs Hcs Hcount Hext)
    as (s0' & s1' & s2' & c' & q' & d' & Hrun & Hcs' & _).
  destruct (AddTicks_on_modulus cs n) as [Hc' HW']; try lia.
  destruct (AddTicks_on_frame cs n) as (_ & Fe & Fc & _).
  destruct (Execute_all_counter_below t rest Hrest s0' s1' s2' c' q' d' _ Hcs')
    as (st' & cs' & Hall' & Hlook & Hfinal).
  { rewrite Fc. exact Hcount. }
  { rewrite Fe. exact Hext. }
  { rewrite HW'. exact HW. }
  { rewrite HW', Hc'. apply Z.mod_pos_bound. lia. }
  exists st', cs'. split.
  { cbn [Execute_all]. unfold bind. rewrite Hrun. exact Hall'. }
  split; [exact Hlook|].
  rewrite Hfinal, HW', Hc'. cbn [total_ticks foldr]. fold (total_ticks rest).
  rewrite Zplus_mod_idemp_l. f_equal. lia.
Qed.

Lemma div_split x r T : 0 < T -> (x + r) / T = x / T + (x mod T + r) / T.
Proof.
  intros HT. rewrite (Z.div_mod x T) at 1 by lia.
  replace (T * (x / T) + x mod T + r) with ((x mod T + r) + (x / T) * T) by lia.
  rewrite Z.div_add by lia. lia.
Qed.

Lemma Execute_all_timer2_below budgets :
  Forall (fun n => 0 <= n /\ n + 7 < 2 ^ 31) budgets ->
  forall s0 s1 s2 c q d,
    external_counting_enabled s2 = true ->
    0 <= c < 8 ->
    0 < wrap_modulus s2 <= 0xFFFF ->
    0 <= counter s2 < wrap_modulus s2 ->
    exists st' cs',
      Execute_all TMR0 budgets (mkState [s0; s1; s2] c q d) = Some (tt, st') /\
      m_states st' !! 2%nat = Some cs' /\
      m_sysclk_div_8_carry st' = (c + total_ticks budgets) mod 8 /\
      counter cs' = (counter s2 + (c + total_ticks budgets) / 8) mod wrap_modulus s2.
Proof.
  intros Hall. induction Hall as [|n rest [Hn Hbig] Hrest IH];
    intros s0 s1 s2 c q d Hext Hc HW Hk.
  - exists (mkState [s0; s1; s2] c q d), s2. split; [reflexivity|]. split; [reflexivity|].
    cbn [total_ticks foldr m_sysclk_div_8_carry].
    rewrite Z.add_0_r, (Z.mod_small c), (Z.div_small c), Z.add_0_r, Z.mod_small by lia.
    split; reflexivity.
  - destruct (Execute_run TMR0 n s0 s1 s2 c q d) as [d' Hrun]. cbv zeta in Hrun.
    rewrite Hext in Hrun.
    rewrite (s32_small (n + c)) in Hrun by lia.
    rewrite Z.quot_div_nonneg, Z.rem_mod_nonneg in Hrun by lia.
    assert (Hticks : 0 <= (n + c) / 8 < 2 ^ 28).
    { split; [apply Z.div_pos; lia|]. apply Z.div_lt_upper_bound; lia. }
    destruct (AddTicks_on_modulus s2 ((n + c) / 8)) as [Hc' HW']; try lia.
    destruct (AddTicks_on_frame s2 ((n + c) / 8)) as (_ & Fe & _ & _).
    match type of Hrun with _ = Some (tt, mkState [?a; ?b; _] _ ?q' _) =>
      destruct (IH a b (fst (AddTicks_on s2 ((n + c) / 8))) ((n + c) mod 8) q' d')
        as (st' & cs' & Hall' & Hlook & Hcarry & Hfinal) end.
    { rewrite Fe. exact Hext. }
    { apply Z.mod_pos_bound. lia. }
    { rewrite HW'. exact HW. }
    { rewrite HW', Hc'. apply Z.mod_pos_bound. lia. }
    exists st', cs'. split.
    { cbn [Execute_all]. unfold bind. rewrite Hrun. exact Hall'. }
    split; [exact Hlook|].
    cbn [total_ticks foldr]. fold (total_ticks rest).
    replace (c + (n + total_ticks rest)) with ((n + c) + total_ticks rest) by lia.
    split.
    + rewrite Hcarry. apply Zplus_mod_idemp_l.
    + rewrite Hfinal, HW', Hc', Zplus_mod_idemp_l.
      rewrite (div_split (n + c) (total_ticks rest) 8) by lia. f_equal. lia.
Qed.

(** X13.  Timer 2 on the sysclk/8 clock loses no tick to the division,
    however the budget is cut into calls: after one or more calls of
    [Execute] the carry is [(carry + total) mod 8] and the counter is
    [(old_counter + (carry + total) / 8) mod W], with [total] the sum of
    the budgets and [W] the target when the counter resets at it and
    [0xFFFF] otherwise. *)
Theorem timer2_after_several_calls n rest s0 s1 s2 c q d :
  external_counting_enabled s2 = true ->
  0 <= c < 8 ->
  0 <= counter s2 < 0x10000 ->
  0 < wrap_modulus s2 <= 0xFFFF ->
  Forall (fun n => 0 <= n /\ n + 7 < 2 ^ 31) (n :: rest) ->
  exists st' cs',
    Execute_all TMR0 (n :: rest) (mkState [s0; s1; s2] c q d) = Some (tt, st') /\
    m_states st' !! 2%nat = Some cs' /\
    m_sysclk_div_8_carry st' = (c + total_ticks (n :: rest)) mod 8 /\
    counter cs' = (counter s2 + (c + total_ticks (n :: rest)) / 8) mod wrap_modulus s2.
Proof.
  intros Hext Hc Hk HW Hall.
  inversion Hall as [|? ? [Hn Hbig] Hrest]; subst.
  destruct (Execute_run TMR0 n s0 s1 s2 c q d) as [d' Hrun]. cbv zeta in Hrun.
  rewrite Hext in Hrun.
  rewrite (s32_small (n + c)) in Hrun by lia.
  rewrite Z.quot_div_nonneg, Z.rem_mod_nonneg in Hrun by lia.
  assert (Hticks : 0 <= (n + c) / 8 < 2 ^ 28).
  { split; [apply Z.div_pos; lia|]. apply Z.div_lt_upper_bound; lia. }
  destruct (AddTicks_on_modulus s2 ((n + c) / 8)) as [Hc' HW']; try lia.
  destruct (AddTicks_on_frame s2 ((n + c) / 8)) as (_ & Fe & _ & _).
  match type of Hrun with _ = Some (tt, mkState [?a; ?b; _] _ ?q' _) =>
    destruct (Execute_all_timer2_below rest Hrest a b
                (fst (AddTicks_on s2 ((n + c) / 8))) ((n + c) mod 8) q' d')
      as (st' & cs' & Hall' & Hlook & Hcarry & Hfinal) end.
  { rewrite Fe. exact Hext. }
  { apply Z.mod_pos_bound. lia. }
  { rewrite HW'. exact HW. }
  { rewrite HW', Hc'. apply Z.mod_pos_bound. lia. }
  exists st', cs'. split.
  { cbn [Execute_all]. unfold bind. rewrite Hrun. exact Hall'. }
  split; [exact Hlook|].
  cbn [total_ticks foldr]. fold (total_ticks rest).
  replace (c + (n + total_ticks rest)) with ((n + c) + total_ticks rest) by lia.
  split.
  - rewrite Hcarry. apply Zplus_mod_idemp_l.
  - rewrite Hfinal, HW', Hc', Zplus_mod_idemp_l.
    rewrite (div_split (n + c) (total_ticks rest) 8) by lia. f_equal. lia.
Qed.

(** ** Timers that [Execute] does not drive *)

Lemma Execute_not_driven_step n t s0 s1 s2 c q d cs :
  [s0; s1; s2] !! t = Some cs ->
  not_driven t cs ->
  exists s0' s1' s2' c' q' d',
    Execute TMR0 n (mkState [s0; s1; s2] c q d)
    = Some (tt, mkState [s0'; s1'; s2'] c' q' d') /\
    [s0'; s1'; s2'] !! t = Some cs /\
    irq_count (TMR0 + Z.of_nat t) q' = irq_count (TMR0 + Z.of_nat t) q.
Proof.
  intros Hcs Hidle.
  destruct (Execute_run TMR0 n s0 s1 s2 c q d) as [d' Hrun]. cbv zeta in Hrun.
  do 6 eexists. split; [exact Hrun|].
  rewrite !irq_count_app, !irq_count_raised.
  destruct t as [|[|[|t]]]; cbn in Hcs; try discriminate; injection Hcs as ->.
  - assert (E : negb (external_counting_enabled cs) && counting_enabled cs = false).
    { destruct Hidle as [[-> ->] | [_ ->]]; reflexivity. }
    rewrite E. cbn [fst snd andb]. split; [reflexivity|].
    replace (TMR0 + 1 =? TMR0 + Z.of_nat 0) with false by (symmetry; apply Z.eqb_neq; lia).
    replace (TMR0 + 2 =? TMR0 + Z.of_nat 0) with false by (symmetry; apply Z.eqb_neq; lia).
    rewrite !andb_false_r. lia.
  - assert (E : negb (external_counting_enabled cs) && counting_enabled cs = false).
    { destruct Hidle as [[-> ->] | [_ ->]]; reflexivity. }
    rewrite E. cbn [fst snd andb]. split; [reflexivity|].
    replace (TMR0 + 0 =? TMR0 + Z.of_nat 1) with false by (symmetry; apply Z.eqb_neq; lia).
    replace (TMR0 + 2 =? TMR0 + Z.of_nat 1) with false by (symmetry; apply Z.eqb_neq; lia).
    rewrite !andb_false_r. lia.
  - destruct Hidle as [[Hc He] | [Hlt _]]; [|lia].
    rewrite He, Hc. cbn [fst snd andb]. split; [reflexivity|].
    replace (TMR0 + 0 =? TMR0 + Z.of_nat 2) with false by (symmetry; apply Z.eqb_neq; lia).
    replace (TMR0 + 1 =? TMR0 + Z.of_nat 2) with false by (symmetry; apply Z.eqb_neq; lia).
    rewrite !andb_false_r. lia.
Qed.

(** X14.  [Execute] drives a timer only when it counts on sysclk, or (for
    timer 2) on sysclk/8.  A timer that is paused, and timer 0 or 1 while
    it counts on its external clock, comes out of any number of calls
    exactly as it went in, and none of its interrupts is raised. *)
Theorem Execute_leaves_idle_timer budgets :
  forall t s0 s1 s2 c q d cs,
    [s0; s1; s2] !! t = Some cs ->
    not_driven t cs ->
    exists st',
      Execute_all TMR0 budgets (mkState [s0; s1; s2] c q d) = Some (tt, st') /\
      m_states st' !! t = Some cs /\
      irq_count (TMR0 + Z.of_nat t) (irq_requests st') = irq_count (TMR0 + Z.of_nat t) q.
Proof.
  induction budgets as [|n rest IH]; intros t s0 s1 s2 c q d cs Hcs Hidle.
  - eexists. split; [reflexivity|]. split; [exact Hcs | reflexivity].
  - destruct (Execute_not_driven_step n t s0 s1 s2 c q d cs Hcs Hidle)
      as (s0' & s1' & s2' & c' & q' & d' & Hrun & Hcs' & Hq').
    destruct (IH t s0' s1' s2' c' q' d' cs Hcs' Hidle) as (st' & Hall & Hlook & Hcnt).
    exists st'. split.
    { cbn [Execute_all]. unfold bind. rewrite Hrun. exact Hall. }
    split; [exact Hlook|]. rewrite Hcnt. exact Hq'.
Qed.

(** ** The downcount *)

Lemma UpdateDowncount_value s0 s1 s2 c q d :
  UpdateDowncount (mkState [s0; s1; s2] c q d)
  = Some (tt, mkState [s0; s1; s2] c q
                (downcount_round 2 s2
                   (downcount_round 1 s1 (downcount_round 0 s0 TickCount_max)))).
Proof. reflexivity. Qed.

Lemma downcount_round_le i cs m : downcount_round i cs m <= m.
Proof.
  unfold downcount_round.
  destruct (negb (counting_enabled cs) || (i <? 2)%nat && external_counting_enabled cs);
    lia.
Qed.

Lemma downcount_round_pos i cs m :
  counter_ok cs -> 1 <= m -> 1 <= downcount_round i cs m.
Proof.
  intros (_ & Hc & Ht & _) Hm. unfold downcount_round.
  destruct (negb (counting_enabled cs) || (i <? 2)%nat && external_counting_enabled cs);
    [exact Hm|].
  destruct (counter cs <? target cs) eqn:E.
  - apply Z.ltb_lt in E. rewrite !andb_true_r.
    rewrite (u32_small (target cs - counter cs)), (u32_small (0xFFFF - counter cs)) by lia.
    rewrite !s32_small by lia.
    destruct (CounterMode.irq_at_target (mode cs)), (CounterMode.irq_on_overflow (mode cs)),
      (external_counting_enabled cs); lia.
  - rewrite !andb_false_r. destruct (external_counting_enabled cs); lia.
Qed.

Lemma downcount_round_target i cs m :
  counter_ok cs ->
  counting_enabled cs = true -> external_counting_enabled cs = false ->
  CounterMode.irq_at_target (mode cs) = true ->
  counter cs < target cs ->
  downcount_round i cs m <= target cs - counter cs.
Proof.
  intros (_ & Hc & Ht & _) Hcount Hext Hirq Hlt. unfold downcount_round.
  rewrite Hcount, Hext, Hirq, andb_false_r. cbn [negb orb andb].
  replace (counter cs <? target cs) with true by (symmetry; apply Z.ltb_lt; exact Hlt).
  rewrite andb_true_r.
  rewrite (u32_small (target cs - counter cs)), (u32_small (0xFFFF - counter cs)) by lia.
  rewrite !s32_small by lia.
  destruct (CounterMode.irq_on_overflow (mode cs)); lia.
Qed.

(** X15.  On a unit within its ranges [UpdateDowncount] changes nothing
    but the downcount it publishes, which is at least 1, at most the
    largest [TickCount], and no more than [target - counter] for any timer
    that counts sysclk with [irq_at_target] set and has not reached its
    target: the CPU is never told to run past the next target interrupt. *)
Theorem UpdateDowncount_bounds st :
  state_ok st ->
  exists ticks,
    UpdateDowncount st
    = Some (tt, mkState (m_states st) (m_sysclk_div_8_carry st) (irq_requests st) ticks) /\
    1 <= ticks <= TickCount_max /\
    forall t cs,
      m_states st !! t = Some cs ->
      counting_enabled cs = true -> external_counting_enabled cs = false ->
      CounterMode.irq_at_target (mode cs) = true ->
      counter cs < target cs ->
      ticks <= target cs - counter cs.
Proof.
  intros (Hlen & Hall & _). destruct st as [l c q d]. cbn [m_states m_sysclk_div_8_carry irq_requests] in *.
  destruct l as [|s0 [|s1 [|s2 [|]]]]; try discriminate Hlen.
  apply Forall3 in Hall. destruct Hall as (H0 & H1 & H2).
  eexists. split; [apply UpdateDowncount_value|].
  pose proof (downcount_round_le 0 s0 TickCount_max) as L0.
  pose proof (downcount_round_le 1 s1 (downcount_round 0 s0 TickCount_max)) as L1.
  pose proof (downcount_round_le 2 s2
                (downcount_round 1 s1 (downcount_round 0 s0 TickCount_max))) as L2.
  split.
  - split; [|lia].
    apply downcount_round_pos; [exact H2|].
    apply downcount_round_pos; [exact H1|].
    apply downcount_round_pos; [exact H0|]. unfold TickCount_max. lia.
  - intros t cs Hcs Hcount Hext Hirq Hlt.
    destruct t as [|[|[|t]]]; cbn in Hcs; try discriminate; injection Hcs as ->.
    + pose proof (downcount_round_target 0 cs TickCount_max H0 Hcount Hext Hirq Hlt). lia.
    + pose proof (downcount_round_target 1 cs (downcount_round 0 s0 TickCount_max)
                    H1 Hcount Hext Hirq Hlt) as B.
      eapply Z.le_trans; [exact L2 | exact B].
    + apply (downcount_round_target 2 cs); assumption.
Qed.

End TimersMore.

(** * Further properties of the bus *)

Section BusMore.

Import Bus.

Context {Devices : Type}.

#[local] Abbreviation BState := (Bus.State Devices).

(** ** Access times *)

Ltac unwrap_s32 :=
  repeat match goal with
         | |- context [s32 ?x] => rewrite (s32_small x) in * by lia
         | H : context [s32 ?x] |- _ => rewrite (s32_small x) in * by lia
         end.

(** X16.  For fields that are unsigned bytes, the access times of a
    region are ordered and never below the floor of the recipe: a byte
    costs at least 6 ticks, a halfword at least as much as a byte, a word
    at least as much as a halfword, and all of them fit a [TickCount]; on
    a 16-bit bus a halfword costs what a byte costs. *)
Theorem CalculateMemoryTiming_bounds mem_delay common_delay :
  fields_in_range mem_delay common_delay ->
  let '(byte_time, halfword_time, word_time) :=
    CalculateMemoryTiming mem_delay common_delay in
  6 <= byte_time /\ byte_time <= halfword_time /\ halfword_time <= word_time /\
  word_time < 4096 /\
  (data_bus_16bit mem_delay = true -> halfword_time = byte_time).
Proof.
  intros (Ha & H0 & H1 & H2 & H3). unfold u8_range in *.
  unfold CalculateMemoryTiming.
  destruct mem_delay as [a u0 u1 u2 u3 b16], common_delay as [c0 c1 c2 c3].
  cbn [access_time use_com0_time use_com2_time use_com3_time data_bus_16bit
       com0 com2 com3] in *.
  destruct u0, u2, u3, b16; cbv beta iota zeta; unwrap_s32;
    repeat match goal with
           | |- context [?x <? ?y] => destruct (Z.ltb_spec x y); unwrap_s32
           end;
    (split; [|split; [|split; [|split]]]); try lia; intros; try lia; discriminate.
Qed.

(** ** The fix-ups for narrow accesses to 32-bit registers *)

Lemma byte_offset_range offset : 0 <= Z.land offset 3 <= 3.
Proof.
  change 3 with (Z.ones 2) at 1 2. rewrite Z.land_ones by lia.
  pose proof (Z.mod_pos_bound offset (2 ^ 2)). lia.
Qed.

Lemma aligned_offset_low offset : Z.land (Z.land offset (not32 3)) 3 = 0.
Proof. rewrite <- Z.land_assoc. change (Z.land (not32 3) 3) with 0. apply Z.land_0_r. Qed.

Lemma aligned_offset_idem offset :
  Z.land (Z.land offset (not32 3)) (not32 3) = Z.land offset (not32 3).
Proof. rewrite <- Z.land_assoc. rewrite Z.land_diag. reflexivity. Qed.

Lemma u32_idem x : u32 (u32 x) = u32 x.
Proof. unfold u32. apply Z.mod_mod. lia. Qed.

Lemma Fixup_aligned offset x :
  FixupUnalignedWordAccessW32 (Z.land offset (not32 3)) (u32 x)
  = (Z.land offset (not32 3), u32 x).
Proof.
  unfold FixupUnalignedWordAccessW32.
  rewrite aligned_offset_low, aligned_offset_idem. change (0 * 8) with 0.
  rewrite Z.shiftl_0_r, u32_idem. reflexivity.
Qed.

(** X17.  What the write fix-up moves up the read fix-up moves back
    down: a value written at an unaligned offset and read back at the
    same offset keeps its low [32 - 8 * (offset & 3)] bits, so a byte
    always survives, and both fix-ups address the same aligned register. *)
Theorem fixup_write_then_read offset value :
  let b := Z.land offset 3 in
  fst (FixupUnalignedWordAccessW32 offset value) = FIXUP_WORD_READ_OFFSET offset /\
  FIXUP_WORD_READ_VALUE offset (snd (FixupUnalignedWordAccessW32 offset value))
  = value mod 2 ^ (32 - 8 * b) /\
  Truncate8 (FIXUP_WORD_READ_VALUE offset (snd (FixupUnalignedWordAccessW32 offset value)))
  = Truncate8 value.
Proof.
  intros b. pose proof (byte_offset_range offset) as Hb. fold b in Hb.
  unfold FixupUnalignedWordAccessW32, FIXUP_WORD_READ_VALUE, FIXUP_WORD_READ_OFFSET.
  cbn [fst snd]. fold b.
  assert (Hmain : Z.shiftr (u32 (Z.shiftl value (b * 8))) (b * 8)
                  = value mod 2 ^ (32 - 8 * b)).
  { unfold u32. rewrite <- !Z.land_ones by lia. apply Z.bits_inj'. intros i Hi.
    rewrite Z.shiftr_spec, !Z.land_spec, Z.shiftl_spec by lia.
    rewrite !Z.testbit_ones_nonneg by lia.
    replace (i + b * 8 - b * 8) with i by lia.
    destruct (i <? 32 - 8 * b) eqn:E.
    - apply Z.ltb_lt in E. replace (i + b * 8 <? 32) with true
        by (symmetry; apply Z.ltb_lt; lia). reflexivity.
    - apply Z.ltb_ge in E. replace (i + b * 8 <? 32) with false
        by (symmetry; apply Z.ltb_ge; lia). reflexivity. }
  split; [reflexivity|]. split; [exact Hmain|].
  rewrite Hmain. unfold Truncate8. change 0xFF with (Z.ones 8).
  rewrite !Z.land_ones by lia.
  apply Z.mod_mod_divide.
  exists (2 ^ (24 - 8 * b)). rewrite <- Z.pow_add_r by lia. f_equal. lia.
Qed.

(** ** The DMA registers *)

Section DMAandSPU.

Variable SPU_ReadRegister : Z -> Devices -> Z * Devices.
Variable SPU_WriteRegister : Z -> Z -> Devices -> Devices.
Variable DMA_ReadRegister : Z -> Devices -> Z * Devices.
Variable DMA_WriteRegister : Z -> Z -> Devices -> Devices.

Lemma low_nibble_aligned offset : Z.land offset 0x0F = 0x4 -> Z.land offset 3 = 0.
Proof.
  intros H. change 3 with (Z.land 0x0F 3). rewrite Z.land_assoc, H. reflexivity.
Qed.

Lemma aligned_offset_fixed offset :
  0 <= offset < 2 ^ 32 -> Z.land offset 3 = 0 -> Z.land offset (not32 3) = offset.
Proof.
  intros Ho Hlow. apply Z.bits_inj'. intros i Hi.
  rewrite Z.land_spec. unfold not32. rewrite Z.lxor_spec.
  change 0xFFFFFFFF with (Z.ones 32). rewrite Z.testbit_ones_nonneg by lia.
  destruct (i <? 32) eqn:E.
  - destruct (Z.testbit offset i) eqn:Eo; [|reflexivity]. cbn [andb].
    assert (Hbit : Z.testbit (Z.land offset 3) i = false) by (rewrite Hlow; apply Z.bits_0).
    rewrite Z.land_spec, Eo in Hbit. cbn [andb] in Hbit. rewrite Hbit. reflexivity.
  - apply Z.ltb_ge in E. rewrite (u32_bits_high offset i Ho E). reflexivity.
Qed.

(** X18.  The exception that [DoWriteDMA] makes for the length register
    changes nothing: a byte or halfword write always reaches the DMA
    controller as the write fix-up leaves it, at the aligned offset with
    the value moved to its byte lane, and a word write reaches it as it
    is. *)
Theorem DoWriteDMA_is_the_fixup size offset value (st : BState) :
  0 <= offset < 2 ^ 32 ->
  0 <= value < 2 ^ 32 ->
  DoWriteDMA DMA_WriteRegister size offset value st
  = match size with
    | Word => dma_write DMA_WriteRegister offset value st
    | _ => dma_write DMA_WriteRegister
             (fst (FixupUnalignedWordAccessW32 offset value))
             (snd (FixupUnalignedWordAccessW32 offset value)) st
    end.
Proof.
  intros Ho Hv. unfold DoWriteDMA.
  assert (Hnarrow :
            (if (Z.land offset 0xF0 <? 7) && (Z.land offset 0x0F =? 0x4)
             then (offset, ZeroExtend32 value)
             else FixupUnalignedWordAccessW32 offset value)
            = FixupUnalignedWordAccessW32 offset value).
  { destruct (Z.land offset 0xF0 <? 7); cbn [andb]; [|reflexivity].
    destruct (Z.land offset 0x0F =? 0x4) eqn:E; [|reflexivity].
    apply Z.eqb_eq in E. pose proof (low_nibble_aligned offset E) as Hlow.
    unfold FixupUnalignedWordAccessW32, ZeroExtend32.
    rewrite Hlow, (aligned_offset_fixed offset Ho Hlow). change (0 * 8) with 0.
    rewrite Z.shiftl_0_r. reflexivity. }
  destruct size; rewrite ?Hnarrow;
    try (destruct (FixupUnalignedWordAccessW32 offset value)); reflexivity.
Qed.

(** ** The SPU registers *)

Lemma IsAligned2_next offset :
  IsAligned2 offset = true -> IsAligned2 (u32 (offset + 2)) = true.
Proof.
  unfold IsAligned2, u32. change 1 with (Z.ones 1). rewrite !Z.land_ones by lia.
  rewrite !Z.eqb_eq. intros H.
  rewrite Z.mod_mod_divide by (exists (2 ^ 31); reflexivity).
  change (2 ^ 1) with 2 in *. rewrite <- Zplus_mod_idemp_l, H. reflexivity.
Qed.

(** X19.  A word access to the SPU is two halfword accesses, low half
    first: the word write is the halfword write of the low 16 bits at
    [offset] followed by the halfword write of the high 16 bits at
    [offset + 2], stopping on the same failed assertion for an odd
    offset, and the word read puts the halfword read at [offset + 2] above
    the halfword read at [offset]. *)
Theorem SPU_word_access_is_two_halfword_accesses offset value (st : BState) :
  DoWriteSPU SPU_WriteRegister Word offset value st
  = (DoWriteSPU SPU_WriteRegister HalfWord offset value >>
     DoWriteSPU SPU_WriteRegister HalfWord (u32 (offset + 2)) (Z.shiftr value 16))%comp st /\
  DoReadSPU SPU_ReadRegister Word offset st
  = (let* lsb := DoReadSPU SPU_ReadRegister HalfWord offset in
     let* msb := DoReadSPU SPU_ReadRegister HalfWord (u32 (offset + 2)) in
     ret (Z.lor lsb (u32 (Z.shiftl msb 16))))%comp st.
Proof.
  split.
  - unfold DoWriteSPU, bind, Assert, spu_write.
    destruct (IsAligned2 offset) eqn:E; [|reflexivity].
    rewrite (IsAligned2_next offset E). reflexivity.
  - unfold DoReadSPU, bind, spu_read, ret.
    destruct (SPU_ReadRegister offset (collaborators st)) as [lsb dev].
    cbn [collaborators set_collaborators].
    destruct (SPU_ReadRegister (u32 (offset + 2)) dev) as [msb dev'].
    reflexivity.
Qed.

End DMAandSPU.

(** ** The memory-control registers at any offset *)

Section MemoryControl.

Variable MEMDELAY_of : Z -> MEMDELAY.
Variable COMDELAY_of : Z -> COMDELAY.
Variable MEMDELAY_WRITE_MASK : Z.
Variable COMDELAY_WRITE_MASK : Z.

#[local] Abbreviation DoWrite :=
  (DoWriteMemoryControl MEMDELAY_of COMDELAY_of MEMDELAY_WRITE_MASK COMDELAY_WRITE_MASK).
#[local] Abbreviation mask_of :=
  (Bus.write_mask_of MEMDELAY_WRITE_MASK COMDELAY_WRITE_MASK).
#[local] Abbreviation coherent := (timings_coherent MEMDELAY_of COMDELAY_of).

(** X20.  [DoReadMemoryControl] moves the register up by the byte offset
    instead of down: the value read at an unaligned offset has its low
    [8 * (offset & 3)] bits clear, so a byte read there is always 0, and
    only an aligned read returns the register. *)
Theorem MEMCTRL_unaligned_read size offset reg (st : BState) :
  m_MEMCTRL_regs st !! Z.to_nat (offset / 4) = Some reg ->
  exists v,
    DoReadMemoryControl size offset st = Some (v, st) /\
    v = (reg * 2 ^ (8 * Z.land offset 3)) mod 2 ^ 32 /\
    (Z.land offset 3 <> 0 -> Truncate8 v = 0) /\
    (Z.land offset 3 = 0 -> 0 <= reg < 2 ^ 32 -> v = reg).
Proof.
  intros Hreg. pose proof (byte_offset_range offset) as Hb.
  exists (u32 (Z.shiftl reg (Z.land offset 3 * 8))).
  split; [|split; [|split]].
  - unfold DoReadMemoryControl, bind, MEMCTRL_reg. rewrite Hreg. reflexivity.
  - unfold u32. rewrite Z.shiftl_mul_pow2 by lia. do 3 f_equal. lia.
  - intros Hne. unfold Truncate8, u32. change 0xFF with (Z.ones 8).
    rewrite <- Z.land_ones by lia. apply Z.bits_inj'. intros i Hi.
    rewrite !Z.land_spec, Z.bits_0, !Z.testbit_ones_nonneg by lia.
    destruct (i <? 8) eqn:E; [|apply andb_false_r].
    apply Z.ltb_lt in E. rewrite Z.shiftl_spec_low by lia. reflexivity.
  - intros -> Hr. change (0 * 8) with 0. rewrite Z.shiftl_0_r. apply u32_small. exact Hr.
Qed.

(** What a write at any offset does, in one formula. *)
Lemma DoWriteMemoryControl_run size offset value old (st : BState) :
  length (m_MEMCTRL_regs st) = MEMCTRL_NUM_REGS ->
  let index := Z.to_nat (Z.land offset (not32 3) / 4) in
  let shifted := u32 (Z.shiftl value (Z.land offset 3 * 8)) in
  let merged := Z.lor (Z.land old (not32 (mask_of index))) (Z.land shifted (mask_of index)) in
  m_MEMCTRL_regs st !! index = Some old ->
  exists bios cdrom spu common,
    <[index := merged]> (m_MEMCTRL_regs st) !! bios_delay_size_index = Some bios /\
    <[index := merged]> (m_MEMCTRL_regs st) !! cdrom_delay_size_index = Some cdrom /\
    <[index := merged]> (m_MEMCTRL_regs st) !! spu_delay_size_index = Some spu /\
    <[index := merged]> (m_MEMCTRL_regs st) !! common_delay_index = Some common /\
    DoWrite size offset value st
    = Some (tt,
            if old =? merged then st
            else set_access_times
                   (CalculateMemoryTiming (MEMDELAY_of bios) (COMDELAY_of common))
                   (CalculateMemoryTiming (MEMDELAY_of cdrom) (COMDELAY_of common))
                   (CalculateMemoryTiming (MEMDELAY_of spu) (COMDELAY_of common))
                   (set_MEMCTRL_regs (<[index := merged]> (m_MEMCTRL_regs st)) st)).
Proof.
  intros Hlen index shifted merged Hold.
  assert (Hlen' : length (<[index := merged]> (m_MEMCTRL_regs st)) = 9%nat)
    by (rewrite length_insert; exact Hlen).
  destruct (lookup_lt_is_Some_2 (<[index := merged]> (m_MEMCTRL_regs st))
              bios_delay_size_index) as [bios Hbios];
    [rewrite Hlen'; unfold bios_delay_size_index; lia|].
  destruct (lookup_lt_is_Some_2 (<[index := merged]> (m_MEMCTRL_regs st))
              cdrom_delay_size_index) as [cdrom Hcdrom];
    [rewrite Hlen'; unfold cdrom_delay_size_index; lia|].
  destruct (lookup_lt_is_Some_2 (<[index := merged]> (m_MEMCTRL_regs st))
              spu_delay_size_index) as [spu Hspu];
    [rewrite Hlen'; unfold spu_delay_size_index; lia|].
  destruct (lookup_lt_is_Some_2 (<[index := merged]> (m_MEMCTRL_regs st))
              common_delay_index) as [common Hcommon];
    [rewrite Hlen'; unfold common_delay_index; lia|].
  exists bios, cdrom, spu, common. repeat (split; [assumption|]).
  unfold DoWriteMemoryControl, FixupUnalignedWordAccessW32. cbv beta iota zeta.
  fold index. fold shifted. fold (mask_of index).
  unfold bind at 1. unfold MEMCTRL_reg at 1. rewrite Hold. fold merged.
  destruct (old =? merged); cbn [negb]; [reflexivity|].
  unfold bind, set_MEMCTRL_reg, RecalculateMemoryTimings, MEMCTRL_reg, bind.
  rewrite Hold. cbn [m_MEMCTRL_regs set_MEMCTRL_regs].
  rewrite Hbios. cbn [m_MEMCTRL_regs set_MEMCTRL_regs].
  rewrite Hcdrom. cbn [m_MEMCTRL_regs set_MEMCTRL_regs].
  rewrite Hspu. cbn [m_MEMCTRL_regs set_MEMCTRL_regs].
  rewrite Hcommon. reflexivity.
Qed.

Lemma aligned_offset_div offset :
  0 <= offset < 2 ^ 32 -> Z.land offset (not32 3) / 4 = offset / 4.
Proof.
  intros Ho.
  assert (E : Z.land offset (not32 3) = Z.shiftl (Z.shiftr offset 2) 2).
  { apply Z.bits_inj'. intros i Hi. rewrite Z.land_spec.
    unfold not32. rewrite Z.lxor_spec.
    change 0xFFFFFFFF with (Z.ones 32). rewrite Z.testbit_ones_nonneg by lia.
    destruct (Z.lt_ge_cases i 2) as [Hlow|Hhigh].
    - rewrite Z.shiftl_spec_low by lia.
      assert (Hi' : i = 0 \/ i = 1) by lia.
      destruct Hi' as [-> | ->]; cbn; apply andb_false_r.
    - rewrite Z.shiftl_spec by lia. rewrite Z.shiftr_spec by lia.
      replace (i - 2 + 2) with i by lia.
      destruct (i <? 32) eqn:E.
      + apply Z.ltb_lt in E.
        replace (Z.testbit 3 i) with false; [apply andb_true_r|].
        symmetry. change 3 with (Z.ones 2). rewrite Z.testbit_ones_nonneg by lia.
        apply Z.ltb_ge. lia.
      + apply Z.ltb_ge in E. rewrite (u32_bits_high offset i Ho E). reflexivity. }
  rewrite E, Z.shiftl_mul_pow2, Z.shiftr_div_pow2 by lia.
  change (2 ^ 2) with 4. apply Z.div_mul. lia.
Qed.

Lemma merged_range old v mask :
  0 <= old < 2 ^ 32 -> 0 <= v < 2 ^ 32 ->
  0 <= Z.lor (Z.land old (not32 mask)) (Z.land v mask) < 2 ^ 32.
Proof.
  intros Ho Hv. rewrite <- (u32_merge old v mask Ho Hv). unfold u32.
  apply Z.mod_pos_bound. lia.
Qed.

Lemma u32_range x : 0 <= u32 x < 2 ^ 32.
Proof. unfold u32. apply Z.mod_pos_bound. lia. Qed.

(** X21.  [DoWriteMemoryControl] ignores the access size: a write at
    offset [4 * i + b] stores [(old & ~mask) | ((value << 8b) & mask)] in
    register [i], exactly as a word write of the shifted value at the
    aligned offset does.  The bits of the register below lane [b] are
    therefore cleared where the mask covers them, not kept.  No other
    register changes, and RAM, the RAM size register and the log are left
    alone. *)
Theorem MEMCTRL_narrow_write size offset value old (st : BState) :
  length (m_MEMCTRL_regs st) = MEMCTRL_NUM_REGS ->
  let index := Z.to_nat (Z.land offset (not32 3) / 4) in
  let shifted := (value * 2 ^ (8 * Z.land offset 3)) mod 2 ^ 32 in
  let merged := Z.lor (Z.land old (not32 (mask_of index))) (Z.land shifted (mask_of index)) in
  m_MEMCTRL_regs st !! index = Some old ->
  exists st',
    DoWrite size offset value st = Some (tt, st') /\
    DoWrite Word (Z.land offset (not32 3)) shifted st = Some (tt, st') /\
    m_MEMCTRL_regs st' = <[index := merged]> (m_MEMCTRL_regs st) /\
    (forall i, 0 <= i < 8 * Z.land offset 3 ->
       Z.testbit merged i = Z.testbit old i && negb (Z.testbit (mask_of index) i)) /\
    m_ram st' = m_ram st /\ m_ram_size_reg st' = m_ram_size_reg st /\ log st' = log st.
Proof.
  intros Hlen index shifted merged Hold.
  pose proof (byte_offset_range offset) as Hb.
  assert (Hshift : shifted = u32 (Z.shiftl value (Z.land offset 3 * 8))).
  { unfold shifted, u32. rewrite Z.shiftl_mul_pow2 by lia. do 3 f_equal. lia. }
  destruct (DoWriteMemoryControl_run size offset value old st Hlen Hold)
    as (bios & cdrom & spu & common & Hbios & Hcdrom & Hspu & Hcommon & Hrun).
  rewrite <- Hshift in Hrun, Hbios, Hcdrom, Hspu, Hcommon.
  fold index in Hrun, Hbios, Hcdrom, Hspu, Hcommon.
  fold merged in Hrun, Hbios, Hcdrom, Hspu, Hcommon.
  eexists. split; [exact Hrun|]. split; [|split; [|split]].
  - unfold DoWriteMemoryControl. rewrite Hshift, Fixup_aligned. rewrite <- Hshift.
    unfold DoWriteMemoryControl in Hrun. unfold FixupUnalignedWordAccessW32 in Hrun.
    rewrite <- Hshift in Hrun. exact Hrun.
  - destruct (old =? merged) eqn:E.
    + apply Z.eqb_eq in E. rewrite <- E. symmetry. apply list_insert_id. exact Hold.
    + reflexivity.
  - intros i Hi. unfold merged. rewrite Z.lor_spec, !Z.land_spec.
    replace (Z.testbit shifted i) with false.
    + cbn [andb]. rewrite orb_false_r. f_equal.
      unfold not32. rewrite Z.lxor_spec.
      change 0xFFFFFFFF with (Z.ones 32). rewrite Z.testbit_ones_nonneg by lia.
      replace (i <? 32) with true by (symmetry; apply Z.ltb_lt; lia).
      apply xorb_true_r.
    + symmetry. unfold shifted. rewrite <- Z.land_ones by lia.
      rewrite Z.land_spec, <- Z.shiftl_mul_pow2 by lia.
      rewrite Z.shiftl_spec_low by lia. reflexivity.
  - destruct (old =? merged); repeat split; reflexivity.
Qed.

(** X22.  [Bus::Reset] leaves nine 32-bit registers and the three cached
    access times computed from them. *)
Theorem Reset_timings_coherent (st : BState) :
  exists st',
    Reset MEMDELAY_of COMDELAY_of st = Some (tt, st') /\
    timings_coherent MEMDELAY_of COMDELAY_of st' /\
    m_MEMCTRL_regs st' = reset_MEMCTRL /\
    m_ram_size_reg st' = 0x00000B88 /\
    m_ram st' = ∅ /\
    m_bios st' = m_bios st /\ m_tty_line_buffer st' = m_tty_line_buffer st.
Proof.
  eexists. split; [reflexivity|]. split; [|repeat split; reflexivity].
  split; [reflexivity|]. split.
  - cbn [m_MEMCTRL_regs set_access_times set_MEMCTRL_regs set_ram_size_reg set_ram].
    unfold reset_MEMCTRL. repeat (apply Forall_cons; split; [lia|]). apply Forall_nil_2.
  - do 4 eexists. repeat split; reflexivity.
Qed.

(** X23.  A write to any of the nine memory-control registers, of any size
    and at any byte offset, keeps the registers 32-bit and the cached
    access times equal to what [CalculateMemoryTiming] gives for the
    registers as they are after the write. *)
Theorem DoWriteMemoryControl_keeps_coherent size offset value (st : BState) :
  timings_coherent MEMDELAY_of COMDELAY_of st ->
  0 <= offset < 0x24 ->
  exists st',
    DoWriteMemoryControl MEMDELAY_of COMDELAY_of MEMDELAY_WRITE_MASK COMDELAY_WRITE_MASK
      size offset value st = Some (tt, st') /\
    timings_coherent MEMDELAY_of COMDELAY_of st'.
Proof.
  intros (Hlen & Hrange & Hcoh) Ho.
  set (index := Z.to_nat (Z.land offset (not32 3) / 4)).
  assert (Hidx : (index < 9)%nat).
  { unfold index. rewrite aligned_offset_div by lia.
    assert (offset / 4 < 9) by (apply Z.div_lt_upper_bound; lia).
    pose proof (Z.div_pos offset 4). lia. }
  destruct (lookup_lt_is_Some_2 (m_MEMCTRL_regs st) index) as [old Hold];
    [rewrite Hlen; exact Hidx|].
  destruct (DoWriteMemoryControl_run size offset value old st Hlen Hold)
    as (bios & cdrom & spu & common & Hbios & Hcdrom & Hspu & Hcommon & Hrun).
  fold index in Hrun, Hbios, Hcdrom, Hspu, Hcommon.
  eexists. split; [exact Hrun|].
  destruct (old =? _); [exact (conj Hlen (conj Hrange Hcoh))|].
  split; [|split].
  - cbn [m_MEMCTRL_regs set_access_times set_MEMCTRL_regs].
    rewrite length_insert. exact Hlen.
  - cbn [m_MEMCTRL_regs set_access_times set_MEMCTRL_regs].
    apply Forall_insert; [exact Hrange|].
    apply merged_range; [|apply u32_range].
    exact (proj1 (Forall_lookup _ _) Hrange _ _ Hold).
  - exists bios, cdrom, spu, common.
    cbn [m_MEMCTRL_regs set_access_times set_MEMCTRL_regs
         m_bios_access_time m_cdrom_access_time m_spu_access_time].
    repeat split; assumption || reflexivity.
Qed.

End MemoryControl.

(** ** The RAM size register *)

(** X24.  The RAM size register is stored whole, whatever the access size:
    a write at offset 0 followed by a read at offset 0 returns the value
    written.  At any other offset the write stores nothing, the read
    returns all ones (the 0 it starts from is overwritten by
    [DoInvalidAccess]), and each of the two logs one error line. *)
Theorem MEMCTRL2_write_then_read size size' offset value (st : BState) :
  exists st',
    (DoWriteMemoryControl2 size offset value >> DoReadMemoryControl2 size' offset)%comp st
    = Some (if offset =? 0 then value else 0xFFFFFFFF, st') /\
    m_ram_size_reg st' = (if offset =? 0 then value else m_ram_size_reg st) /\
    length (log st') = ((if (offset =? 0)%Z then 0 else 2) + length (log st))%nat /\
    m_ram st' = m_ram st /\ m_MEMCTRL_regs st' = m_MEMCTRL_regs st.
Proof.
  unfold DoWriteMemoryControl2, DoReadMemoryControl2.
  destruct (offset =? 0) eqn:E.
  - eexists. split; [reflexivity|]. repeat split; reflexivity.
  - unfold DoInvalidAccess, Log_ErrorPrint, bind, ret. cbv beta iota zeta.
    eexists. split; [reflexivity|]. cbn [m_ram_size_reg log set_log m_ram m_MEMCTRL_regs].
    repeat split; try reflexivity.
    rewrite !length_app. cbn [length]. lia.
Qed.

(** ** Patching the BIOS image *)

Lemma store_le_frame n : forall (m : gmap Z Z) off v k,
  k < off \/ off + Z.of_nat n <= k -> store_le m off n v !! k = m !! k.
Proof.
  induction n as [|n IH]; intros m off v k Hk; cbn [store_le]; [reflexivity|].
  rewrite IH by lia. apply lookup_insert_ne. lia.
Qed.

Lemma load_store_le n : forall (m : gmap Z Z) off v,
  load_le (store_le m off n v) off n = v mod 2 ^ (8 * Z.of_nat n).
Proof.
  induction n as [|n IH]; intros m off v.
  - cbn [load_le]. change (8 * Z.of_nat 0) with 0. rewrite Z.pow_0_r, Z.mod_1_r. reflexivity.
  - cbn [store_le load_le]. rewrite IH. unfold ram_byte.
    rewrite store_le_frame by lia. rewrite lookup_insert_eq.
    unfold default. cbn [from_option]. unfold id.
    rewrite <- !Z.land_ones by lia. change 0xFF with (Z.ones 8).
    apply Z.bits_inj'. intros i Hi.
    rewrite Z.lor_spec, !Z.land_spec, !Z.testbit_ones_nonneg by lia.
    destruct (Z.lt_ge_cases i 8) as [Hlow|Hhigh].
    + rewrite Z.shiftl_spec_low by lia.
      replace (i <? 8) with true by (symmetry; apply Z.ltb_lt; lia).
      replace (i <? 8 * Z.of_nat (S n)) with true by (symmetry; apply Z.ltb_lt; lia).
      rewrite orb_false_r. reflexivity.
    + rewrite Z.shiftl_spec by lia.
      rewrite Z.land_spec, Z.shiftr_spec, Z.testbit_ones_nonneg by lia.
      replace (i - 8 + 8) with i by lia.
      replace (i <? 8) with false by (symmetry; apply Z.ltb_ge; lia).
      rewrite andb_false_r. cbn [orb]. f_equal.
      destruct (i <? 8 * Z.of_nat (S n)) eqn:E.
      * apply Z.ltb_lt in E. apply Z.ltb_lt. lia.
      * apply Z.ltb_ge in E. apply Z.ltb_ge. lia.
Qed.

(** X25.  [PatchBIOS] rewrites one little-endian word of the image: the
    word at the patched offset becomes [(existing & ~mask) | value] (the
    value is not masked), which is [value] under the default mask, and no
    byte outside the four is touched; RAM is left alone. *)
Theorem PatchBIOS_patches_one_word address value mask (st : BState) :
  let phys_address := Z.land address 0x1FFFFFFF in
  let offset := phys_address - BIOS_BASE in
  let existing := load_le (m_bios st) offset 4 in
  BIOS_BASE <= phys_address ->
  phys_address + 4 <= BIOS_BASE + BIOS_SIZE ->
  0 <= value < 2 ^ 32 ->
  exists st',
    PatchBIOS address value mask st = Some (tt, st') /\
    load_le (m_bios st') offset 4 = (Z.lor (Z.land existing (not32 mask)) value) mod 2 ^ 32 /\
    (mask = 0xFFFFFFFF -> load_le (m_bios st') offset 4 = value) /\
    (forall k, k < offset \/ offset + 4 <= k -> m_bios st' !! k = m_bios st !! k) /\
    m_ram st' = m_ram st /\ m_MEMCTRL_regs st' = m_MEMCTRL_regs st.
Proof.
  intros phys_address offset existing Hlow Hhigh Hv.
  unfold BIOS_BASE, BIOS_SIZE in *.
  assert (Hoff : u32 (phys_address - 0x1FC00000) = offset).
  { apply u32_small. unfold offset, BIOS_BASE. lia. }
  unfold PatchBIOS. fold phys_address. unfold BIOS_BASE, BIOS_SIZE. rewrite Hoff.
  replace (0x1FC00000 <=? phys_address) with true by (symmetry; apply Z.leb_le; lia).
  replace (offset <? 0x80000) with true
    by (symmetry; apply Z.ltb_lt; unfold offset, BIOS_BASE; lia).
  replace (offset + 4 <=? 0x80000) with true
    by (symmetry; apply Z.leb_le; unfold offset, BIOS_BASE; lia).
  cbn [andb]. fold existing. eexists. split; [reflexivity|].
  cbn [m_bios set_bios m_ram m_MEMCTRL_regs].
  split; [|split; [|split]].
  - rewrite load_store_le. reflexivity.
  - intros ->. rewrite load_store_le.
    change (not32 0xFFFFFFFF) with 0. rewrite Z.land_0_r, Z.lor_0_l.
    apply Z.mod_small. exact Hv.
  - intros k Hk. apply store_le_frame. exact Hk.
  - split; reflexivity.
Qed.

(** ** The expansion ROM *)

Lemma rom_le_in_bounds n : forall (rom : list Z) off,
  (off + n <= length rom)%nat ->
  Forall (fun b => 0 <= b < 256) rom ->
  exists v, rom_le rom off n = Some v /\ 0 <= v < 2 ^ (8 * Z.of_nat n).
Proof.
  induction n as [|n IH]; intros rom off Hlen Hrom.
  - exists 0. split; [reflexivity|]. cbn. lia.
  - destruct (lookup_lt_is_Some_2 rom off) as [b Hb]; [lia|].
    destruct (IH rom (S off)) as (rest & Hrest & Hrange); [lia | exact Hrom|].
    exists (Z.lor b (Z.shiftl rest 8)). cbn [rom_le]. rewrite Hb, Hrest.
    split; [reflexivity|].
    pose proof (proj1 (Forall_lookup _ _) Hrom _ _ Hb) as Hbyte. cbv beta in Hbyte.
    apply high_bits_clear; [lia|]. intros i Hi.
    rewrite Z.lor_spec.
    rewrite (proj1 (high_bits_clear 8 b ltac:(lia)) Hbyte i) by lia.
    rewrite Z.shiftl_spec by lia.
    rewrite (proj1 (high_bits_clear (8 * Z.of_nat n) rest ltac:(lia)) Hrange (i - 8)) by lia.
    reflexivity.
Qed.

Lemma transfer_size_bytes size :
  u32 (Z.shiftl 1 (size_index size)) = Z.of_nat (size_bytes size).
Proof. destruct size; reflexivity. Qed.

(** X26.  With an offset that leaves room for a word below [2^32],
    [DoReadEXP1] never reads outside the ROM image and changes nothing:
    without a ROM it returns all ones; with one, offset [0x20018] reads 1
    whatever the size and the length of the image, a transfer that ends
    past the image reads 0, and any other transfer returns a value that
    fits the access size. *)
Theorem DoReadEXP1_stays_in_ROM size offset (st : BState) :
  0 <= offset -> offset + 4 < 2 ^ 32 ->
  Forall (fun b => 0 <= b < 256) (m_exp1_rom st) ->
  exists v,
    DoReadEXP1 size offset st = Some (v, st) /\
    (m_exp1_rom st = [] -> v = 0xFFFFFFFF) /\
    (m_exp1_rom st <> [] -> offset = 0x20018 -> v = 1) /\
    (m_exp1_rom st <> [] -> offset <> 0x20018 ->
     Z.of_nat (length (m_exp1_rom st)) < offset + Z.of_nat (size_bytes size) -> v = 0) /\
    (m_exp1_rom st <> [] -> 0 <= v < 2 ^ (8 * Z.of_nat (size_bytes size))).
Proof.
  intros Ho Hhi Hrom. unfold DoReadEXP1. cbv zeta.
  rewrite transfer_size_bytes.
  assert (Hsz : (1 <= size_bytes size <= 4)%nat) by (destruct size; cbn; lia).
  assert (Hpow : 256 <= 2 ^ (8 * Z.of_nat (size_bytes size)))
    by (change 256 with (2 ^ 8); apply Z.pow_le_mono_r; lia).
  rewrite (u32_small (offset + Z.of_nat (size_bytes size))) by lia.
  destruct (length (m_exp1_rom st) =? 0)%nat eqn:Elen.
  - apply Nat.eqb_eq, nil_length_inv in Elen.
    exists 0xFFFFFFFF. split; [reflexivity|].
    repeat split; try reflexivity; intros; congruence.
  - apply Nat.eqb_neq in Elen.
    assert (Hne : m_exp1_rom st <> []) by (intros E; apply Elen; rewrite E; reflexivity).
    destruct (offset =? 0x20018) eqn:Es.
    + apply Z.eqb_eq in Es. exists 1. split; [reflexivity|].
      split; [|split; [|split]]; intros; try reflexivity; try congruence. lia.
    + apply Z.eqb_neq in Es.
      destruct (Z.of_nat (length (m_exp1_rom st)) <? offset + Z.of_nat (size_bytes size)) eqn:El.
      * exists 0. split; [reflexivity|].
        split; [|split; [|split]]; intros; try reflexivity; try congruence. lia.
      * apply Z.ltb_ge in El.
        destruct (rom_le_in_bounds (size_bytes size) (m_exp1_rom st) (Z.to_nat offset))
          as (v & Hv & Hrange); [lia | exact Hrom|].
        rewrite Hv.
        assert (Hz : ZeroExtend32 v = v).
        { apply u32_small. split; [lia|].
          apply Z.lt_le_trans with (2 ^ (8 * Z.of_nat (size_bytes size))); [lia|].
          apply Z.pow_le_mono_r; lia. }
        exists v. split; [destruct size; rewrite ?Hz; reflexivity|].
        split; [|split; [|split]]; intros; try congruence; try lia.
Qed.

(** X27.  Inside the image and away from offset [0x20018], a word read
    of the expansion ROM is the two halfword reads it covers, low half
    first. *)
Theorem DoReadEXP1_word_of_halfwords offset (st : BState) :
  0 <= offset ->
  offset + 4 <= Z.of_nat (length (m_exp1_rom st)) ->
  Z.of_nat (length (m_exp1_rom st)) < 2 ^ 32 ->
  Forall (fun b => 0 <= b < 256) (m_exp1_rom st) ->
  offset <> 0x20018 -> offset + 2 <> 0x20018 ->
  exists lo hi,
    DoReadEXP1 HalfWord offset st = Some (lo, st) /\
    DoReadEXP1 HalfWord (offset + 2) st = Some (hi, st) /\
    DoReadEXP1 Word offset st = Some (Z.lor lo (Z.shiftl hi 16), st).
Proof.
  intros Ho Hlen Hmax Hrom Hs0 Hs2.
  set (o := Z.to_nat offset).
  destruct (lookup_lt_is_Some_2 (m_exp1_rom st) o) as [b0 H0]; [lia|].
  destruct (lookup_lt_is_Some_2 (m_exp1_rom st) (S o)) as [b1 H1]; [lia|].
  destruct (lookup_lt_is_Some_2 (m_exp1_rom st) (S (S o))) as [b2 H2]; [lia|].
  destruct (lookup_lt_is_Some_2 (m_exp1_rom st) (S (S (S o)))) as [b3 H3]; [lia|].
  pose proof (proj1 (Forall_lookup _ _) Hrom _ _ H0) as R0.
  pose proof (proj1 (Forall_lookup _ _) Hrom _ _ H1) as R1.
  pose proof (proj1 (Forall_lookup _ _) Hrom _ _ H2) as R2.
  pose proof (proj1 (Forall_lookup _ _) Hrom _ _ H3) as R3.
  cbv beta in R0, R1, R2, R3.
  assert (Hhalf : forall a b, 0 <= a < 256 -> 0 <= b < 256 ->
            ZeroExtend32 (Z.lor a (Z.shiftl (Z.lor b (Z.shiftl 0 8)) 8))
            = Z.lor a (Z.shiftl b 8)).
  { intros a b Ha Hb. rewrite Z.shiftl_0_l, Z.lor_0_r. apply u32_small.
    apply high_bits_clear; [lia|]. intros i Hi. rewrite Z.lor_spec.
    rewrite (proj1 (high_bits_clear 8 a ltac:(lia)) Ha i) by lia.
    rewrite Z.shiftl_spec by lia.
    rewrite (proj1 (high_bits_clear 8 b ltac:(lia)) Hb (i - 8)) by lia. reflexivity. }
  assert (Hne : (length (m_exp1_rom st) =? 0)%nat = false) by (apply Nat.eqb_neq; lia).
  exists (Z.lor b0 (Z.shiftl b1 8)), (Z.lor b2 (Z.shiftl b3 8)).
  unfold DoReadEXP1. cbv zeta. rewrite Hne, !transfer_size_bytes.
  replace (offset =? 0x20018) with false by (symmetry; apply Z.eqb_neq; exact Hs0).
  replace (offset + 2 =? 0x20018) with false by (symmetry; apply Z.eqb_neq; exact Hs2).
  cbn [size_bytes].
  rewrite !u32_small by lia.
  replace (Z.of_nat (length (m_exp1_rom st)) <? offset + Z.of_nat 2) with false
    by (symmetry; apply Z.ltb_ge; lia).
  replace (Z.of_nat (length (m_exp1_rom st)) <? offset + 2 + Z.of_nat 2) with false
    by (symmetry; apply Z.ltb_ge; lia).
  replace (Z.of_nat (length (m_exp1_rom st)) <? offset + Z.of_nat 4) with false
    by (symmetry; apply Z.ltb_ge; lia).
  replace (Z.to_nat (offset + 2)) with (S (S o)) by (unfold o; lia).
  fold o. cbn [rom_le]. rewrite H0, H1, H2, H3.
  rewrite !Hhalf by assumption.
  split; [reflexivity|]. split; [reflexivity|].
  do 2 f_equal. rewrite Z.shiftl_0_l, Z.lor_0_r.
  rewrite !Z.shiftl_lor, !Z.shiftl_shiftl by lia. cbn [Z.add Pos.add Pos.succ].
  rewrite !Z.lor_assoc. reflexivity.
Qed.

(** ** The TTY port *)

Lemma string_app_nil (s : string) : (s ++ "")%string = s.
Proof. induction s as [|c s IH]; [reflexivity | exact (f_equal (String c) IH)]. Qed.

Lemma string_app_one (s : string) c rest :
  ((s ++ String c "") ++ rest)%string = (s ++ String c rest)%string.
Proof. induction s as [|c' s IH]; [reflexivity | exact (f_equal (String c') IH)]. Qed.

Lemma set_tty_line_buffer_same (st : BState) :
  set_tty_line_buffer (m_tty_line_buffer st) st = st.
Proof. destruct st; reflexivity. Qed.

Lemma tty_write_all_run bytes : forall st : BState,
  Forall (fun b => b <> 10) bytes ->
  tty_write_all bytes st
  = Some ([], set_tty_line_buffer (m_tty_line_buffer st ++ tty_chars bytes) st).
Proof.
  induction bytes as [|b bytes IH]; intros st Hb.
  - cbn [tty_write_all tty_chars]. rewrite string_app_nil, set_tty_line_buffer_same.
    reflexivity.
  - apply Forall_cons in Hb as [Hb Hrest].
    cbn [tty_write_all tty_chars]. unfold bind at 1. unfold DoWriteEXP2.
    change (0x23 =? 0x23) with true. cbv iota.
    destruct (b =? 13) eqn:E13.
    + unfold ret at 1. unfold bind. rewrite (IH st Hrest). reflexivity.
    + replace (b =? 10) with false by (symmetry; apply Z.eqb_neq; exact Hb).
      unfold bind. rewrite (IH _ Hrest). cbn [m_tty_line_buffer set_tty_line_buffer].
      rewrite string_app_one. reflexivity.
Qed.

(** X28.  Bytes written to the TTY port [0x23] are held back until a line
    feed arrives: the line feed logs the characters written since the last
    one as a single line, skipping every carriage return and cutting the
    line at the first NUL, logs nothing when no character is pending, and
    leaves the buffer empty.  The access size of the writes plays no
    part. *)
Theorem TTY_line_is_logged_at_line_feed size bytes (st : BState) :
  Forall (fun b => b <> 10) bytes ->
  let line := (m_tty_line_buffer st ++ tty_chars bytes)%string in
  (tty_write_all bytes >> DoWriteEXP2 size 0x23 10)%comp st
  = Some (if (String.length line =? 0)%nat then []
          else [Info ("TTY: " ++ c_str line)%string],
          set_tty_line_buffer EmptyString st).
Proof.
  intros Hb line. unfold bind. rewrite (tty_write_all_run bytes st Hb).
  unfold DoWriteEXP2. change (0x23 =? 0x23) with true.
  change (10 =? 13) with false. change (10 =? 10) with true. cbv iota.
  cbn [m_tty_line_buffer set_tty_line_buffer]. reflexivity.
Qed.

End BusMore.

(** ** The further timer statements at concrete inputs *)

Section TimersMoreExamples.

Import Timers.

Lemma reset_state_ok : state_ok reset_state.
Proof.
  split; [reflexivity|]. split; [|cbn; lia].
  repeat (apply Forall_cons; split;
          [unfold counter_ok; cbn; repeat split; (lia || discriminate)|]).
  apply Forall_nil_2.
Qed.

Lemma periodic_state_ok : state_ok periodic_state.
Proof.
  split; [reflexivity|]. split; [|cbn; lia].
  repeat (apply Forall_cons; split;
          [unfold counter_ok; cbn; repeat split; (lia || discriminate)|]).
  apply Forall_nil_2.
Qed.

Lemma gated_state_ok : state_ok gated_state.
Proof.
  split; [reflexivity|]. split; [|cbn; lia].
  repeat (apply Forall_cons; split;
          [unfold counter_ok; cbn; repeat split; (lia || discriminate)|]).
  apply Forall_nil_2.
Qed.

Lemma Execute_keeps_ranges_at_periodic :
  state_ok periodic_state /\
  0 <= 250 /\ 250 + 7 < 2 ^ 31 /\
  exists st', Execute 4 250 periodic_state = Some (tt, st') /\ state_ok st'.
Proof.
  split; [exact periodic_state_ok|]. split; [lia|]. split; [lia|].
  apply (Execute_keeps_ranges 4 250 periodic_state); [exact periodic_state_ok | lia | lia].
Defined.

Lemma SetGate_same_level_is_noop_at_gated :
  m_states gated_state !! 1%nat = Some gated_counter /\
  (gate gated_counter = true -> SetGate 1 true gated_state = Some (tt, gated_state)) /\
  exists st',
    SetGate 1 true gated_state = Some (tt, st') /\
    SetGate 1 true st' = Some (tt, st').
Proof.
  split; [reflexivity|].
  apply (SetGate_same_level_is_noop 1%nat true gated_state gated_counter); reflexivity.
Defined.

Lemma SetGate_without_sync_at_reset :
  m_states reset_state !! 0%nat = Some reset_counter /\
  CounterMode.sync_enable (mode reset_counter) = false /\
  exists st' cs',
    SetGate 0 true reset_state = Some (tt, st') /\
    m_states st' !! 0%nat = Some cs' /\
    gate cs' = true /\
    mode cs' = mode reset_counter /\ counter cs' = counter reset_counter /\
    target cs' = target reset_counter /\
    counting_enabled cs' = counting_enabled reset_counter /\
    external_counting_enabled cs' = external_counting_enabled reset_counter /\
    use_external_clock cs' = use_external_clock reset_counter /\
    irq_done cs' = irq_done reset_counter /\
    irq_requests st' = irq_requests reset_state.
Proof.
  split; [reflexivity|]. split; [reflexivity|].
  apply (SetGate_without_sync 0%nat true reset_state reset_counter); reflexivity.
Defined.

Lemma SetGate_reset_and_run_at_gated :
  m_states gated_state !! 1%nat = Some gated_counter /\
  CounterMode.sync_enable (mode gated_counter) = true /\
  CounterMode.sync_mode (mode gated_counter) = 2 /\
  exists st' cs',
    SetGate 1 (negb (gate gated_counter)) gated_state = Some (tt, st') /\
    m_states st' !! 1%nat = Some cs' /\
    gate cs' = negb (gate gated_counter) /\
    mode cs' = mode gated_counter /\ target cs' = target gated_counter /\
    counting_enabled cs' = negb (gate gated_counter) /\
    external_counting_enabled cs'
    = (use_external_clock gated_counter && negb (gate gated_counter)) /\
    counter cs' = (if gate gated_counter then counter gated_counter else 0).
Proof.
  split; [reflexivity|]. split; [reflexivity|]. split; [reflexivity|].
  apply (SetGate_reset_and_run 1%nat gated_state gated_counter); reflexivity.
Defined.

Lemma SetGate_free_run_once_at_free_run :
  m_states free_run_state !! 1%nat = Some free_run_counter /\
  CounterMode.sync_enable (mode free_run_counter) = true /\
  CounterMode.sync_mode (mode free_run_counter) = 3 /\
  gate free_run_counter = false /\
  exists st' cs',
    SetGate 1 true free_run_state = Some (tt, st') /\
    m_states st' !! 1%nat = Some cs' /\
    CounterMode.sync_enable (mode cs') = false /\
    (forall i, i <> 0 -> Z.testbit (mode cs') i = Z.testbit (mode free_run_counter) i) /\
    counting_enabled cs' = true /\
    counter cs' = counter free_run_counter /\ target cs' = target free_run_counter /\
    forall b,
      SetGate 1 b st'
      = Some (tt, with_states (<[1%nat := set_gate b cs']> (m_states st')) st').
Proof.
  split; [reflexivity|]. split; [reflexivity|]. split; [reflexivity|].
  split; [reflexivity|].
  apply (SetGate_free_run_once 1%nat free_run_state free_run_counter); reflexivity.
Defined.

Lemma target_port_round_trip_at_reset :
  port_offset_of 0x18 = 0x08 /\
  m_states reset_state !! timer_index_of 0x18 = Some reset_counter /\
  exists st',
    WriteRegister 4 (fun st => st) 0x18 0x12345 reset_state = Some (tt, st') /\
    ReadRegister (fun st => st) 0x18 st' = Some (Z.land 0x12345 0xFFFF, st').
Proof.
  split; [reflexivity|]. split; [reflexivity|].
  apply (target_port_round_trip 4 (fun st => st) 0x18 0x12345 reset_state reset_counter);
    reflexivity.
Defined.

Lemma counter_port_round_trip_at_reset :
  port_offset_of 0x20 = 0x00 /\
  m_states reset_state !! timer_index_of 0x20 = Some reset_counter /\
  exists st',
    WriteRegister 4 (fun st => st) 0x20 0x12345 reset_state = Some (tt, st') /\
    (forall cs', m_states st' !! timer_index_of 0x20 = Some cs' ->
       ReadRegister (fun st => st) 0x20 st' = Some (counter cs', st')) /\
    (st' = st' ->
       ReadRegister (fun st => st) 0x20 st' = Some (Z.land 0x12345 0xFFFF, st')).
Proof.
  split; [reflexivity|]. split; [reflexivity|].
  apply (counter_port_round_trip 4 (fun st => st) 0x20 0x12345 reset_state reset_counter);
    reflexivity.
Defined.


Lemma register_access_keeps_ranges_at_reset :
  (forall s, state_ok s -> state_ok ((fun st => st) s)) /\
  state_ok reset_state /\
  (timer_index_of 0x14 < NUM_TIMERS)%nat /\
  (exists st', WriteRegister 4 (fun st => st) 0x14 0x58 reset_state = Some (tt, st') /\
               state_ok st') /\
  (exists v st', ReadRegister (fun st => st) 0x14 reset_state = Some (v, st') /\
                 state_ok st' /\ 0 <= v < 2 ^ 32).
Proof.
  assert (Hs : forall s, state_ok s -> state_ok ((fun st => st) s)) by (intros s H; exact H).
  assert (Ht : (timer_index_of 0x14 < NUM_TIMERS)%nat) by (vm_compute; lia).
  split; [exact Hs|]. split; [exact reset_state_ok|]. split; [exact Ht|].
  exact (register_access_keeps_ranges 4 (fun st => st) 0x14 0x58 reset_state
           Hs reset_state_ok Ht).
Defined.

Lemma Reset_and_SetGate_ranges_at_gated :
  length (m_states gated_state) = NUM_TIMERS /\
  (exists st',
     Reset gated_state = Some (tt, st') /\ state_ok st' /\
     irq_requests st' = irq_requests gated_state /\
     Forall (fun cs => mode cs = 0 /\ counter cs = 0 /\ target cs = 0 /\
                       counting_enabled cs = true /\
                       external_counting_enabled cs = false /\ irq_done cs = false)
            (m_states st')) /\
  (state_ok gated_state ->
   forall t b, (t < NUM_TIMERS)%nat ->
     exists st', SetGate t b gated_state = Some (tt, st') /\ state_ok st').
Proof.
  split; [reflexivity|].
  apply (Reset_and_SetGate_ranges gated_state). reflexivity.
Defined.

Lemma one_shot_raises_at_most_once_at_100 :
  [mkCounterState 0x410 0 100 false false false true false; reset_counter; reset_counter]
    !! 0%nat = Some (mkCounterState 0x410 0 100 false false false true false) /\
  CounterMode.irq_repeat (mode (mkCounterState 0x410 0 100 false false false true false))
  = false /\
  exists st',
    Execute_all 4 [150; 150; 150] one_shot_state = Some (tt, st') /\
    (irq_count (4 + Z.of_nat 0) (irq_requests st')
     <= irq_count (4 + Z.of_nat 0) []
        + (if irq_done (mkCounterState 0x410 0 100 false false false true false)
           then 0 else 1))%nat.
Proof.
  split; [reflexivity|]. split; [reflexivity|].
  apply (one_shot_raises_at_most_once 4 [150; 150; 150] 0%nat
           (mkCounterState 0x410 0 100 false false false true false)
           reset_counter reset_counter 0 [] 0
           (mkCounterState 0x410 0 100 false false false true false)); reflexivity.
Defined.

Lemma counter_after_several_calls_at_100 :
  [periodic_100; reset_counter; reset_counter] !! 0%nat = Some periodic_100 /\
  counting_enabled periodic_100 = true /\
  external_counting_enabled periodic_100 = false /\
  0 <= counter periodic_100 < 0x10000 /\
  0 < wrap_modulus periodic_100 <= 0xFFFF /\
  Forall (fun n => 0 <= n < 2 ^ 31) [30; 80; 45] /\
  exists st' cs',
    Execute_all 4 [30; 80; 45] periodic_state = Some (tt, st') /\
    m_states st' !! 0%nat = Some cs' /\
    counter cs' = (counter periodic_100 + total_ticks [30; 80; 45]) mod wrap_modulus periodic_100.
Proof.
  assert (Hb : Forall (fun n => 0 <= n < 2 ^ 31) [30; 80; 45])
    by (repeat (apply Forall_cons; split; [lia|]); apply Forall_nil_2).
  split; [reflexivity|]. split; [reflexivity|]. split; [reflexivity|].
  split; [cbn; lia|]. split; [vm_compute; split; [reflexivity | discriminate]|].
  split; [exact Hb|].
  apply (counter_after_several_calls 4 0%nat 30 [80; 45]
           periodic_100 reset_counter reset_counter 0 [] 0 periodic_100);
    [reflexivity | reflexivity | reflexivity | cbn; lia
     | vm_compute; split; [reflexivity | discriminate] | exact Hb].
Defined.

Lemma timer2_after_several_calls_at_div8 :
  external_counting_enabled timer2_div8 = true /\
  0 <= 5 < 8 /\
  0 <= counter timer2_div8 < 0x10000 /\
  0 < wrap_modulus timer2_div8 <= 0xFFFF /\
  Forall (fun n => 0 <= n /\ n + 7 < 2 ^ 31) [13; 6; 100] /\
  exists st' cs',
    Execute_all 4 [13; 6; 100] (mkState [reset_counter; reset_counter; timer2_div8] 5 [] 0)
    = Some (tt, st') /\
    m_states st' !! 2%nat = Some cs' /\
    m_sysclk_div_8_carry st' = (5 + total_ticks [13; 6; 100]) mod 8 /\
    counter cs'
    = (counter timer2_div8 + (5 + total_ticks [13; 6; 100]) / 8) mod wrap_modulus timer2_div8.
Proof.
  assert (Hb : Forall (fun n => 0 <= n /\ n + 7 < 2 ^ 31) [13; 6; 100])
    by (repeat (apply Forall_cons; split; [lia|]); apply Forall_nil_2).
  split; [reflexivity|]. split; [lia|]. split; [cbn; lia|].
  split; [vm_compute; split; [reflexivity | discriminate]|].
  split; [exact Hb|].
  apply (timer2_after_several_calls 4 13 [6; 100] reset_counter reset_counter timer2_div8
           5 [] 0);
    [reflexivity | lia | cbn; lia | vm_compute; split; [reflexivity | discriminate]
     | exact Hb].
Defined.

Lemma Execute_leaves_idle_timer_at_gated :
  [reset_counter; gated_counter; reset_counter] !! 1%nat = Some gated_counter /\
  not_driven 1 gated_counter /\
  exists st',
    Execute_all 4 [100; 200] gated_state = Some (tt, st') /\
    m_states st' !! 1%nat = Some gated_counter /\
    irq_count (4 + Z.of_nat 1) (irq_requests st') = irq_count (4 + Z.of_nat 1) [].
Proof.
  assert (Hn : not_driven 1 gated_counter) by (left; split; reflexivity).
  split; [reflexivity|]. split; [exact Hn|].
  apply (Execute_leaves_idle_timer 4 [100; 200] 1%nat
           reset_counter gated_counter reset_counter 0 [] 0 gated_counter);
    [reflexivity | exact Hn].
Defined.

Lemma UpdateDowncount_bounds_at_periodic :
  state_ok periodic_state /\
  exists ticks,
    UpdateDowncount periodic_state
    = Some (tt, mkState (m_states periodic_state) (m_sysclk_div_8_carry periodic_state)
                  (irq_requests periodic_state) ticks) /\
    1 <= ticks <= TickCount_max /\
    forall t cs,
      m_states periodic_state !! t = Some cs ->
      counting_enabled cs = true -> external_counting_enabled cs = false ->
      CounterMode.irq_at_target (mode cs) = true ->
      counter cs < target cs ->
      ticks <= target cs - counter cs.
Proof.
  split; [exact periodic_state_ok|].
  apply (UpdateDowncount_bounds periodic_state). exact periodic_state_ok.
Defined.

End TimersMoreExamples.

(** ** The further bus statements at concrete inputs *)

Section BusMoreExamples.

Import Bus.

Lemma example_fields_in_range : fields_in_range bios_delay_example common_delay_example.
Proof. unfold fields_in_range, u8_range. cbn. lia. Qed.

Lemma timed_bus_coherent :
  timings_coherent MEMDELAY_example_of COMDELAY_example_of timed_bus.
Proof.
  split; [reflexivity|]. split.
  - cbn. unfold reset_MEMCTRL. repeat (apply Forall_cons; split; [lia|]). apply Forall_nil_2.
  - do 4 eexists. repeat split; reflexivity.
Qed.

Lemma rom_example_bytes : Forall (fun b => 0 <= b < 256) (m_exp1_rom bus_with_rom).
Proof. cbn. unfold rom_example. repeat (apply Forall_cons; split; [lia|]). apply Forall_nil_2. Qed.

Lemma CalculateMemoryTiming_bounds_example :
  fields_in_range bios_delay_example common_delay_example /\
  let '(byte_time, halfword_time, word_time) :=
    CalculateMemoryTiming bios_delay_example common_delay_example in
  6 <= byte_time /\ byte_time <= halfword_time /\ halfword_time <= word_time /\
  word_time < 4096 /\
  (data_bus_16bit bios_delay_example = true -> halfword_time = byte_time).
Proof.
  split; [exact example_fields_in_range|].
  apply (CalculateMemoryTiming_bounds bios_delay_example common_delay_example).
  exact example_fields_in_range.
Defined.

Lemma DoWriteDMA_is_the_fixup_at_length_register :
  0 <= 0x04 < 2 ^ 32 /\
  0 <= 0x1234 < 2 ^ 32 /\
  DoWriteDMA (fun _ _ (d : unit) => d) HalfWord 0x04 0x1234 reset_bus
  = dma_write (fun _ _ (d : unit) => d)
      (fst (FixupUnalignedWordAccessW32 0x04 0x1234))
      (snd (FixupUnalignedWordAccessW32 0x04 0x1234)) reset_bus.
Proof.
  split; [lia|]. split; [lia|].
  apply (DoWriteDMA_is_the_fixup (fun _ _ (d : unit) => d) HalfWord 0x04 0x1234 reset_bus);
    lia.
Defined.

Lemma MEMCTRL_unaligned_read_at_reset :
  m_MEMCTRL_regs reset_bus !! Z.to_nat (0x21 / 4) = Some 0x00031125 /\
  exists v,
    DoReadMemoryControl Byte 0x21 reset_bus = Some (v, reset_bus) /\
    v = (0x00031125 * 2 ^ (8 * Z.land 0x21 3)) mod 2 ^ 32 /\
    (Z.land 0x21 3 <> 0 -> Truncate8 v = 0) /\
    (Z.land 0x21 3 = 0 -> 0 <= 0x00031125 < 2 ^ 32 -> v = 0x00031125).
Proof.
  split; [reflexivity|].
  apply (MEMCTRL_unaligned_read Byte 0x21 0x00031125 reset_bus). reflexivity.
Defined.

Lemma MEMCTRL_narrow_write_at_reset :
  length (m_MEMCTRL_regs reset_bus) = MEMCTRL_NUM_REGS /\
  m_MEMCTRL_regs reset_bus !! Z.to_nat (Z.land 0x21 (not32 3) / 4) = Some 0x00031125 /\
  forall MEMDELAY_of COMDELAY_of,
  let index := Z.to_nat (Z.land 0x21 (not32 3) / 4) in
  let shifted := (0xAB * 2 ^ (8 * Z.land 0x21 3)) mod 2 ^ 32 in
  let merged := Z.lor (Z.land 0x00031125 (not32 (write_mask_of 0x2F1FFFFF 0x0003FFFF index)))
                      (Z.land shifted (write_mask_of 0x2F1FFFFF 0x0003FFFF index)) in
  exists st',
    DoWriteMemoryControl MEMDELAY_of COMDELAY_of 0x2F1FFFFF 0x0003FFFF
      Byte 0x21 0xAB reset_bus = Some (tt, st') /\
    DoWriteMemoryControl MEMDELAY_of COMDELAY_of 0x2F1FFFFF 0x0003FFFF
      Word (Z.land 0x21 (not32 3)) shifted reset_bus = Some (tt, st') /\
    m_MEMCTRL_regs st' = <[index := merged]> (m_MEMCTRL_regs reset_bus) /\
    (forall i, 0 <= i < 8 * Z.land 0x21 3 ->
       Z.testbit merged i
       = Z.testbit 0x00031125 i
         && negb (Z.testbit (write_mask_of 0x2F1FFFFF 0x0003FFFF index) i)) /\
    m_ram st' = m_ram reset_bus /\ m_ram_size_reg st' = m_ram_size_reg reset_bus /\
    log st' = log reset_bus.
Proof.
  split; [reflexivity|]. split; [reflexivity|].
  intros MEMDELAY_of COMDELAY_of.
  apply (MEMCTRL_narrow_write MEMDELAY_of COMDELAY_of 0x2F1FFFFF 0x0003FFFF
           Byte 0x21 0xAB 0x00031125 reset_bus); reflexivity.
Defined.

Lemma DoWriteMemoryControl_keeps_coherent_at_reset :
  timings_coherent MEMDELAY_example_of COMDELAY_example_of timed_bus /\
  0 <= 0x12 < 0x24 /\
  exists st',
    DoWriteMemoryControl MEMDELAY_example_of COMDELAY_example_of
      0x2F1FFFFF 0x0003FFFF HalfWord 0x12 0xFFFF timed_bus = Some (tt, st') /\
    timings_coherent MEMDELAY_example_of COMDELAY_example_of st'.
Proof.
  split; [exact timed_bus_coherent|]. split; [lia|].
  apply (DoWriteMemoryControl_keeps_coherent
           MEMDELAY_example_of COMDELAY_example_of
           0x2F1FFFFF 0x0003FFFF HalfWord 0x12 0xFFFF timed_bus);
    [exact timed_bus_coherent | lia].
Defined.

(** That write changes the BIOS delay register, and the cached BIOS
    access times with it; the other two are computed again and come out
    the same. *)
Example DoWriteMemoryControl_retimes_BIOS :
  m_MEMCTRL_regs timed_bus !! bios_delay_size_index = Some 0x0013243F /\
  m_bios_access_time timed_bus = (7, 13, 25) /\
  exists st',
    DoWriteMemoryControl MEMDELAY_example_of COMDELAY_example_of
      0x2F1FFFFF 0x0003FFFF HalfWord 0x12 0xFFFF timed_bus = Some (tt, st') /\
    m_MEMCTRL_regs st' !! bios_delay_size_index = Some 0x2F1F0000 /\
    m_bios_access_time st' = (6, 8, 12) /\
    m_cdrom_access_time st' = m_cdrom_access_time timed_bus /\
    m_spu_access_time st' = m_spu_access_time timed_bus.
Proof.
  split; [reflexivity|]. split; [reflexivity|].
  eexists. split; [vm_compute; reflexivity|]. repeat split; reflexivity.
Qed.

Lemma PatchBIOS_patches_one_word_at_reset :
  BIOS_BASE <= Z.land 0xBFC06F0C 0x1FFFFFFF /\
  Z.land 0xBFC06F0C 0x1FFFFFFF + 4 <= BIOS_BASE + BIOS_SIZE /\
  0 <= 0x24010001 < 2 ^ 32 /\
  let phys_address := Z.land 0xBFC06F0C 0x1FFFFFFF in
  let offset := phys_address - BIOS_BASE in
  let existing := load_le (m_bios reset_bus) offset 4 in
  exists st',
    PatchBIOS 0xBFC06F0C 0x24010001 0xFFFFFFFF reset_bus = Some (tt, st') /\
    load_le (m_bios st') offset 4
    = (Z.lor (Z.land existing (not32 0xFFFFFFFF)) 0x24010001) mod 2 ^ 32 /\
    (0xFFFFFFFF = 0xFFFFFFFF -> load_le (m_bios st') offset 4 = 0x24010001) /\
    (forall k, k < offset \/ offset + 4 <= k -> m_bios st' !! k = m_bios reset_bus !! k) /\
    m_ram st' = m_ram reset_bus /\ m_MEMCTRL_regs st' = m_MEMCTRL_regs reset_bus.
Proof.
  split; [vm_compute; discriminate|]. split; [vm_compute; discriminate|]. split; [lia|].
  apply (PatchBIOS_patches_one_word 0xBFC06F0C 0x24010001 0xFFFFFFFF reset_bus);
    [vm_compute; discriminate | vm_compute; discriminate | lia].
Defined.

Lemma DoReadEXP1_stays_in_ROM_example :
  0 <= 6 /\ 6 + 4 < 2 ^ 32 /\
  Forall (fun b => 0 <= b < 256) (m_exp1_rom bus_with_rom) /\
  exists v,
    DoReadEXP1 Word 6 bus_with_rom = Some (v, bus_with_rom) /\
    (m_exp1_rom bus_with_rom = [] -> v = 0xFFFFFFFF) /\
    (m_exp1_rom bus_with_rom <> [] -> 6 = 0x20018 -> v = 1) /\
    (m_exp1_rom bus_with_rom <> [] -> 6 <> 0x20018 ->
     Z.of_nat (length (m_exp1_rom bus_with_rom)) < 6 + Z.of_nat (size_bytes Word) -> v = 0) /\
    (m_exp1_rom bus_with_rom <> [] -> 0 <= v < 2 ^ (8 * Z.of_nat (size_bytes Word))).
Proof.
  split; [lia|]. split; [lia|]. split; [exact rom_example_bytes|].
  apply (DoReadEXP1_stays_in_ROM Word 6 bus_with_rom); [lia | lia | exact rom_example_bytes].
Defined.

Lemma DoReadEXP1_word_of_halfwords_example :
  0 <= 4 /\
  4 + 4 <= Z.of_nat (length (m_exp1_rom bus_with_rom)) /\
  Z.of_nat (length (m_exp1_rom bus_with_rom)) < 2 ^ 32 /\
  Forall (fun b => 0 <= b < 256) (m_exp1_rom bus_with_rom) /\
  4 <> 0x20018 /\ 4 + 2 <> 0x20018 /\
  exists lo hi,
    DoReadEXP1 HalfWord 4 bus_with_rom = Some (lo, bus_with_rom) /\
    DoReadEXP1 HalfWord (4 + 2) bus_with_rom = Some (hi, bus_with_rom) /\
    DoReadEXP1 Word 4 bus_with_rom = Some (Z.lor lo (Z.shiftl hi 16), bus_with_rom).
Proof.
  split; [lia|]. split; [cbn; lia|]. split; [cbn; lia|]. split; [exact rom_example_bytes|].
  split; [lia|]. split; [lia|].
  apply (DoReadEXP1_word_of_halfwords 4 bus_with_rom);
    [lia | cbn; lia | cbn; lia | exact rom_example_bytes | lia | lia].
Defined.

Lemma TTY_line_is_logged_at_line_feed_example :
  Forall (fun b => b <> 10) [72; 13; 105] /\
  let line := (m_tty_line_buffer reset_bus ++ tty_chars [72; 13; 105])%string in
  (tty_write_all [72; 13; 105] >> DoWriteEXP2 Byte 0x23 10)%comp reset_bus
  = Some (if (String.length line =? 0)%nat then []
          else [Info ("TTY: " ++ c_str line)%string],
          set_tty_line_buffer EmptyString reset_bus).
Proof.
  assert (Hb : Forall (fun b => b <> 10) [72; 13; 105])
    by (repeat (apply Forall_cons; split; [lia|]); apply Forall_nil_2).
  split; [exact Hb|].
  apply (TTY_line_is_logged_at_line_feed Byte [72; 13; 105] reset_bus). exact Hb.
Defined.

(** The line that run logs. *)
Example TTY_line_value :
  (tty_write_all [72; 13; 105] >> DoWriteEXP2 Byte 0x23 10)%comp reset_bus
  = Some ([Info "TTY: Hi"], reset_bus).
Proof. reflexivity. Qed.

End BusMoreExamples.
